(** * Appointment bot: a shallow embedding of [main.py]

    The bot lets clients book a time block with one barber and lets the
    barber (the "master") confirm, cancel and restore the bookings.  This
    file embeds the handlers and keyboards of [main.py] as Rocq functions
    and proves the properties of the scheduling and lifecycle engine.

    [main.py] imports three modules of the repository, [config], [database]
    and [services].  The handlers are written against them as interfaces
    (classes [Config], [Database], [Services]); the module [Engine] gives an
    implementation of [Database] and [Services] that is modelled from the
    spec, and [Shop] a configuration to run examples in.

    What is proved for every implementation of the interfaces is a
    property of [main.py]; what is proved for [Engine] is a property of
    [main.py] on the engine of the design. *)

From Stdlib Require Import ZArith Lia Ascii String.
From stdpp Require Import base option list strings gmap pretty sorting.

Open Scope Z_scope.

(** ** The fragments of the Python runtime that [main.py] relies on *)

Module Py.

(** Exceptions raised by the built-ins and by the Telegram client.  All of
    them derive from [Exception], so [except Exception] catches each. *)
Inductive exn : Type :=
| TypeError (msg : string)
| ValueError (msg : string)
| OverflowError (msg : string)
| KeyError (msg : string)
| AttributeError (msg : string)
| TelegramError (msg : string).

(** The outcome of evaluating an expression. *)
Inductive result (A : Type) : Type :=
| Ok (a : A)
| Raise (e : exn).
Arguments Ok {A} a.
Arguments Raise {A} e.

#[global] Instance result_ret : MRet result := fun A a => Ok a.
#[global] Instance result_bind : MBind result := fun A B f r =>
  match r with Ok a => f a | Raise e => Raise e end.
#[global] Instance result_fmap : FMap result := fun A B f r =>
  match r with Ok a => Ok (f a) | Raise e => Raise e end.

(** [str(n)] for an [int]. *)
Definition str (n : Z) : string := pretty n.

(** [s.startswith(p)]. *)
Definition startswith (s p : string) : bool := String.prefix p s.

(** [s[n:]]. *)
Fixpoint slice_from (n : nat) (s : string) : string :=
  match n, s with
  | O, _ => s
  | S n', String _ s' => slice_from n' s'
  | S _, EmptyString => EmptyString
  end.

(** [s.split(sep)] for a one-character separator. *)
Fixpoint split_go (sep : ascii) (cur : string) (s : string) : list string :=
  match s with
  | EmptyString => [String.rev cur]
  | String c s' =>
      if Ascii.eqb c sep then String.rev cur :: split_go sep EmptyString s'
      else split_go sep (String c cur) s'
  end.
Definition split (sep : ascii) (s : string) : list string :=
  split_go sep EmptyString s.

(** [int(s)] for a [str]: surrounding ASCII white space, an optional sign,
    then decimal digits, single underscores allowed between digits.
    Anything else raises [ValueError]. *)
Definition is_space (c : ascii) : bool :=
  let n := nat_of_ascii c in
  ((9 <=? n)%nat && (n <=? 13)%nat) || (n =? 32)%nat.

Definition digit_of (c : ascii) : option Z :=
  let n := nat_of_ascii c in
  if ((48 <=? n)%nat && (n <=? 57)%nat) then Some (Z.of_nat (n - 48)) else None.

Definition is_digit (c : ascii) : Prop := is_Some (digit_of c).

Fixpoint lstrip (l : list ascii) : list ascii :=
  match l with
  | c :: l' => if is_space c then lstrip l' else l
  | [] => []
  end.

Definition strip (l : list ascii) : list ascii :=
  rev (lstrip (rev (lstrip l))).

Fixpoint parse_digits (acc : Z) (prev_digit : bool) (l : list ascii) : option Z :=
  match l with
  | [] => if prev_digit then Some acc else None
  | c :: l' =>
      match digit_of c with
      | Some d => parse_digits (10 * acc + d) true l'
      | None =>
          if Ascii.eqb c "_" && prev_digit then parse_digits acc false l'
          else None
      end
  end.

Definition int (s : string) : result Z :=
  let bad := Raise (ValueError "invalid literal for int() with base 10") in
  match strip (list_ascii_of_string s) with
  | c :: l =>
      if Ascii.eqb c "-" then
        match parse_digits 0 false l with Some n => Ok (- n) | None => bad end
      else if Ascii.eqb c "+" then
        match parse_digits 0 false l with Some n => Ok n | None => bad end
      else
        match parse_digits 0 false (c :: l) with Some n => Ok n | None => bad end
  | [] => bad
  end.

(** [x in l] on a list of strings. *)
Definition contains (x : string) (l : list string) : bool :=
  bool_decide (x ∈ l).

(** [l.remove(x)]: drops the first element equal to [x]; the call raises
    [ValueError] when there is none. *)
Fixpoint remove (x : string) (l : list string) : result (list string) :=
  match l with
  | [] => Raise (ValueError "list.remove(x): x not in list")
  | y :: l' =>
      if String.eqb y x then Ok l'
      else l'' ← remove x l'; Ok (y :: l'')
  end.

(** [l.append(x)]. *)
Definition append (l : list string) (x : string) : list string := l ++ [x].

(** [[l[i:i+n] for i in range(0, len(l), n)]]: the rows of a keyboard.  The
    fuel is the length of the list, which bounds the number of rows. *)
Fixpoint chunks_go {A : Type} (fuel n : nat) (l : list A) : list (list A) :=
  match fuel, l with
  | _, [] => []
  | O, _ => []
  | S fuel', _ => take n l :: chunks_go fuel' n (drop n l)
  end.
Definition chunks {A : Type} (n : nat) (l : list A) : list (list A) :=
  chunks_go (length l) n l.

(** Zero-padded decimal of width two ([%02d], [%d] and [%m] of strftime). *)
Definition pad2 (n : Z) : string :=
  if n <? 10 then "0" +:+ str n else str n.

Definition pad4 (n : Z) : string :=
  if n <? 10 then "000" +:+ str n
  else if n <? 100 then "00" +:+ str n
  else if n <? 1000 then "0" +:+ str n
  else str n.

End Py.

Import Py.

(** ** [datetime]: dates, times and durations *)

Module Datetime.

(** A [date] is its proleptic Gregorian ordinal ([date.toordinal()]): day 1
    is 0001-01-01, the last day is 9999-12-31. *)
Definition date : Type := Z.
Definition MAXORDINAL : Z := 3652059.

(** A [datetime] (naive) is the number of microseconds since
    0001-01-01T00:00:00. *)
Definition datetime : Type := Z.
Definition US_PER_MINUTE : Z := 60000000.
Definition US_PER_DAY : Z := 86400000000.
Definition MAXDATETIME : Z := MAXORDINAL * US_PER_DAY - 1.

(** The largest magnitude of a [timedelta], in days. *)
Definition MAXDELTADAYS : Z := 999999999.

(** [d + timedelta(days=i)]. *)
Definition date_add_days (d : date) (i : Z) : result date :=
  let o := d + i in
  if (0 <? o) && (o <=? MAXORDINAL) then Ok o
  else Raise (OverflowError "date value out of range").

(** [timedelta(minutes=m)], in microseconds; out of range it raises. *)
Definition timedelta_minutes (m : Z) : result Z :=
  let us := m * US_PER_MINUTE in
  if (us / US_PER_DAY <? - MAXDELTADAYS) || (MAXDELTADAYS <? us / US_PER_DAY)
  then Raise (OverflowError "days out of range for timedelta")
  else Ok us.

(** [t + delta] for a [datetime]: the sum must stay in the years 1..9999. *)
Definition datetime_add (t : datetime) (delta : Z) : result datetime :=
  let r := t + delta in
  if (0 <=? r) && (r <=? MAXDATETIME) then Ok r
  else Raise (OverflowError "date value out of range").

(** [t + timedelta(minutes=m)] where [t] may be [None]: the [timedelta] is
    built first, and [None] has no addition. *)
Definition add_minutes (t : option datetime) (m : Z) : result datetime :=
  delta ← timedelta_minutes m;
  match t with
  | Some t' => datetime_add t' delta
  | None => Raise (TypeError "unsupported operand type(s) for +")
  end.

(** [t.date()]. *)
Definition date_of (t : datetime) : date := t / US_PER_DAY + 1.

(** [datetime.combine(d, time(h, mi))]. *)
Definition at_time (d : date) (h mi : Z) : datetime :=
  (d - 1) * US_PER_DAY + (h * 60 + mi) * US_PER_MINUTE.

(** [d.weekday()]: Monday is 0. *)
Definition weekday (d : date) : Z := (d + 6) mod 7.

Definition is_leap (y : Z) : bool :=
  (y mod 4 =? 0) && (negb (y mod 100 =? 0) || (y mod 400 =? 0)).

Definition days_in_month (y m : Z) : Z :=
  if m =? 2 then (if is_leap y then 29 else 28)
  else if (m =? 4) || (m =? 6) || (m =? 9) || (m =? 11) then 30
  else 31.

Definition days_before_month (y m : Z) : Z :=
  foldr Z.add 0 ((fun k => days_in_month y (Z.of_nat k)) <$> seq 1 (Z.to_nat (m - 1))).

(** The year, month and day of an ordinal, by the algorithm of the
    standard library ([_ord2ymd]). *)
Definition ord2ymd (n0 : Z) : Z * Z * Z :=
  let n := n0 - 1 in
  let n400 := n / 146097 in
  let n := n mod 146097 in
  let year := n400 * 400 + 1 in
  let n100 := n / 36524 in
  let n := n mod 36524 in
  let n4 := n / 1461 in
  let n := n mod 1461 in
  let n1 := n / 365 in
  let n := n mod 365 in
  let year := year + n100 * 100 + n4 * 4 + n1 in
  if (n1 =? 4) || (n100 =? 4) then (year - 1, 12, 31)
  else
    let leapyear := (n1 =? 3) && (negb (n4 =? 24) || (n100 =? 3)) in
    let month := Z.shiftr (n + 50) 5 in
    let preceding :=
      days_before_month 1 month + (if (2 <? month) && leapyear then 1 else 0) in
    if n <? preceding then
      let month' := month - 1 in
      let preceding' :=
        preceding - (days_in_month 1 month'
                     + (if (month' =? 2) && leapyear then 1 else 0)) in
      (year, month', n - preceding' + 1)
    else (year, month, n - preceding + 1).

(** [d.isoformat()]. *)
Definition isoformat (d : date) : string :=
  let '(y, m, dd) := ord2ymd d in
  pad4 y +:+ "-" +:+ pad2 m +:+ "-" +:+ pad2 dd.

(** [d.strftime("%d.%m.%Y")]; the C library prints the year unpadded. *)
Definition strftime_dmy (d : date) : string :=
  let '(y, m, dd) := ord2ymd d in
  pad2 dd +:+ "." +:+ pad2 m +:+ "." +:+ str y.

(** [t.strftime("%H:%M")]. *)
Definition strftime_HM (t : datetime) : string :=
  let mins := (t mod US_PER_DAY) / US_PER_MINUTE in
  pad2 (mins / 60) +:+ ":" +:+ pad2 (mins mod 60).

(** [t.isoformat()]: seconds always, microseconds when not zero. *)
Definition pad6 (n : Z) : string :=
  if n <? 10 then "00000" +:+ str n
  else if n <? 100 then "0000" +:+ str n
  else if n <? 1000 then "000" +:+ str n
  else if n <? 10000 then "00" +:+ str n
  else if n <? 100000 then "0" +:+ str n
  else str n.

Definition datetime_isoformat (t : datetime) : string :=
  let us := t mod US_PER_DAY in
  let secs := us / 1000000 in
  let frac := us mod 1000000 in
  isoformat (date_of t) +:+ "T" +:+ pad2 (secs / 3600) +:+ ":" +:+
  pad2 ((secs / 60) mod 60) +:+ ":" +:+ pad2 (secs mod 60) +:+
  (if frac =? 0 then "" else "." +:+ pad6 frac).

(** The ordinal of a year, month and day ([_ymd2ord]). *)
Definition days_before_year (y : Z) : Z :=
  let y' := y - 1 in y' * 365 + y' / 4 - y' / 100 + y' / 400.

Definition ymd2ord (y m dd : Z) : result date :=
  if (1 <=? y) && (y <=? 9999) && (1 <=? m) && (m <=? 12)
     && (1 <=? dd) && (dd <=? days_in_month y m)
  then Ok (days_before_year y + days_before_month y m + dd)
  else Raise (ValueError "day or month is out of range").

Definition number (l : list ascii) : option Z :=
  match l with
  | [] => None
  | _ => foldl (fun acc c => n ← acc; d ← digit_of c; Some (10 * n + d)) (Some 0) l
  end.

(** The parsers of the standard library read at least what [isoformat]
    writes; these two read exactly that: [YYYY-MM-DD], and
    [YYYY-MM-DDTHH:MM:SS] with an optional [.ffffff]. *)
Definition parse_date (l : list ascii) : result date :=
  let bad := Raise (ValueError "Invalid isoformat string") in
  match l with
  | [y1; y2; y3; y4; s1; m1; m2; s2; d1; d2] =>
      if Ascii.eqb s1 "-" && Ascii.eqb s2 "-" then
        match number [y1; y2; y3; y4], number [m1; m2], number [d1; d2] with
        | Some y, Some m, Some dd => ymd2ord y m dd
        | _, _, _ => bad
        end
      else bad
  | _ => bad
  end.

Definition parse_time (l : list ascii) : result Z :=
  let bad := Raise (ValueError "Invalid isoformat string") in
  match l with
  | h1 :: h2 :: s1 :: m1 :: m2 :: s2 :: c1 :: c2 :: frac =>
      if Ascii.eqb s1 ":" && Ascii.eqb s2 ":" then
        match number [h1; h2], number [m1; m2], number [c1; c2] with
        | Some h, Some m, Some c =>
            if (h <? 24) && (m <? 60) && (c <? 60) then
              let whole := ((h * 60 + m) * 60 + c) * 1000000 in
              match frac with
              | [] => Ok whole
              | [p; f1; f2; f3; f4; f5; f6] =>
                  match number [f1; f2; f3; f4; f5; f6] with
                  | Some us => if Ascii.eqb p "." then Ok (whole + us) else bad
                  | None => bad
                  end
              | _ => bad
              end
            else bad
        | _, _, _ => bad
        end
      else bad
  | _ => bad
  end.

Definition strict_date_fromisoformat (s : string) : result date :=
  parse_date (list_ascii_of_string s).

Definition strict_datetime_fromisoformat (s : string) : result datetime :=
  let l := list_ascii_of_string s in
  d ← parse_date (take 10 l);
  match drop 10 l with
  | sep :: rest =>
      if Ascii.eqb sep "T" then
        us ← parse_time rest; Ok ((d - 1) * US_PER_DAY + us)
      else Raise (ValueError "Invalid isoformat string")
  | [] => Ok ((d - 1) * US_PER_DAY)
  end.

End Datetime.

Import Datetime.


(** ** The Telegram client as [main.py] uses it *)

Module Telegram.

Record InlineKeyboardButton : Type := {
  text : string;
  callback_data : string
}.

Definition InlineKeyboardMarkup : Type := list (list InlineKeyboardButton).

Record ReplyKeyboardMarkup : Type := {
  keyboard : list (list string);
  resize_keyboard : bool
}.

(** A [reply_markup] of [reply_text]. *)
Inductive Markup : Type :=
| Reply (kb : ReplyKeyboardMarkup)
| Inline (kb : InlineKeyboardMarkup).

(** The requests a handler sends. *)
Inductive call : Type :=
| reply_text (msg : string) (reply_markup : Markup)
| edit_message_text (msg : string) (reply_markup : option InlineKeyboardMarkup)
| edit_message_reply_markup (reply_markup : InlineKeyboardMarkup)
| answer (msg : string)
| send_message (chat_id : string) (msg : string)
    (reply_markup : option InlineKeyboardMarkup).

(** An update is a text message ([update.message]) or the press of an
    inline button ([update.callback_query]). *)
Inductive UpdateKind : Type := TextMessage | CallbackQuery.

(** What a handler reads of an [Update].  The dispatcher hands a message to
    a [MessageHandler] or [CommandHandler] and a callback query to a
    [CallbackQueryHandler]. *)
Record Update : Type := {
  kind : UpdateKind;
  effective_user_id : Z;
  full_name : string;
  first_name : string;
  message_text : string;
  query_data : string
}.

(** The buttons of a keyboard, row after row. *)
Definition buttons (kb : InlineKeyboardMarkup) : list InlineKeyboardButton :=
  concat kb.

End Telegram.

Import Telegram.

(** ** What the handlers observe and change *)

(** An appointment as the database hands it out, as an object
    ([get_appointment_by_id], [get_user_appointments]) or as a dictionary
    ([get_appointment_with_user]); the user may be missing. *)
Record UserData : Type := {
  u_name : string;
  u_telegram_id : string
}.

Record AppointmentData : Type := {
  ad_id : Z;
  ad_user : option UserData;
  ad_services_list : list string;
  ad_start_time : datetime;
  ad_end_time : datetime;
  ad_status : string;
  ad_status_text : string;
  ad_duration_minutes : Z
}.

(** [config.py]. *)
Class Config : Type := {
  BOT_TOKEN : string;
  SERVICES : list (string * Z);
  MASTER_TELEGRAM_ID : string;
  APPOINTMENT_STATUSES : list (string * string);
  BARBERSHOP_ADDRESS : string
}.

(** [database.py], over a database state [D].  A function that writes
    returns the new state with its result. *)
Class Database (D : Type) : Type := {
  add_user : D → string → string → D;
  get_user_appointments : D → string → list AppointmentData;
  create_appointment :
    D → string → list string → datetime → datetime → D * option Z;
  get_appointment_by_id : D → Z → option AppointmentData;
  get_appointment_with_user : D → Z → option AppointmentData;
  update_appointment_status : D → Z → string → D * bool;
  cancel_appointment : D → Z → D * bool;
  get_all_appointments : D → list AppointmentData;
  get_appointments_for_date : D → date → list AppointmentData
}.

(** [services.py]; [get_available_slots] reads the database and the clock,
    [is_valid_date] the clock. *)
Class Services (D : Type) : Type := {
  calculate_total_duration : list string → result Z;
  get_available_slots : D → datetime → date → Z → list datetime;
  format_time_slot : datetime → string;
  format_appointment_info : list string → datetime → datetime → string;
  is_valid_date : datetime → date → bool
}.

(** [date.fromisoformat] and [datetime.fromisoformat] of the runtime. *)
Class Runtime : Type := {
  date_fromisoformat : string → result date;
  datetime_fromisoformat : string → result datetime
}.

(** The states of the [ConversationHandler]. *)
Inductive ConvState : Type :=
| MAIN_MENU
| SELECTING_SERVICES
| SELECTING_DATE
| SELECTING_TIME
| CONFIRMING_APPOINTMENT
| VIEWING_APPOINTMENTS
| ADMIN_MENU.

Definition CALLBACK_SERVICES_PREFIX : string := "service:".
Definition CALLBACK_DATE_PREFIX : string := "date:".
Definition CALLBACK_TIME_PREFIX : string := "time:".
Definition CALLBACK_APPOINTMENT_PREFIX : string := "appointment:".
Definition CALLBACK_CONFIRM_PREFIX : string := "confirm:".
Definition CALLBACK_CANCEL_PREFIX : string := "cancel:".
Definition CALLBACK_ADMIN_CONFIRM : string := "admin_confirm:".
Definition CALLBACK_ADMIN_CANCEL : string := "admin_cancel:".
Definition CALLBACK_ADMIN_LIST : string := "admin_list:".
Definition CALLBACK_ADMIN_DATE : string := "admin_date:".
Definition CALLBACK_ADMIN_STATUS : string := "admin_status:".

(** One entry of [user_data_dict]. *)
Record Session : Type := {
  selected_services : list string;
  selected_date : option date;
  selected_time : option datetime
}.

Definition new_session : Session :=
  {| selected_services := []; selected_date := None; selected_time := None |}.

(** What a handler leaves behind: the requests that went through, and the
    lines of [logger.error]. *)
Inductive event : Type :=
| Called (c : call)
| Logged (msg : string) (e : exn).

Definition nl : string := String (ascii_of_nat 10) EmptyString.

(** A dictionary lookup [d[k]] and [d.get(k, default)]. *)
Fixpoint dict_get {V : Type} (d : list (string * V)) (k : string) : option V :=
  match d with
  | [] => None
  | (k', v) :: d' => if String.eqb k' k then Some v else dict_get d' k
  end.

Definition dict_getitem {V : Type} (d : list (string * V)) (k : string) : result V :=
  match dict_get d k with
  | Some v => Ok v
  | None => Raise (KeyError k)
  end.

(** What the database keeps of an appointment besides its status: the
    services, the start and the end.  Such a row is consistent when the end
    is the start plus the durations of the services in the catalog. *)
Definition Row : Type := list string * datetime * datetime.

Definition duration_consistent `{!Config} (row : Row) : Prop :=
  ∃ durations,
    mapM (dict_getitem SERVICES) row.1.1 = Ok durations
    ∧ row.2 - row.1.2 = foldr Z.add 0 durations * US_PER_MINUTE.

(** ** The keyboards *)

Section Keyboards.

Context {D : Type} `{!Config} `{!Database D} `{!Services D}.

Definition get_main_menu_keyboard (is_admin : bool) : ReplyKeyboardMarkup :=
  let keyboard := [["✅ Старт"]; ["Выбрать услугу"]; ["Мои записи"]] in
  {| keyboard := if is_admin then keyboard ++ [["👨‍💼 Админ-панель"]] else keyboard;
     resize_keyboard := true |}.

Definition service_button (selected_services : list string)
    (service_name : string) : result InlineKeyboardButton :=
  let prefix := if contains service_name selected_services then "✅ " else "" in
  duration ← dict_getitem SERVICES service_name;
  Ok {| text := prefix +:+ service_name +:+ " (" +:+ str duration +:+ " мин)";
        callback_data := CALLBACK_SERVICES_PREFIX +:+ service_name |}.

Definition get_services_keyboard (selected_services : list string)
    : result InlineKeyboardMarkup :=
  let services_list := SERVICES.*1 in
  keyboard ← mapM (mapM (service_button selected_services)) (chunks 2 services_list);
  done_row ←
    match selected_services with
    | [] => Ok []
    | _ =>
        total_duration ← calculate_total_duration selected_services;
        Ok [[ {| text := "Готово (всего " +:+ str total_duration +:+ " мин)";
                 callback_data := "services_done" |} ]]
    end;
  Ok (keyboard ++ done_row ++ [[ {| text := "Отмена"; callback_data := "cancel" |} ]]).

Definition weekday_names : list string :=
  ["Понедельник"; "Вторник"; "Среда"; "Четверг"; "Пятница"; "Суббота";
   "Воскресенье"].

(** The row of the date keyboard for day [i] of the loop. *)
Definition date_row (today : date) (i : Z) : result (list InlineKeyboardButton) :=
  date ← date_add_days today i;
  let date_str := strftime_dmy date in
  weekday ←
    match weekday_names !! Z.to_nat (weekday date) with
    | Some w => Ok w
    | None => Raise (TypeError "list index out of range")
    end;
  let button_text :=
    if i =? 0 then "Сегодня, " +:+ date_str +:+ " (" +:+ weekday +:+ ")"
    else if i =? 1 then "Завтра, " +:+ date_str +:+ " (" +:+ weekday +:+ ")"
    else date_str +:+ " (" +:+ weekday +:+ ")" in
  Ok [ {| text := button_text;
          callback_data := CALLBACK_DATE_PREFIX +:+ isoformat date |} ].

(** [get_date_keyboard()], given what [datetime.date.today()] returns. *)
Definition get_date_keyboard (today : date) : result InlineKeyboardMarkup :=
  keyboard ← mapM (date_row today) (Z.of_nat <$> seq 0 7);
  Ok (keyboard ++ [[ {| text := "Отмена"; callback_data := "cancel" |} ]]).

Definition time_button (slot : datetime) : InlineKeyboardButton :=
  {| text := format_time_slot slot;
     callback_data := CALLBACK_TIME_PREFIX +:+ datetime_isoformat slot |}.

(** [get_time_keyboard(date, duration_minutes)], given the database and the
    clock that [get_available_slots] reads. *)
Definition get_time_keyboard (d : D) (now : datetime) (date : date)
    (duration_minutes : Z) : InlineKeyboardMarkup :=
  let available_slots := get_available_slots d now date duration_minutes in
  let keyboard :=
    match available_slots with
    | [] => [[ {| text := "Нет доступных слотов на эту дату";
                  callback_data := "no_slots" |} ]]
    | _ => (fun row : list datetime => time_button <$> row)
           <$> chunks 3 available_slots
    end in
  keyboard
  ++ [[ {| text := "Назад к выбору даты"; callback_data := "back_to_date" |} ]]
  ++ [[ {| text := "Отмена"; callback_data := "cancel" |} ]].

Definition get_confirm_keyboard : InlineKeyboardMarkup :=
  [ [ {| text := "Подтвердить запись"; callback_data := "confirm_appointment" |} ];
    [ {| text := "Назад к выбору времени"; callback_data := "back_to_time" |} ];
    [ {| text := "Отмена"; callback_data := "cancel" |} ] ].

Definition status_emoji_of (status : string) : string :=
  if String.eqb status "PENDING" then "⏳"
  else if String.eqb status "CONFIRMED" then "✅"
  else "❌".

Definition appointment_row (appointment : AppointmentData)
    : list InlineKeyboardButton :=
  let start_time := ad_start_time appointment in
  let date_str := strftime_dmy (date_of start_time) in
  let time_str := strftime_HM start_time in
  let status_emoji := status_emoji_of (ad_status appointment) in
  [ {| text := status_emoji +:+ " " +:+ date_str +:+ " " +:+ time_str +:+ " ("
               +:+ ad_status_text appointment +:+ ")";
       callback_data := CALLBACK_APPOINTMENT_PREFIX +:+ str (ad_id appointment) |} ].

Definition get_appointments_keyboard (appointments : list AppointmentData)
    : InlineKeyboardMarkup :=
  let keyboard :=
    match appointments with
    | [] => [[ {| text := "У вас нет активных записей";
                  callback_data := "no_appointments" |} ]]
    | _ => appointment_row <$> appointments
    end in
  keyboard
  ++ [[ {| text := "Назад в главное меню"; callback_data := "back_to_main" |} ]].

Definition get_appointment_actions_keyboard (appointment_id : Z) (status : string)
    : InlineKeyboardMarkup :=
  (if negb (String.eqb status "CANCELLED") then
     [[ {| text := "Отменить запись";
           callback_data := CALLBACK_CANCEL_PREFIX +:+ str appointment_id |} ]]
   else [])
  ++ [[ {| text := "Назад к списку записей";
           callback_data := "back_to_appointments" |} ]].

Definition get_admin_menu_keyboard : ReplyKeyboardMarkup :=
  {| keyboard := [ ["👥 Все записи"; "📅 Записи на сегодня"];
                   ["⏩ Записи на завтра"];
                   ["🔄 Обновить"; "🏠 Главное меню"] ];
     resize_keyboard := true |}.

(** [sorted(appointments, key=lambda x: x.start_time)]: a stable sort. *)
Fixpoint insert_by_start (x : AppointmentData) (l : list AppointmentData)
    : list AppointmentData :=
  match l with
  | [] => [x]
  | y :: l' =>
      if ad_start_time x <? ad_start_time y then x :: l
      else y :: insert_by_start x l'
  end.

Definition sorted_by_start (l : list AppointmentData) : list AppointmentData :=
  foldl (fun acc x => insert_by_start x acc) [] l.

Definition admin_list_row (appointment : AppointmentData)
    : list InlineKeyboardButton :=
  let start_time := ad_start_time appointment in
  let date_str := strftime_dmy (date_of start_time) in
  let time_str := strftime_HM start_time in
  let client_name :=
    match ad_user appointment with
    | Some u => u_name u
    | None => "Неизвестно"
    end in
  let status_emoji := status_emoji_of (ad_status appointment) in
  let services_count := Z.of_nat (length (ad_services_list appointment)) in
  let duration := ad_duration_minutes appointment in
  [ {| text := status_emoji +:+ " " +:+ date_str +:+ " " +:+ time_str +:+ " - "
               +:+ client_name +:+ " (" +:+ str services_count +:+ " усл., "
               +:+ str duration +:+ " мин)";
       callback_data := CALLBACK_ADMIN_LIST +:+ str (ad_id appointment) |} ].

Definition get_admin_list_keyboard (appointments : list AppointmentData)
    : InlineKeyboardMarkup :=
  let keyboard :=
    match appointments with
    | [] => [[ {| text := "❌ Нет активных записей";
                  callback_data := "no_admin_appointments" |} ]]
    | _ => admin_list_row <$> sorted_by_start appointments
    end in
  keyboard
  ++ [[ {| text := "🔍 Обновить список"; callback_data := "admin_refresh_list" |} ]]
  ++ [[ {| text := "🔙 Назад в меню администратора";
           callback_data := "back_to_admin_menu" |} ]].

Definition get_admin_appointment_actions_keyboard (appointment_id : Z)
    (status : string) : InlineKeyboardMarkup :=
  (if String.eqb status "PENDING" then
     [ [ {| text := "✅ Подтвердить запись";
            callback_data := CALLBACK_ADMIN_CONFIRM +:+ str appointment_id |} ];
       [ {| text := "❌ Отменить запись";
            callback_data := CALLBACK_ADMIN_CANCEL +:+ str appointment_id |} ] ]
   else if String.eqb status "CONFIRMED" then
     [ [ {| text := "⏳ Изменить на 'Ожидает'";
            callback_data :=
              CALLBACK_ADMIN_STATUS +:+ "PENDING:" +:+ str appointment_id |} ];
       [ {| text := "❌ Отменить запись";
            callback_data := CALLBACK_ADMIN_CANCEL +:+ str appointment_id |} ] ]
   else if String.eqb status "CANCELLED" then
     [ [ {| text := "✅ Восстановить и подтвердить";
            callback_data := CALLBACK_ADMIN_CONFIRM +:+ str appointment_id |} ];
       [ {| text := "⏳ Восстановить как 'Ожидает'";
            callback_data :=
              CALLBACK_ADMIN_STATUS +:+ "PENDING:" +:+ str appointment_id |} ] ]
   else [])
  ++ [ [ {| text := "📱 Написать клиенту";
            callback_data := "admin_message_client:" +:+ str appointment_id |} ];
       [ {| text := "🔙 Назад к списку"; callback_data := "back_to_admin_list" |} ] ].

Definition get_admin_confirmation_keyboard (appointment_id : Z)
    : InlineKeyboardMarkup :=
  [ [ {| text := "Подтвердить";
         callback_data := CALLBACK_ADMIN_CONFIRM +:+ str appointment_id |} ];
    [ {| text := "Отменить";
         callback_data := CALLBACK_ADMIN_CANCEL +:+ str appointment_id |} ] ].

End Keyboards.

(** ** The handlers *)

Section Handlers.

Context {D : Type} `{!Config} `{!Database D} `{!Services D} `{!Runtime}.

(** The state a handler runs in: the database, the global [user_data_dict]
    and what has been sent and logged so far. *)
Record World : Type := {
  db : D;
  user_data_dict : gmap Z Session;
  trace : list event
}.

(** The Telegram servers: whether a request raises, given what happened
    before it.  [now] is what the clock shows while the handler runs. *)
Variable bot : list event → call → option exn.
Variable now : datetime.

(** A handler step: a result or an exception, and the state it leaves.  An
    exception undoes nothing. *)
Definition M (A : Type) : Type := World → result A * World.

#[local] Instance M_ret : MRet M := fun A a w => (Ok a, w).
#[local] Instance M_bind : MBind M := fun A B f m w =>
  match m w with
  | (Ok a, w') => f a w'
  | (Raise e, w') => (Raise e, w')
  end.

Definition lift {A : Type} (r : result A) : M A := fun w => (r, w).

(** [await c]: the request goes through and is recorded, or it raises. *)
Definition await (c : call) : M unit := fun w =>
  match bot (trace w) c with
  | None =>
      (Ok tt, {| db := db w; user_data_dict := user_data_dict w;
                 trace := trace w ++ [Called c] |})
  | Some e => (Raise e, w)
  end.

(** [logger.error(f"{msg}{e}")]. *)
Definition logger_error (msg : string) (e : exn) : M unit := fun w =>
  (Ok tt, {| db := db w; user_data_dict := user_data_dict w;
             trace := trace w ++ [Logged msg e] |}).

(** [try: body except Exception as e: handler(e)]. *)
Definition try_except {A : Type} (body : M A) (handler : exn → M A) : M A :=
  fun w =>
    match body w with
    | (Ok a, w') => (Ok a, w')
    | (Raise e, w') => handler e w'
    end.

Definition read_db {A : Type} (f : D → A) : M A := fun w => (Ok (f (db w)), w).

Definition write_db {A : Type} (f : D → D * A) : M A := fun w =>
  let '(d', a) := f (db w) in
  (Ok a, {| db := d'; user_data_dict := user_data_dict w; trace := trace w |}).

Definition set_user_data (user_id : Z) (s : Session) : M unit := fun w =>
  (Ok tt, {| db := db w; user_data_dict := <[user_id := s]> (user_data_dict w);
             trace := trace w |}).

Definition get_user_data (user_id : Z) : M Session := fun w =>
  match user_data_dict w !! user_id with
  | Some s => (Ok s, w)
  | None => (_ ← set_user_data user_id new_session; mret new_session) w
  end.

Definition clear_user_data (user_id : Z) : M unit := fun w =>
  match user_data_dict w !! user_id with
  | Some _ => set_user_data user_id new_session w
  | None => (Ok tt, w)
  end.

(** [appointment_data['user'][key]]: [None] cannot be subscripted. *)
Definition user_field {A : Type} (appointment_data : AppointmentData)
    (field : UserData → A) : result A :=
  match ad_user appointment_data with
  | Some u => Ok (field u)
  | None => Raise (TypeError "'NoneType' object is not subscriptable")
  end.

(** A database identifier in a condition: [None] and [0] are false. *)
Definition truthy (appointment_id : option Z) : option Z :=
  match appointment_id with
  | Some n => if n =? 0 then None else Some n
  | None => None
  end.

Definition start (update : Update) : M (option ConvState) :=
  let user_id := effective_user_id update in
  let is_admin := String.eqb (str user_id) MASTER_TELEGRAM_ID in
  write_db (fun d => (add_user d (str user_id) (full_name update), tt));;
  clear_user_data user_id;;
  await (reply_text
    ("Здравствуйте, " +:+ first_name update +:+ "!" +:+ nl +:+ nl
     +:+ "Это бот для записи к парикмахеру." +:+ nl
     +:+ "Наш адрес: " +:+ BARBERSHOP_ADDRESS +:+ nl +:+ nl
     +:+ "Вы можете выбрать услуги и удобное время для записи.")
    (Reply (get_main_menu_keyboard is_admin)));;
  mret (Some MAIN_MENU).

Definition main_menu (update : Update) : M (option ConvState) :=
  let user_id := effective_user_id update in
  let message_text := message_text update in
  let is_admin := String.eqb (str user_id) MASTER_TELEGRAM_ID in
  if String.eqb message_text "👨‍💼 Админ-панель" && is_admin then
    await (reply_text "Вы вошли в панель администратора."
             (Reply get_admin_menu_keyboard));;
    mret (Some ADMIN_MENU)
  else if String.eqb message_text "✅ Старт" then
    await (reply_text
      ("Здравствуйте, " +:+ first_name update +:+ "!" +:+ nl +:+ nl
       +:+ "Добро пожаловать в бот для записи к парикмахеру." +:+ nl
       +:+ "Наш адрес: " +:+ BARBERSHOP_ADDRESS +:+ nl +:+ nl
       +:+ "Вы можете выбрать услуги и удобное время для записи.")
      (Reply (get_main_menu_keyboard is_admin)));;
    mret (Some MAIN_MENU)
  else if String.eqb message_text "Выбрать услугу" then
    user_data ← get_user_data user_id;
    set_user_data user_id
      {| selected_services := [];
         selected_date := selected_date user_data;
         selected_time := selected_time user_data |};;
    kb ← lift (get_services_keyboard []);
    await (reply_text "Выберите услуги:" (Inline kb));;
    mret (Some SELECTING_SERVICES)
  else if String.eqb message_text "Мои записи" then
    appointments ← read_db (fun d => get_user_appointments d (str user_id));
    match appointments with
    | [] =>
        await (reply_text "У вас нет активных записей."
                 (Reply (get_main_menu_keyboard is_admin)));;
        mret (Some MAIN_MENU)
    | _ =>
        await (reply_text "Ваши записи:"
                 (Inline (get_appointments_keyboard appointments)));;
        mret (Some VIEWING_APPOINTMENTS)
    end
  else
    await (reply_text "Пожалуйста, выберите действие:"
             (Reply (get_main_menu_keyboard is_admin)));;
    mret (Some MAIN_MENU).

(** The update of [selected_services] in [select_services]: a selected
    service is removed, another one is appended. *)
Definition toggle_service (service_name : string) (selected : list string)
    : result (list string) :=
  if contains service_name selected then remove service_name selected
  else Ok (append selected service_name).

Definition select_services (update : Update) : M (option ConvState) :=
  let query_data := query_data update in
  let user_id := effective_user_id update in
  user_data ← get_user_data user_id;
  if startswith query_data CALLBACK_SERVICES_PREFIX then
    let service_name :=
      slice_from (String.length CALLBACK_SERVICES_PREFIX) query_data in
    selected ← lift (toggle_service service_name (selected_services user_data));
    set_user_data user_id
      {| selected_services := selected;
         selected_date := selected_date user_data;
         selected_time := selected_time user_data |};;
    kb ← lift (get_services_keyboard selected);
    await (edit_message_reply_markup kb);;
    mret (Some SELECTING_SERVICES)
  else if String.eqb query_data "services_done" then
    let selected_services := selected_services user_data in
    match selected_services with
    | [] =>
        await (answer "Выберите хотя бы одну услугу!");;
        mret (Some SELECTING_SERVICES)
    | _ =>
        total ← lift (calculate_total_duration selected_services);
        kb ← lift (get_date_keyboard (date_of now));
        await (edit_message_text
          ("Выбрано услуг: " +:+ str (Z.of_nat (length selected_services)) +:+ nl
           +:+ "Общая длительность: " +:+ str total +:+ " минут" +:+ nl +:+ nl
           +:+ "Выберите дату:")
          (Some kb));;
        mret (Some SELECTING_DATE)
    end
  else if String.eqb query_data "cancel" then
    await (edit_message_text "Запись отменена." None);;
    mret (Some MAIN_MENU)
  else mret (Some SELECTING_SERVICES).

Definition select_date (update : Update) : M (option ConvState) :=
  let query_data := query_data update in
  let user_id := effective_user_id update in
  user_data ← get_user_data user_id;
  if startswith query_data CALLBACK_DATE_PREFIX then
    let date_str := slice_from (String.length CALLBACK_DATE_PREFIX) query_data in
    selected_date ← lift (date_fromisoformat date_str);
    if negb (is_valid_date now selected_date) then
      await (answer "Выбрана невалидная дата!");;
      mret (Some SELECTING_DATE)
    else
      set_user_data user_id
        {| selected_services := selected_services user_data;
           selected_date := Some selected_date;
           selected_time := selected_time user_data |};;
      duration ← lift (calculate_total_duration (selected_services user_data));
      kb ← read_db (fun d => get_time_keyboard d now selected_date duration);
      await (edit_message_text
        ("Выбрана дата: " +:+ strftime_dmy selected_date +:+ nl
         +:+ "Длительность услуг: " +:+ str duration +:+ " минут" +:+ nl +:+ nl
         +:+ "Выберите время:")
        (Some kb));;
      mret (Some SELECTING_TIME)
  else if String.eqb query_data "cancel" then
    await (edit_message_text "Запись отменена." None);;
    mret (Some MAIN_MENU)
  else mret (Some SELECTING_DATE).

Definition select_time (update : Update) : M (option ConvState) :=
  let query_data := query_data update in
  let user_id := effective_user_id update in
  user_data ← get_user_data user_id;
  if startswith query_data CALLBACK_TIME_PREFIX then
    let time_str := slice_from (String.length CALLBACK_TIME_PREFIX) query_data in
    selected_time ← lift (datetime_fromisoformat time_str);
    set_user_data user_id
      {| selected_services := selected_services user_data;
         selected_date := selected_date user_data;
         selected_time := Some selected_time |};;
    duration ← lift (calculate_total_duration (selected_services user_data));
    end_time ← lift (add_minutes (Some selected_time) duration);
    let appointment_info :=
      format_appointment_info (selected_services user_data) selected_time
        end_time in
    await (edit_message_text
      ("Подтвердите запись:" +:+ nl +:+ nl +:+ appointment_info)
      (Some get_confirm_keyboard));;
    mret (Some CONFIRMING_APPOINTMENT)
  else if String.eqb query_data "back_to_date" then
    kb ← lift (get_date_keyboard (date_of now));
    await (edit_message_text "Выберите дату:" (Some kb));;
    mret (Some SELECTING_DATE)
  else if String.eqb query_data "no_slots" then
    await (answer "На эту дату нет доступных слотов. Выберите другую дату.");;
    mret (Some SELECTING_TIME)
  else if String.eqb query_data "cancel" then
    await (edit_message_text "Запись отменена." None);;
    mret (Some MAIN_MENU)
  else mret (Some SELECTING_TIME).

(** The notification of the master about a new appointment, the body of the
    [try] in [confirm_appointment]. *)
Definition notify_master_created (appointment_id : Z)
    (appointment_data : AppointmentData) : M unit :=
  let appointment_info :=
    format_appointment_info (ad_services_list appointment_data)
      (ad_start_time appointment_data) (ad_end_time appointment_data) in
  client_name ← lift (user_field appointment_data u_name);
  await (send_message MASTER_TELEGRAM_ID
    ("Новая заявка на запись!" +:+ nl +:+ nl
     +:+ "Клиент: " +:+ client_name +:+ nl +:+ nl
     +:+ appointment_info)
    (Some (get_admin_confirmation_keyboard appointment_id))).

Definition confirm_appointment (update : Update) : M (option ConvState) :=
  let query_data := query_data update in
  let user_id := effective_user_id update in
  user_data ← get_user_data user_id;
  if String.eqb query_data "confirm_appointment" then
    let selected_services := selected_services user_data in
    let selected_time := selected_time user_data in
    duration ← lift (calculate_total_duration selected_services);
    end_time ← lift (add_minutes selected_time duration);
    (** [selected_time] is a [datetime] here: [None] has raised above *)
    appointment_id ←
      write_db (fun d =>
        create_appointment d (str user_id) selected_services
          (default 0 selected_time) end_time);
    match truthy appointment_id with
    | Some appointment_id =>
        await (edit_message_text
          ("Ваша запись создана и ожидает подтверждения мастера." +:+ nl
           +:+ "Вы получите уведомление, когда мастер подтвердит или отменит запись.")
          None);;
        appointment_data ←
          read_db (fun d => get_appointment_with_user d appointment_id);
        match appointment_data with
        | Some appointment_data =>
            try_except (notify_master_created appointment_id appointment_data)
              (logger_error "Ошибка при отправке уведомления мастеру: ")
        | None => mret tt
        end
    | None =>
        await (edit_message_text
          "Произошла ошибка при создании записи. Пожалуйста, попробуйте еще раз."
          None)
    end;;
    clear_user_data user_id;;
    mret (Some MAIN_MENU)
  else if String.eqb query_data "back_to_time" then
    duration ← lift (calculate_total_duration (selected_services user_data));
    match selected_date user_data with
    | None =>
        lift (Raise (AttributeError "'NoneType' object has no attribute 'strftime'"))
    | Some selected_date =>
        kb ← read_db (fun d => get_time_keyboard d now selected_date duration);
        await (edit_message_text
          ("Выбрана дата: " +:+ strftime_dmy selected_date +:+ nl
           +:+ "Длительность услуг: " +:+ str duration +:+ " минут" +:+ nl +:+ nl
           +:+ "Выберите время:")
          (Some kb));;
        mret (Some SELECTING_TIME)
    end
  else if String.eqb query_data "cancel" then
    await (edit_message_text "Запись отменена." None);;
    mret (Some MAIN_MENU)
  else mret (Some CONFIRMING_APPOINTMENT).

(** The notification of the master about a cancellation by the client, the
    body of the [try] in [view_appointments]. *)
Definition notify_master_cancelled (appointment_data : AppointmentData)
    : M unit :=
  let appointment_info :=
    format_appointment_info (ad_services_list appointment_data)
      (ad_start_time appointment_data) (ad_end_time appointment_data) in
  client_name ← lift (user_field appointment_data u_name);
  await (send_message MASTER_TELEGRAM_ID
    ("Клиент отменил запись!" +:+ nl +:+ nl
     +:+ "Клиент: " +:+ client_name +:+ nl +:+ nl
     +:+ appointment_info)
    None).

Definition view_appointments (update : Update) : M (option ConvState) :=
  let query_data := query_data update in
  let user_id := effective_user_id update in
  if startswith query_data CALLBACK_APPOINTMENT_PREFIX then
    appointment_id ←
      lift (int (slice_from (String.length CALLBACK_APPOINTMENT_PREFIX) query_data));
    appointment ← read_db (fun d => get_appointment_by_id d appointment_id);
    match appointment with
    | Some appointment =>
        let appointment_info :=
          format_appointment_info (ad_services_list appointment)
            (ad_start_time appointment) (ad_end_time appointment) in
        await (edit_message_text
          ("Информация о записи:" +:+ nl +:+ nl +:+ appointment_info +:+ nl +:+ nl
           +:+ "Статус: " +:+ ad_status_text appointment)
          (Some (get_appointment_actions_keyboard appointment_id
                   (ad_status appointment))))
    | None =>
        await (edit_message_text "Запись не найдена или была удалена." None)
    end;;
    mret (Some VIEWING_APPOINTMENTS)
  else if startswith query_data CALLBACK_CANCEL_PREFIX then
    appointment_id ←
      lift (int (slice_from (String.length CALLBACK_CANCEL_PREFIX) query_data));
    cancelled ← write_db (fun d => cancel_appointment d appointment_id);
    (if cancelled : bool then
       await (edit_message_text "Запись успешно отменена." None);;
       appointment_data ←
         read_db (fun d => get_appointment_with_user d appointment_id);
       match appointment_data with
       | Some appointment_data =>
           try_except (notify_master_cancelled appointment_data)
             (logger_error "Ошибка при отправке уведомления мастеру: ")
       | None => mret tt
       end
     else
       await (edit_message_text
         "Произошла ошибка при отмене записи. Пожалуйста, попробуйте еще раз."
         None));;
    mret (Some MAIN_MENU)
  else if String.eqb query_data "back_to_appointments" then
    appointments ← read_db (fun d => get_user_appointments d (str user_id));
    await (edit_message_text "Ваши записи:"
             (Some (get_appointments_keyboard appointments)));;
    mret (Some VIEWING_APPOINTMENTS)
  else if String.eqb query_data "back_to_main" then
    await (edit_message_text "Вы вернулись в главное меню." None);;
    mret (Some MAIN_MENU)
  else if String.eqb query_data "no_appointments" then
    await (edit_message_text "У вас нет активных записей." None);;
    mret (Some MAIN_MENU)
  else mret (Some VIEWING_APPOINTMENTS).

(** The list that [admin_menu] shows under a title. *)
Definition show_admin_list (title : string) (appointments : list AppointmentData)
    : M (option ConvState) :=
  match appointments with
  | [] =>
      await (reply_text
        (title +:+ ":" +:+ nl +:+ nl
         +:+ "Нет активных записей на указанный период.")
        (Reply get_admin_menu_keyboard))
  | _ =>
      await (reply_text
        (title +:+ " (" +:+ str (Z.of_nat (length appointments)) +:+ "):")
        (Inline (get_admin_list_keyboard appointments)))
  end;;
  mret (Some ADMIN_MENU).

Definition admin_menu (update : Update) : M (option ConvState) :=
  let user_id := effective_user_id update in
  if negb (String.eqb (str user_id) MASTER_TELEGRAM_ID) then
    await (reply_text "У вас нет прав на выполнение этого действия!"
             (Reply (get_main_menu_keyboard false)));;
    mret (Some MAIN_MENU)
  else
    let message_text := message_text update in
    if String.eqb message_text "🏠 Главное меню" then
      await (reply_text "Вы вернулись в главное меню клиента."
               (Reply (get_main_menu_keyboard true)));;
      mret (Some MAIN_MENU)
    else if String.eqb message_text "🔄 Обновить" then
      await (reply_text "Панель администратора обновлена."
               (Reply get_admin_menu_keyboard));;
      mret (Some ADMIN_MENU)
    else if String.eqb message_text "📅 Записи на сегодня" then
      let date := date_of now in
      appointments ← read_db (fun d => get_appointments_for_date d date);
      show_admin_list "📅 Записи на сегодня" appointments
    else if String.eqb message_text "⏩ Записи на завтра" then
      date ← lift (date_add_days (date_of now) 1);
      appointments ← read_db (fun d => get_appointments_for_date d date);
      show_admin_list "⏩ Записи на завтра" appointments
    else if String.eqb message_text "👥 Все записи" then
      appointments ← read_db get_all_appointments;
      show_admin_list "👥 Все активные записи" appointments
    else
      await (reply_text "Выберите действие из меню:"
               (Reply get_admin_menu_keyboard));;
      mret (Some ADMIN_MENU).

(** The notification of the client about a new status, the body of the
    [try] in [admin_status_change]. *)
Definition notify_client_status (new_status status_emoji status_text
    appointment_info client_telegram_id : string) : M unit :=
  let message_text :=
    if String.eqb new_status "PENDING" then
      "Статус вашей записи изменен на: ⏳ " +:+ status_text +:+ nl +:+ nl
      +:+ appointment_info
    else
      "Статус вашей записи изменен на: " +:+ status_emoji +:+ " " +:+ status_text
      +:+ nl +:+ nl +:+ appointment_info in
  await (send_message client_telegram_id message_text None).

Definition admin_status_change (update : Update) : M (option ConvState) :=
  let query_data := query_data update in
  let user_id := effective_user_id update in
  if negb (String.eqb (str user_id) MASTER_TELEGRAM_ID) then
    await (answer "У вас нет прав на выполнение этого действия!");;
    mret (Some MAIN_MENU)
  else
    let bad_format :=
      await (answer "Неверный формат данных");;
      mret (Some ADMIN_MENU) in
    if startswith query_data CALLBACK_ADMIN_STATUS then
      match split ":" (slice_from (String.length CALLBACK_ADMIN_STATUS) query_data) with
      | [new_status; appointment_id] =>
          appointment_id ← lift (int appointment_id);
          updated ←
            write_db (fun d => update_appointment_status d appointment_id new_status);
          if updated : bool then
            let status_text :=
              default "Неизвестный статус" (dict_get APPOINTMENT_STATUSES new_status) in
            await (answer ("Статус изменен на: " +:+ status_text));;
            appointment_data ←
              read_db (fun d => get_appointment_with_user d appointment_id);
            match appointment_data with
            | Some appointment_data =>
                let appointment_info :=
                  format_appointment_info (ad_services_list appointment_data)
                    (ad_start_time appointment_data) (ad_end_time appointment_data) in
                client_name ← lift (user_field appointment_data u_name);
                client_telegram_id ← lift (user_field appointment_data u_telegram_id);
                let status := ad_status appointment_data in
                let status_emoji := status_emoji_of status in
                await (edit_message_text
                  ("📋 Информация о записи #" +:+ str (ad_id appointment_data) +:+ ":"
                   +:+ nl +:+ nl
                   +:+ "👤 Клиент: " +:+ client_name +:+ nl
                   +:+ "🆔 Telegram ID: " +:+ client_telegram_id +:+ nl +:+ nl
                   +:+ appointment_info +:+ nl +:+ nl
                   +:+ "🔄 Статус: " +:+ status_emoji +:+ " "
                   +:+ ad_status_text appointment_data)
                  (Some (get_admin_appointment_actions_keyboard appointment_id
                           status)));;
                try_except
                  (notify_client_status new_status status_emoji status_text
                     appointment_info client_telegram_id)
                  (logger_error "Ошибка при отправке уведомления клиенту: ")
            | None => mret tt
            end;;
            mret (Some ADMIN_MENU)
          else
            await (answer "Ошибка при изменении статуса записи!");;
            mret (Some ADMIN_MENU)
      | _ => bad_format
      end
    else bad_format.

Definition admin_view_appointment (update : Update) : M (option ConvState) :=
  let query_data := query_data update in
  let user_id := effective_user_id update in
  if negb (String.eqb (str user_id) MASTER_TELEGRAM_ID) then
    await (answer "У вас нет прав на выполнение этого действия!");;
    mret (Some MAIN_MENU)
  else
    (if startswith query_data CALLBACK_ADMIN_LIST then
       appointment_id ←
         lift (int (slice_from (String.length CALLBACK_ADMIN_LIST) query_data));
       appointment_data ←
         read_db (fun d => get_appointment_with_user d appointment_id);
       match appointment_data with
       | Some appointment_data =>
           let appointment_info :=
             format_appointment_info (ad_services_list appointment_data)
               (ad_start_time appointment_data) (ad_end_time appointment_data) in
           client_name ← lift (user_field appointment_data u_name);
           client_telegram_id ← lift (user_field appointment_data u_telegram_id);
           let status := ad_status appointment_data in
           let status_emoji := status_emoji_of status in
           await (edit_message_text
             ("📋 Информация о записи #" +:+ str (ad_id appointment_data) +:+ ":"
              +:+ nl +:+ nl
              +:+ "👤 Клиент: " +:+ client_name +:+ nl
              +:+ "🆔 Telegram ID: " +:+ client_telegram_id +:+ nl +:+ nl
              +:+ appointment_info +:+ nl +:+ nl
              +:+ "🔄 Статус: " +:+ status_emoji +:+ " "
              +:+ ad_status_text appointment_data)
             (Some (get_admin_appointment_actions_keyboard appointment_id status)))
       | None =>
           await (edit_message_text "❌ Запись не найдена или была удалена."
             (Some [[ {| text := "🔙 Назад к списку";
                         callback_data := "back_to_admin_list" |} ]]))
       end
     else if String.eqb query_data "admin_refresh_list" then
       appointments ← read_db get_all_appointments;
       await (edit_message_text
         ("👥 Все активные записи (" +:+ str (Z.of_nat (length appointments))
          +:+ "):")
         (Some (get_admin_list_keyboard appointments)))
     else if String.eqb query_data "back_to_admin_list" then
       appointments ← read_db get_all_appointments;
       await (edit_message_text
         ("👥 Все активные записи (" +:+ str (Z.of_nat (length appointments))
          +:+ "):")
         (Some (get_admin_list_keyboard appointments)))
     else if String.eqb query_data "back_to_admin_menu" then
       await (edit_message_text "🔙 Вы вернулись в административное меню." None)
     else if String.eqb query_data "no_admin_appointments" then
       await (answer "В данный момент нет активных записей")
     else mret tt);;
    mret (Some ADMIN_MENU).

(** The notifications of the client by the master's decisions, the bodies
    of the two [try] blocks of [admin_confirm_appointment]. *)
Definition notify_client_confirmed (appointment_data : AppointmentData)
    : M unit :=
  let appointment_info :=
    format_appointment_info (ad_services_list appointment_data)
      (ad_start_time appointment_data) (ad_end_time appointment_data) in
  client_telegram_id ← lift (user_field appointment_data u_telegram_id);
  await (send_message client_telegram_id
    ("Ваша запись подтверждена мастером!" +:+ nl +:+ nl
     +:+ appointment_info +:+ nl +:+ nl
     +:+ "Ждем вас по адресу: " +:+ BARBERSHOP_ADDRESS)
    None).

Definition notify_client_cancelled (appointment_data : AppointmentData)
    : M unit :=
  let appointment_info :=
    format_appointment_info (ad_services_list appointment_data)
      (ad_start_time appointment_data) (ad_end_time appointment_data) in
  client_telegram_id ← lift (user_field appointment_data u_telegram_id);
  await (send_message client_telegram_id
    ("К сожалению, ваша запись была отменена мастером." +:+ nl +:+ nl
     +:+ appointment_info +:+ nl +:+ nl
     +:+ "Пожалуйста, выберите другое время или свяжитесь с мастером.")
    None).

(** The handler ends without [return]: outside the refusal it yields [None]. *)
Definition admin_confirm_appointment (update : Update) : M (option ConvState) :=
  let query_data := query_data update in
  let user_id := effective_user_id update in
  if negb (String.eqb (str user_id) MASTER_TELEGRAM_ID) then
    await (answer "У вас нет прав на выполнение этого действия!");;
    mret (Some MAIN_MENU)
  else if startswith query_data CALLBACK_ADMIN_CONFIRM then
    appointment_id ←
      lift (int (slice_from (String.length CALLBACK_ADMIN_CONFIRM) query_data));
    updated ←
      write_db (fun d => update_appointment_status d appointment_id "CONFIRMED");
    (if updated : bool then
       await (edit_message_text "Запись подтверждена." None);;
       appointment_data ←
         read_db (fun d => get_appointment_with_user d appointment_id);
       match appointment_data with
       | Some appointment_data =>
           try_except (notify_client_confirmed appointment_data)
             (logger_error "Ошибка при отправке уведомления клиенту: ")
       | None => mret tt
       end
     else await (answer "Произошла ошибка при подтверждении записи!"));;
    mret None
  else if startswith query_data CALLBACK_ADMIN_CANCEL then
    appointment_id ←
      lift (int (slice_from (String.length CALLBACK_ADMIN_CANCEL) query_data));
    cancelled ← write_db (fun d => cancel_appointment d appointment_id);
    (if cancelled : bool then
       await (edit_message_text "❌ Запись отменена успешно!"
         (Some [[ {| text := "🔙 Назад к списку записей";
                     callback_data := "back_to_admin_list" |} ]]));;
       appointment_data ←
         read_db (fun d => get_appointment_with_user d appointment_id);
       match appointment_data with
       | Some appointment_data =>
           try_except (notify_client_cancelled appointment_data)
             (logger_error "Ошибка при отправке уведомления клиенту: ")
       | None => mret tt
       end
     else await (answer "Произошла ошибка при отмене записи!"));;
    mret None
  else mret None.

(** [cancel], the fallback of the conversation ([/cancel]). *)
Definition cancel (update : Update) : M (option ConvState) :=
  let user_id := effective_user_id update in
  clear_user_data user_id;;
  match kind update with
  | TextMessage =>
      if String.eqb (str user_id) MASTER_TELEGRAM_ID then
        await (reply_text "Операция отменена. Вы вернулись в меню администратора."
                 (Reply (get_main_menu_keyboard true)));;
        mret (Some MAIN_MENU)
      else
        await (reply_text "Операция отменена. Вы вернулись в главное меню."
                 (Reply (get_main_menu_keyboard false)));;
        mret (Some MAIN_MENU)
  | CallbackQuery =>
      await (edit_message_text "Операция отменена. Вы вернулись в главное меню."
               None);;
      if String.eqb (str user_id) MASTER_TELEGRAM_ID then mret (Some ADMIN_MENU)
      else mret (Some MAIN_MENU)
  end.

End Handlers.

Arguments World : clear implicits.
Arguments M : clear implicits.
#[export] Existing Instances M_ret M_bind.

(** ** The scheduling and lifecycle engine behind the interfaces

    An implementation of [Database] and [Services], modelled from the spec:
    the catalog, the slot generator, the availability filter, the booking
    guard and the lifecycle manager of the design, with the signatures
    under which [main.py] calls [database.py] and [services.py]. *)

Module Engine.

(** Modelled from the spec: the status of an appointment, which
    [database.py] stores and [main.py] compares as a string. *)
Inductive Status : Type := PENDING | CONFIRMED | CANCELLED.

#[global] Instance Status_eq_dec : EqDecision Status.
Proof. solve_decision. Defined.

(** Modelled from the spec: the strings of the statuses, as [main.py]
    writes them. *)
Definition status_name (s : Status) : string :=
  match s with
  | PENDING => "PENDING"
  | CONFIRMED => "CONFIRMED"
  | CANCELLED => "CANCELLED"
  end.

(** Modelled from the spec: the status that a string names, if any. *)
Definition parse_status (s : string) : option Status :=
  if String.eqb s "PENDING" then Some PENDING
  else if String.eqb s "CONFIRMED" then Some CONFIRMED
  else if String.eqb s "CANCELLED" then Some CANCELLED
  else None.

(** Modelled from the spec: the Appointment record of the data model, which
    [database.py] declares.  The identifier of an appointment is its
    position in the table plus one: appointments are numbered as they are
    created and never deleted. *)
Record Appointment : Type := {
  client_id : string;
  services : list string;
  start_time : datetime;
  end_time : datetime;
  status : Status
}.

(** Modelled from the spec: the store behind [database.py], the timeline of
    the single provider and the users that [add_user] has recorded. *)
Record Store : Type := {
  appointments : list Appointment;
  users : list (string * string)
}.

(** Modelled from the spec: the store after [create_tables]. *)
Definition empty_store : Store := {| appointments := []; users := [] |}.

(** Modelled from the spec: the taxonomy of the rejections. *)
Inductive Rejection : Type :=
| InvalidServices
| InvalidDate
| SlotTaken
| SlotNoLongerAvailable
| IllegalTransition
| Unauthorized
| NotFound
| StoreUnavailable.

(** Modelled from the spec: the result of a request to the engine,
    [A | Rejected(reason)]. *)
Inductive Outcome (A : Type) : Type :=
| Accepted (a : A)
| Rejected (r : Rejection).
Arguments Accepted {A} a.
Arguments Rejected {A} r.

(** Modelled from the spec: business hours per weekday and the slot
    granularity, which the configuration of [services.py] holds.  Hours are
    minutes after midnight; a closed day has no hours. *)
Class Schedule : Type := {
  business_hours : Z → option (Z * Z);
  granularity_minutes : Z
}.

(** Modelled from the spec: two slots overlap iff
    [start_a < end_b] and [start_b < end_a] (half-open intervals). *)
Definition overlap (start_a end_a start_b end_b : datetime) : bool :=
  (start_a <? end_b) && (start_b <? end_a).

(** Modelled from the spec: the appointments that count for the overlap
    check are those that are not cancelled. *)
Definition active (a : Appointment) : bool :=
  negb (bool_decide (status a = CANCELLED)).

(** Modelled from the spec: the overlap check of Invariant I1.
    [busy apps skip s e]: the slot [s, e) overlaps a non-cancelled
    appointment of the timeline other than the one at position [skip]. *)
Definition busy (apps : list Appointment) (skip : option nat)
    (s e : datetime) : bool :=
  existsb
    (fun '(j, b) =>
       negb (bool_decide (skip = Some j)) && active b
       && overlap s e (start_time b) (end_time b))
    (imap pair apps).

(** Modelled from the spec: Invariant I1, no two appointments of the
    timeline that are not cancelled overlap. *)
Definition no_double_booking (st : Store) : Prop :=
  ∀ j k a b,
    j ≠ k → appointments st !! j = Some a → appointments st !! k = Some b →
    status a ≠ CANCELLED → status b ≠ CANCELLED →
    ¬ (start_time a < end_time b ∧ start_time b < end_time a).

(** Modelled from the spec: the position in the table of the appointment
    with identifier [i]. *)
Definition position (i : Z) : option nat :=
  if 0 <? i then Some (Z.to_nat (i - 1)) else None.

(** Modelled from the spec: [getAppointment(id)] of the store. *)
Definition find_appointment (st : Store) (i : Z) : option Appointment :=
  k ← position i; appointments st !! k.

Section WithConfig.

Context `{!Config} `{!Schedule}.

(** Modelled from the spec: [validate_services] of [services.py], the
    catalog check of the booking guard: the selection is not empty and
    every name is in the catalog. *)
Definition validate_services (selection : list string) : bool :=
  negb (bool_decide (selection = []))
  && forallb (fun s => bool_decide (is_Some (dict_get SERVICES s))) selection.

(** Modelled from the spec: [calculate_total_duration] of [services.py],
    the sum of the durations of the selected services.  A name that the
    catalog does not know has no duration: the lookup raises. *)
Definition total_duration (selection : list string) : result Z :=
  durations ← mapM (dict_getitem SERVICES) selection;
  Ok (foldr Z.add 0 durations).

(** Modelled from the spec: the slot generator.  Candidates start at the
    opening time and are [granularity_minutes] apart, strictly before the
    closing time; a closed day has none. *)
Definition generate (d : date) : list datetime :=
  match business_hours (weekday d) with
  | Some (open, close) =>
      if (0 <? granularity_minutes) && (open <? close) then
        (fun k => at_time d 0 (open + Z.of_nat k * granularity_minutes))
        <$> seq 0 (Z.to_nat ((close - open + granularity_minutes - 1)
                             / granularity_minutes))
      else []
  | None => []
  end.

(** Modelled from the spec: the closing time of the business hours of a
    date. *)
Definition closing_time (d : date) : option datetime :=
  match business_hours (weekday d) with
  | Some (_, close) => Some (at_time d 0 close)
  | None => None
  end.

(** Modelled from the spec: the availability filter, [get_available_slots]
    of [services.py].  A candidate stays when its slot ends by closing
    time, is not in the past and overlaps no non-cancelled appointment. *)
Definition free_slot (st : Store) (now : datetime) (d : date)
    (total_minutes : Z) (c : datetime) : bool :=
  let e := c + total_minutes * US_PER_MINUTE in
  match closing_time d with
  | Some close =>
      (e <=? close) && negb (c <? now) && negb (busy (appointments st) None c e)
  | None => false
  end.

(** Modelled from the spec: [available(date, totalDurationMinutes)], the
    candidates of the date that [free_slot] keeps, in their order. *)
Definition available (st : Store) (now : datetime) (d : date)
    (total_minutes : Z) : list datetime :=
  filter (fun c => free_slot st now d total_minutes c = true) (generate d).

(** Modelled from the spec: the booking guard, [create_appointment] of
    [database.py].  [main.py] passes the end of the slot with its start.
    The catalog check comes first, then the overlap check against the
    timeline, then the write of a PENDING appointment; a rejection writes
    nothing. *)
Definition createAppointment (st : Store) (client : string)
    (selection : list string) (requested_start requested_end : datetime)
    : Store * Outcome (Z * Appointment) :=
  if negb (validate_services selection) then (st, Rejected InvalidServices)
  else if busy (appointments st) None requested_start requested_end then
    (st, Rejected SlotTaken)
  else
    let a := {| client_id := client; services := selection;
                start_time := requested_start; end_time := requested_end;
                status := PENDING |} in
    ({| appointments := appointments st ++ [a]; users := users st |},
     Accepted (Z.of_nat (length (appointments st)) + 1, a)).

(** Modelled from the spec: the actors of the lifecycle. *)
Inductive Actor : Type := Client | Provider.

(** Modelled from the spec: the events of the table of transitions. *)
Inductive Event : Type :=
| ProviderConfirms
| ProviderCancels
| ClientCancels
| ProviderReverts
| ProviderRestoresConfirmed
| ProviderRestoresPending.

#[global] Instance Actor_eq_dec : EqDecision Actor.
Proof. solve_decision. Defined.
#[global] Instance Event_eq_dec : EqDecision Event.
Proof. solve_decision. Defined.

(** Modelled from the spec: the table of the legal transitions, row by
    row: from, event, to, who may trigger. *)
Definition transitions : list (Status * Event * Status * Actor) :=
  [ (PENDING, ProviderConfirms, CONFIRMED, Provider);
    (PENDING, ProviderCancels, CANCELLED, Provider);
    (PENDING, ClientCancels, CANCELLED, Client);
    (CONFIRMED, ProviderReverts, PENDING, Provider);
    (CONFIRMED, ProviderCancels, CANCELLED, Provider);
    (CONFIRMED, ClientCancels, CANCELLED, Client);
    (CANCELLED, ProviderRestoresConfirmed, CONFIRMED, Provider);
    (CANCELLED, ProviderRestoresPending, PENDING, Provider) ].

(** Modelled from the spec: the event of the table that takes [from] to
    [to], if there is one that one of the actors [who] may trigger. *)
Definition legal_event (from to : Status) (who : list Actor) : option Event :=
  match
    List.find
      (fun '(f, _, t, a) =>
         bool_decide (f = from) && bool_decide (t = to) && bool_decide (a ∈ who))
      transitions
  with
  | Some (_, e, _, _) => Some e
  | None => None
  end.

(** Modelled from the spec: [updateStatus] of the store changes the status
    and nothing else. *)
Definition set_status (a : Appointment) (s : Status) : Appointment :=
  {| client_id := client_id a; services := services a;
     start_time := start_time a; end_time := end_time a; status := s |}.

(** Modelled from the spec: the lifecycle manager.  A transition must be in
    the table for one of the actors that can be behind the call; a
    transition out of CANCELLED runs the overlap check against the other
    appointments first; a rejection changes nothing. *)
Definition transition (st : Store) (i : Z) (to : Status) (who : list Actor)
    : Store * Outcome (Event * Appointment) :=
  match position i with
  | None => (st, Rejected NotFound)
  | Some k =>
      match appointments st !! k with
      | None => (st, Rejected NotFound)
      | Some a =>
          match legal_event (status a) to who with
          | None => (st, Rejected IllegalTransition)
          | Some e =>
              if bool_decide (status a = CANCELLED)
                 && busy (appointments st) (Some k) (start_time a) (end_time a)
              then (st, Rejected SlotNoLongerAvailable)
              else
                let a' := set_status a to in
                ({| appointments := <[k := a']> (appointments st);
                    users := users st |},
                 Accepted (e, a'))
          end
      end
  end.

(** Modelled from the spec: [update_appointment_status] of [database.py],
    the entry of the provider into the lifecycle manager ([main.py] calls
    it behind the check of the master's identity); a status that does not
    exist is in no row of the table. *)
Definition updateStatus (st : Store) (i : Z) (new_status : string)
    : Store * Outcome (Event * Appointment) :=
  match parse_status new_status with
  | Some to => transition st i to [Provider]
  | None =>
      match find_appointment st i with
      | Some _ => (st, Rejected IllegalTransition)
      | None => (st, Rejected NotFound)
      end
  end.

(** Modelled from the spec: [cancel_appointment] of [database.py].  The
    call carries the appointment only, so it stands for a cancellation by
    the client or by the provider. *)
Definition cancelAppointment (st : Store) (i : Z)
    : Store * Outcome (Event * Appointment) :=
  transition st i CANCELLED [Client; Provider].

(** Modelled from the spec: the rows of the timeline, in the order of
    creation. *)
Definition rows (st : Store) : list Row :=
  (fun a => (services a, start_time a, end_time a)) <$> appointments st.

(** Modelled from the spec: [main.py] learns of an outcome only whether it
    is a success. *)
Definition succeeded {A : Type} (o : Outcome A) : bool :=
  match o with Accepted _ => true | Rejected _ => false end.

(** Modelled from the spec: the user that [add_user] has recorded under an
    identifier ([get_user] of [database.py]). *)
Definition user_of (st : Store) (client : string) : option UserData :=
  match dict_get (users st) client with
  | Some n => Some {| u_name := n; u_telegram_id := client |}
  | None => None
  end.

(** Modelled from the spec: an appointment as [database.py] hands it to
    [main.py], with the fields that [main.py] reads. *)
Definition appointment_data (st : Store) (i : Z) (a : Appointment)
    : AppointmentData :=
  {| ad_id := i;
     ad_user := user_of st (client_id a);
     ad_services_list := services a;
     ad_start_time := start_time a;
     ad_end_time := end_time a;
     ad_status := status_name (status a);
     ad_status_text :=
       default "" (dict_get APPOINTMENT_STATUSES (status_name (status a)));
     ad_duration_minutes := (end_time a - start_time a) / US_PER_MINUTE |}.

(** Modelled from the spec: [get_appointment_by_id] and
    [get_appointment_with_user] of [database.py]. *)
Definition getAppointment (st : Store) (i : Z) : option AppointmentData :=
  appointment_data st i <$> find_appointment st i.

(** Modelled from the spec: [get_user_appointments] of [database.py], the
    appointments of a client. *)
Definition userAppointments (st : Store) (client : string)
    : list AppointmentData :=
  omap
    (fun '(k, a) =>
       if String.eqb (client_id a) client
       then Some (appointment_data st (Z.of_nat k + 1) a) else None)
    (imap pair (appointments st)).

(** Modelled from the spec: [get_all_appointments] of [database.py], the
    listing for the master. *)
Definition allAppointments (st : Store) : list AppointmentData :=
  imap (fun k a => appointment_data st (Z.of_nat k + 1) a) (appointments st).

(** Modelled from the spec: [get_appointments_for_date] of [database.py],
    the appointments that start on a date. *)
Definition appointmentsForDate (st : Store) (d : date) : list AppointmentData :=
  filter (fun ad => date_of (ad_start_time ad) = d) (allAppointments st).

(** Modelled from the spec: [is_valid_date] of [services.py]; a date before
    today is invalid. *)
Definition isValidDate (now : datetime) (d : date) : bool := date_of now <=? d.

(** Modelled from the spec: [add_user] of [database.py] records a user once. *)
Definition addUser (st : Store) (client name : string) : Store :=
  match dict_get (users st) client with
  | Some _ => st
  | None => {| appointments := appointments st;
               users := users st ++ [(client, name)] |}
  end.

(** Modelled from the spec: [database.py] as [main.py] calls it. *)
#[global] Instance engine_database : Database Store := {|
  add_user := addUser;
  get_user_appointments := userAppointments;
  create_appointment st client selection s e :=
    let '(st', o) := createAppointment st client selection s e in
    (st', match o with Accepted (i, _) => Some i | Rejected _ => None end);
  get_appointment_by_id := getAppointment;
  get_appointment_with_user := getAppointment;
  update_appointment_status st i new_status :=
    let '(st', o) := updateStatus st i new_status in (st', succeeded o);
  cancel_appointment st i :=
    let '(st', o) := cancelAppointment st i in (st', succeeded o);
  get_all_appointments := allAppointments;
  get_appointments_for_date := appointmentsForDate
|}.

(** Modelled from the spec: [services.py] as [main.py] calls it; the
    texts of [format_time_slot] and [format_appointment_info] are free. *)
#[global] Instance engine_services : Services Store := {|
  calculate_total_duration := total_duration;
  get_available_slots := available;
  format_time_slot := strftime_HM;
  format_appointment_info selection s e :=
    foldr (fun x acc => x +:+ nl +:+ acc) "" selection
    +:+ strftime_dmy (date_of s) +:+ " " +:+ strftime_HM s
    +:+ " - " +:+ strftime_HM e;
  is_valid_date := isValidDate
|}.

(** Modelled from the spec: the events of the table that an actor may
    trigger from a status, in the order of the table. *)
Definition offered (from : Status) (who : Actor) : list Event :=
  omap
    (fun '(f, e, _, a) =>
       if bool_decide (f = from) && bool_decide (a = who) then Some e else None)
    transitions.

(** The callback data with which [main.py] asks for an event on the
    appointment [i]. *)
Definition request_of (i : Z) (e : Event) : string :=
  match e with
  | ProviderConfirms | ProviderRestoresConfirmed => CALLBACK_ADMIN_CONFIRM +:+ str i
  | ProviderCancels => CALLBACK_ADMIN_CANCEL +:+ str i
  | ProviderReverts | ProviderRestoresPending =>
      CALLBACK_ADMIN_STATUS +:+ "PENDING:" +:+ str i
  | ClientCancels => CALLBACK_CANCEL_PREFIX +:+ str i
  end.

End WithConfig.

End Engine.

(** ** The handlers as one step function *)

Section Runs.

Context {D : Type} `{!Config} `{!Database D} `{!Services D} `{!Runtime}.

(** The handlers of [main.py]. *)
Inductive Handler : Type :=
| Start
| MainMenu
| SelectServices
| SelectDate
| SelectTime
| ConfirmAppointment
| ViewAppointments
| AdminMenu
| AdminStatusChange
| AdminViewAppointment
| AdminConfirmAppointment
| Cancel.

Definition run (bot : list event → call → option exn) (now : datetime)
    (h : Handler) (update : Update) : M D (option ConvState) :=
  match h with
  | Start => start bot update
  | MainMenu => main_menu bot update
  | SelectServices => select_services bot now update
  | SelectDate => select_date bot now update
  | SelectTime => select_time bot now update
  | ConfirmAppointment => confirm_appointment bot now update
  | ViewAppointments => view_appointments bot update
  | AdminMenu => admin_menu bot now update
  | AdminStatusChange => admin_status_change bot update
  | AdminViewAppointment => admin_view_appointment bot update
  | AdminConfirmAppointment => admin_confirm_appointment bot update
  | Cancel => cancel bot update
  end.

(** A sequence of updates, each with the handler that takes it and the
    time at which it arrives. *)
Definition run_all (bot : list event → call → option exn)
    (steps : list (datetime * Handler * Update)) (w : World D) : World D :=
  foldl (fun w '(now, h, update) => (run bot now h update w).2) w steps.

(** The session of a user, as [get_user_data] would return it. *)
Definition session_of (w : World D) (user_id : Z) : Session :=
  default new_session (user_data_dict w !! user_id).

End Runs.

(** The servers with every notification delivered: [send_message] never
    raises, the other requests behave as under [bot]. *)
Definition delivering (bot : list event → call → option exn)
    : list event → call → option exn :=
  fun tr c =>
    match c with
    | send_message _ _ _ => None
    | _ => bot tr c
    end.

(** What is left of an event when one does not look at notifications: a
    delivered [send_message] and a logged failure look the same. *)
Inductive blurred : Type :=
| Notification
| Request (c : call).

Definition blur (ev : event) : blurred :=
  match ev with
  | Called (send_message _ _ _) => Notification
  | Called c => Request c
  | Logged _ _ => Notification
  end.

Definition is_notification (ev : event) : bool :=
  match ev with
  | Called (send_message _ _ _) => true
  | _ => false
  end.

(** The events that a run has added to the trace. *)
Definition added (before after : list event) : list event :=
  drop (length before) after.

(** Two states that differ at most in the fate of the notifications. *)
Definition same_but_notifications {D : Type} (w1 w2 : World D) : Prop :=
  db w1 = db w2 ∧ user_data_dict w1 = user_data_dict w2
  ∧ blur <$> trace w1 = blur <$> trace w2.

(** A handler whose result and state do not depend on whether the
    notifications it sends are delivered. *)
Definition unaffected {D : Type} `{!Config} `{!Database D} `{!Services D}
    `{!Runtime} (h : Handler) : Prop :=
  ∀ bot now update (w : World D),
    (run bot now h update w).1 = (run (delivering bot) now h update w).1
    ∧ same_but_notifications (run bot now h update w).2
                             (run (delivering bot) now h update w).2.

(** ** The conversation that [main] sets up *)

(** What a handler of the [ConversationHandler] listens to:
    [CommandHandler(name, _)],
    [MessageHandler(filters.TEXT & ~filters.COMMAND, _)],
    [CallbackQueryHandler(_)] and
    [CallbackQueryHandler(_, pattern="^(a|b|...).*$")]. *)
Inductive Trigger : Type :=
| OnCommand (name : string)
| OnText
| OnCallback
| OnPattern (alternatives : list string).

(** An update as the dispatcher reads it: what the handlers read, and the
    command that a text message starts with where Telegram has marked one
    for this bot (its name, without the slash). *)
Record Arrival : Type := {
  update : Update;
  command : option string
}.

(** [.*$] of a pattern, under [re.match]: the rest has no line break,
    except one that ends the string. *)
Fixpoint rest_matches (rest : string) : bool :=
  match rest with
  | EmptyString => true
  | String c rest' =>
      if Ascii.eqb c (ascii_of_nat 10) then
        match rest' with EmptyString => true | String _ _ => false end
      else rest_matches rest'
  end.

Definition pattern_matches (alternatives : list string) (data : string) : bool :=
  existsb
    (fun alt => startswith data alt
                && rest_matches (slice_from (String.length alt) data))
    alternatives.

Definition listens (t : Trigger) (a : Arrival) : bool :=
  match t, kind (update a) with
  | OnCommand name, TextMessage => bool_decide (command a = Some name)
  | OnText, TextMessage =>
      negb (String.eqb (message_text (update a)) EmptyString)
      && bool_decide (command a = None)
  | OnCallback, CallbackQuery => true
  | OnPattern alternatives, CallbackQuery =>
      pattern_matches alternatives (query_data (update a))
  | _, _ => false
  end.

(** The arguments of [ConversationHandler] in [main]. *)
Definition entry_points : list (Trigger * Handler) := [(OnCommand "start", Start)].

Definition states (s : ConvState) : list (Trigger * Handler) :=
  match s with
  | MAIN_MENU => [(OnText, MainMenu)]
  | ADMIN_MENU =>
      [ (OnText, AdminMenu);
        (OnPattern [CALLBACK_ADMIN_LIST; "back_to_admin_list"; "back_to_admin_menu";
                    "admin_refresh_list"; "no_admin_appointments"],
         AdminViewAppointment);
        (OnPattern [CALLBACK_ADMIN_CONFIRM; CALLBACK_ADMIN_CANCEL],
         AdminConfirmAppointment);
        (OnPattern [CALLBACK_ADMIN_STATUS], AdminStatusChange) ]
  | SELECTING_SERVICES => [(OnCallback, SelectServices)]
  | SELECTING_DATE => [(OnCallback, SelectDate)]
  | SELECTING_TIME => [(OnCallback, SelectTime)]
  | CONFIRMING_APPOINTMENT => [(OnCallback, ConfirmAppointment)]
  | VIEWING_APPOINTMENTS => [(OnCallback, ViewAppointments)]
  end.

Definition fallbacks : list (Trigger * Handler) := [(OnCommand "cancel", Cancel)].

(** The first handler of a list that listens to the update. *)
Definition first_match (handlers : list (Trigger * Handler)) (a : Arrival)
    : option Handler :=
  snd <$> List.find (fun '(t, _) => listens t a) handlers.

(** The handler that takes an update: outside a conversation an entry
    point; inside, a handler of the current state, or else a fallback. *)
Definition choose (state : option ConvState) (a : Arrival) : option Handler :=
  match state with
  | None => first_match entry_points a
  | Some s =>
      match first_match (states s) a with
      | Some h => Some h
      | None => first_match fallbacks a
      end
  end.

(** What a step of the booking flow has collected before it: the dates are
    chosen for a selection of services, the times for a date, and the
    confirmation is asked for a time. *)
Definition collected (s : ConvState) (session : Session) : Prop :=
  match s with
  | SELECTING_DATE => selected_services session ≠ []
  | SELECTING_TIME =>
      selected_services session ≠ [] ∧ is_Some (selected_date session)
  | CONFIRMING_APPOINTMENT =>
      selected_services session ≠ [] ∧ is_Some (selected_date session)
      ∧ is_Some (selected_time session)
  | _ => True
  end.

Section Conversation.

Context {D : Type} `{!Config} `{!Database D} `{!Services D} `{!Runtime}.

(** The running bot: what the handlers see, and the state of each user's
    conversation (a private chat: the key is the user). *)
Record Bot : Type := {
  world_of : World D;
  conversations : gmap Z ConvState
}.

(** One update through the [ConversationHandler]: an update that no handler
    takes changes nothing; a handler that returns [None] or raises leaves
    the state of the conversation as it was. *)
Definition process (bot : list event → call → option exn) (now : datetime)
    (a : Arrival) (b : Bot) : Bot :=
  let key := effective_user_id (update a) in
  match choose (conversations b !! key) a with
  | None => b
  | Some h =>
      let '(r, w') := run bot now h (update a) (world_of b) in
      {| world_of := w';
         conversations :=
           match r with
           | Ok (Some s) => <[key := s]> (conversations b)
           | _ => conversations b
           end |}
  end.

Definition process_all (bot : list event → call → option exn)
    (arrivals : list (datetime * Arrival)) (b : Bot) : Bot :=
  foldl (fun b '(now, a) => process bot now a b) b arrivals.

End Conversation.

Arguments Bot : clear implicits.

(** ** A barbershop to run the handlers in *)

Module Shop.

#[global] Instance config : Config := {|
  BOT_TOKEN := "0:token";
  SERVICES := [("Стрижка", 30); ("Бритьё", 45); ("Укладка", 60)];
  MASTER_TELEGRAM_ID := "1";
  APPOINTMENT_STATUSES :=
    [("PENDING", "Ожидает подтверждения"); ("CONFIRMED", "Подтверждена");
     ("CANCELLED", "Отменена")];
  BARBERSHOP_ADDRESS := "ул. Пушкина, 1"
|}.

(** Open every day from 09:00 to 18:00, a slot every 30 minutes. *)
#[global] Instance schedule : Engine.Schedule := {|
  Engine.business_hours := fun _ => Some (9 * 60, 18 * 60);
  Engine.granularity_minutes := 30
|}.

#[global] Instance runtime : Runtime := {|
  date_fromisoformat := strict_date_fromisoformat;
  datetime_fromisoformat := strict_datetime_fromisoformat
|}.

(** Servers that accept every request, and servers that are unreachable
    for notifications. *)
Definition reachable : list event → call → option exn := fun _ _ => None.

Definition unreachable : list event → call → option exn :=
  fun _ c =>
    match c with
    | send_message _ _ _ => Some (TelegramError "Timed out")
    | _ => None
    end.

(** Friday 2026-11-06. *)
Definition today : date := 739926.
Definition morning : datetime := at_time today 8 0.

Definition press (user_id : Z) (data : string) : Update :=
  {| kind := CallbackQuery; effective_user_id := user_id; full_name := "Клиент";
     first_name := "Клиент"; message_text := ""; query_data := data |}.

Definition say (user_id : Z) (msg : string) : Update :=
  {| kind := TextMessage; effective_user_id := user_id; full_name := "Клиент";
     first_name := "Клиент"; message_text := msg; query_data := "" |}.

Definition booked (client : string) (h mi minutes : Z) (s : Engine.Status)
    : Engine.Appointment :=
  {| Engine.client_id := client; Engine.services := ["Стрижка"];
     Engine.start_time := at_time today h mi;
     Engine.end_time := at_time today h mi + minutes * US_PER_MINUTE;
     Engine.status := s |}.

Definition world (apps : list Engine.Appointment)
    (sessions : list (Z * Session)) : World Engine.Store :=
  {| db := {| Engine.appointments := apps;
              Engine.users := [("100", "Анна"); ("200", "Борис")] |};
     user_data_dict := list_to_map sessions;
     trace := [] |}.

(** The same updates as the dispatcher reads them, and a command. *)
Definition pressed (user_id : Z) (data : string) : Arrival :=
  {| update := press user_id data; command := None |}.

Definition said (user_id : Z) (msg : string) : Arrival :=
  {| update := say user_id msg; command := None |}.

Definition commanded (user_id : Z) (name : string) : Arrival :=
  {| update := say user_id ("/" +:+ name); command := Some name |}.

(** The bot after [main] has started it on a store. *)
Definition opened (apps : list Engine.Appointment) : Bot Engine.Store :=
  {| world_of := world apps []; conversations := ∅ |}.

End Shop.

(** ** Running a handler step by step *)

(** Unfolds the handlers and the operations of [M], and leaves the texts
    and the calls of the interfaces as they are. *)
Ltac run_handler :=
  cbv beta iota zeta delta
    [run start main_menu select_services select_date select_time
     confirm_appointment view_appointments admin_menu show_admin_list
     admin_status_change admin_view_appointment admin_confirm_appointment
     cancel notify_master_created
     notify_master_cancelled notify_client_status notify_client_confirmed
     notify_client_cancelled mbind mret M_bind M_ret lift await logger_error
     try_except read_db write_db set_user_data get_user_data clear_user_data
     delivering fst snd db user_data_dict trace].

(** Splits on the innermost condition that the run depends on next. *)
Ltac branch :=
  match goal with
  | |- context [match ?x with _ => _ end] =>
      lazymatch x with
      | context [match _ with _ => _ end] => fail
      | _ => destruct x eqn:?
      end
  end; cbv beta iota.

(** ** Identifiers in callback data

    The keyboards write an identifier with [str] and the handlers read it
    back with [int]: what is read is what was written, and an identifier
    holds no colon. *)

Lemma pretty_N_char_digit (x : N) :
  (x < 10)%N → digit_of (pretty_N_char x) = Some (Z.of_N x).
Proof.
  intros Hx.
  assert (x = 0 ∨ x = 1 ∨ x = 2 ∨ x = 3 ∨ x = 4 ∨ x = 5 ∨ x = 6 ∨ x = 7
          ∨ x = 8 ∨ x = 9)%N as Hcases by lia.
  repeat (destruct Hcases as [-> | Hcases]; [reflexivity |]).
  by subst.
Qed.

(** The digits that [pretty_N_go] puts in front of [s] are read as [x]. *)
Lemma parse_pretty_N_go (x : N) (s : string) (b : bool) :
  (0 < x)%N →
  parse_digits 0 b (list_ascii_of_string (pretty_N_go x s))
  = parse_digits (Z.of_N x) true (list_ascii_of_string s).
Proof.
  revert s b. induction (N.lt_wf_0 x) as [x _ IH]; intros s b Hx.
  rewrite pretty_N_go_step by done.
  assert (x `mod` 10 < 10)%N as Hm by (apply N.mod_lt; lia).
  pose proof (N.div_mod x 10 ltac:(lia)) as Hdm.
  destruct (decide (x `div` 10 = 0)%N) as [E | E].
  - rewrite E, pretty_N_go_0. cbn [list_ascii_of_string parse_digits].
    rewrite pretty_N_char_digit by done.
    f_equal. rewrite E in Hdm. lia.
  - rewrite IH; [| apply N.div_lt; lia | lia].
    cbn [list_ascii_of_string parse_digits].
    rewrite pretty_N_char_digit by done.
    f_equal. lia.
Qed.

Lemma digits_pretty_N_go (x : N) (s : string) :
  Forall is_digit (list_ascii_of_string s) →
  Forall is_digit (list_ascii_of_string (pretty_N_go x s)).
Proof.
  revert s. induction (N.lt_wf_0 x) as [x _ IH]; intros s Hs.
  destruct (decide (x = 0)%N) as [-> | E]; [by rewrite pretty_N_go_0 |].
  rewrite pretty_N_go_step by lia. apply IH; [apply N.div_lt; lia |].
  cbn [list_ascii_of_string]. constructor; [| done].
  unfold is_digit. rewrite pretty_N_char_digit; [done |]. apply N.mod_lt. lia.
Qed.

Lemma digits_pretty_positive (p : positive) :
  Forall is_digit (list_ascii_of_string (pretty p))
  ∧ parse_digits 0 false (list_ascii_of_string (pretty p)) = Some (Z.pos p).
Proof.
  unfold pretty, pretty_positive, pretty, pretty_N.
  destruct (decide (N.pos p = 0%N)); [done |]. split.
  - apply digits_pretty_N_go. constructor.
  - rewrite parse_pretty_N_go by lia. reflexivity.
Qed.

Lemma digit_not_space (c : ascii) : is_digit c → is_space c = false.
Proof.
  unfold is_digit, digit_of, is_space. intros [d Hd].
  destruct (_ && _) eqn:E; [| done].
  apply andb_true_iff in E as [E1 E2].
  apply Nat.leb_le in E1. apply Nat.leb_le in E2.
  apply orb_false_iff. split.
  - apply andb_false_iff. right. apply Nat.leb_gt. lia.
  - apply Nat.eqb_neq. lia.
Qed.

Lemma lstrip_no_space (l : list ascii) :
  Forall (fun c => is_space c = false) l → lstrip l = l.
Proof. intros [|c l' Hc _]; [done |]. simpl. by rewrite Hc. Qed.

Lemma strip_no_space (l : list ascii) :
  Forall (fun c => is_space c = false) l → strip l = l.
Proof.
  intros Hl. unfold strip. rewrite (lstrip_no_space l Hl).
  rewrite lstrip_no_space by (by apply Forall_rev).
  apply rev_involutive.
Qed.

(** [int(str(i))] is [i]. *)
Lemma int_str (i : Z) : int (str i) = Ok i.
Proof.
  unfold int, str. destruct i as [|p|p]; [reflexivity | |].
  - change (pretty (Z.pos p)) with (pretty p).
    destruct (digits_pretty_positive p) as [Hd Hp].
    rewrite strip_no_space
      by (eapply Forall_impl; [exact Hd | apply digit_not_space]).
    destruct (list_ascii_of_string (pretty p)) as [|c l] eqn:E; [done |].
    apply Forall_cons in Hd as [[d Hc] _].
    assert (Ascii.eqb c "-" = false) as ->.
    { apply Ascii.eqb_neq. intros ->. discriminate Hc. }
    assert (Ascii.eqb c "+" = false) as ->.
    { apply Ascii.eqb_neq. intros ->. discriminate Hc. }
    by rewrite Hp.
  - change (pretty (Z.neg p)) with ("-" +:+ pretty p).
    destruct (digits_pretty_positive p) as [Hd Hp].
    change (list_ascii_of_string ("-" +:+ pretty p))
      with ("-"%char :: list_ascii_of_string (pretty p)).
    rewrite strip_no_space.
    + change (Ascii.eqb "-" "-") with true. cbv iota. rewrite Hp. reflexivity.
    + constructor; [reflexivity |].
      eapply Forall_impl; [exact Hd | apply digit_not_space].
Qed.

Lemma split_go_no_separator (sep : ascii) (cur s : string) :
  Forall (fun c => c ≠ sep) (list_ascii_of_string s) →
  split_go sep cur s = [String.rev_app cur s].
Proof.
  revert cur. induction s as [|c s IH]; intros cur Hs; [done |].
  cbn [list_ascii_of_string] in Hs. apply Forall_cons in Hs as [Hc Hs].
  cbn [split_go]. apply Ascii.eqb_neq in Hc as ->. by rewrite IH.
Qed.

(** [str(i).split(":")] is [[str(i)]]. *)
Lemma split_str (i : Z) : split ":" (str i) = [str i].
Proof.
  unfold split. rewrite split_go_no_separator; [done |].
  assert (∀ p : positive,
            Forall (fun c => c ≠ ":"%char) (list_ascii_of_string (pretty p)))
    as Hp.
  { intros p. destruct (digits_pretty_positive p) as [Hd _].
    eapply Forall_impl; [exact Hd |]. intros c [d Hc] ->. discriminate Hc. }
  unfold str. destruct i as [|p|p].
  - repeat constructor. discriminate.
  - apply Hp.
  - change (pretty (Z.neg p)) with ("-" +:+ pretty p).
    change (list_ascii_of_string ("-" +:+ pretty p))
      with ("-"%char :: list_ascii_of_string (pretty p)).
    constructor; [discriminate | apply Hp].
Qed.

(** * Properties *)

(** ** The selection of services ([select_services]) *)

Lemma contains_elem_of (x : string) (l : list string) :
  contains x l = true ↔ x ∈ l.
Proof. unfold contains. apply bool_decide_eq_true. Qed.

Lemma contains_not_elem_of (x : string) (l : list string) :
  contains x l = false ↔ x ∉ l.
Proof. unfold contains. apply bool_decide_eq_false. Qed.

(** [remove] takes out the first occurrence. *)
Lemma remove_first (x : string) (l : list string) :
  x ∈ l →
  ∃ l1 l2, l = l1 ++ (x :: l2) ∧ (x ∉ l1) ∧ remove x l = Ok (l1 ++ l2).
Proof.
  induction l as [|y l IH]; intros Hin.
  - by apply elem_of_nil in Hin.
  - simpl. destruct (String.eqb y x) eqn:E.
    + apply String.eqb_eq in E as ->.
      exists [], l. split_and!; [done | apply not_elem_of_nil | done].
    + apply String.eqb_neq in E.
      apply elem_of_cons in Hin as [-> | Hin]; [done |].
      destruct (IH Hin) as (l1 & l2 & -> & Hn & ->).
      exists (y :: l1), l2. split_and!; [done | | done].
      rewrite not_elem_of_cons. split; [congruence | done].
Qed.

Lemma filter_out_absent (x : string) (l : list string) :
  x ∉ l → filter (fun y => y ≠ x) l = l.
Proof.
  induction l as [|y l IH]; intros Hn; [done |].
  apply not_elem_of_cons in Hn as [Hne Hn].
  rewrite filter_cons_True by done. by rewrite IH.
Qed.

(** On a selection without repetition, removing the first occurrence
    removes the service. *)
Lemma remove_NoDup (x : string) (l : list string) :
  NoDup l → x ∈ l →
  ∃ l', remove x l = Ok l' ∧ l' = filter (fun y => y ≠ x) l
        ∧ (x ∉ l') ∧ NoDup l' ∧ l' ++ [x] ≡ₚ l.
Proof.
  intros Hnd Hin.
  destruct (remove_first x l Hin) as (l1 & l2 & -> & Hn1 & ->).
  apply NoDup_app in Hnd as (Hnd1 & Hdisj & Hnd2).
  apply NoDup_cons in Hnd2 as [Hn2 Hnd2].
  exists (l1 ++ l2). split_and!.
  - done.
  - rewrite !filter_app, filter_cons_False by (intros ?; congruence).
    by rewrite !filter_out_absent.
  - rewrite elem_of_app. tauto.
  - apply NoDup_app. split_and!; [done | | done].
    intros y Hy1 Hy2. apply (Hdisj y Hy1). by apply elem_of_cons; right.
  - rewrite <- (assoc_L (++)). apply Permutation_app_head.
    symmetry. apply Permutation_cons_append.
Qed.

Lemma remove_appended (x : string) (l : list string) :
  x ∉ l → remove x (l ++ [x]) = Ok l.
Proof.
  induction l as [|y l IH]; intros Hn; simpl.
  - by rewrite String.eqb_refl.
  - apply not_elem_of_cons in Hn as [Hne Hn].
    destruct (String.eqb y x) eqn:E.
    + apply String.eqb_eq in E. congruence.
    + by rewrite IH.
Qed.

(** One press of a service button. *)
Lemma toggle_service_once (x : string) (l : list string) :
  NoDup l →
  ∃ l', toggle_service x l = Ok l' ∧ NoDup l'
        ∧ (x ∈ l → l' = filter (fun y => y ≠ x) l ∧ (x ∉ l') ∧ l' ++ [x] ≡ₚ l)
        ∧ (x ∉ l → l' = l ++ [x]).
Proof.
  intros Hnd. unfold toggle_service.
  destruct (contains x l) eqn:E.
  - apply contains_elem_of in E.
    destruct (remove_NoDup x l Hnd E) as (l' & -> & Hf & Hn & Hnd' & Hp).
    exists l'. split_and!; [done | done | done | done].
  - apply contains_not_elem_of in E.
    exists (l ++ [x]). split_and!; [done | | done | done].
    apply NoDup_app. split_and!; [done | | apply NoDup_singleton].
    intros y Hy ->%list_elem_of_singleton. done.
Qed.

(** Two presses in a row. *)
Lemma toggle_service_twice (x : string) (l : list string) :
  NoDup l →
  ∃ l1 l2, toggle_service x l = Ok l1 ∧ toggle_service x l1 = Ok l2
           ∧ NoDup l2 ∧ l2 ≡ₚ l ∧ (x ∉ l → l2 = l).
Proof.
  intros Hnd.
  destruct (toggle_service_once x l Hnd) as (l1 & E1 & Hnd1 & Hin & Hout).
  destruct (decide (x ∈ l)) as [Hx | Hx].
  - destruct (Hin Hx) as (_ & Hn1 & Hp).
    destruct (toggle_service_once x l1 Hnd1) as (l2 & E2 & Hnd2 & _ & Hout2).
    exists l1, l2. split_and!; [done | done | done | | done].
    by rewrite (Hout2 Hn1).
  - pose proof (Hout Hx) as ->.
    exists (l ++ [x]), l. split_and!; [done | | done | done | done].
    unfold toggle_service.
    assert (contains x (l ++ [x]) = true) as ->.
    { apply contains_elem_of, elem_of_app. right. by apply list_elem_of_singleton. }
    by apply remove_appended.
Qed.

(** A callback datum is its prefix followed by its argument. *)
Lemma startswith_app (p s : string) : startswith (p +:+ s) p = true.
Proof.
  unfold startswith. induction p as [|c p IH]; simpl; [by destruct s |].
  destruct (ascii_dec c c); [done | congruence].
Qed.

Lemma slice_from_app (p s : string) : slice_from (String.length p) (p +:+ s) = s.
Proof. induction p as [|c p IH]; simpl; [done | exact IH]. Qed.

Section SelectServices.

Context {D : Type} `{!Config} `{!Database D} `{!Services D}.

(** The session that [select_services] leaves after the press of a service
    button: the selection is toggled, whatever happens to the keyboard. *)
Lemma select_services_session bot now update (w : World D) name l' :
  query_data update = CALLBACK_SERVICES_PREFIX +:+ name →
  toggle_service name
    (selected_services (session_of w (effective_user_id update))) = Ok l' →
  selected_services
    (session_of (select_services bot now update w).2 (effective_user_id update))
  = l'.
Proof.
  intros Hq Ht. unfold select_services. rewrite Hq.
  rewrite startswith_app, slice_from_app.
  cbv beta iota. unfold session_of in *.
  destruct w as [d s tr].
  cbv beta iota zeta delta
    [mbind mret M_bind M_ret lift get_user_data set_user_data fst snd db
     user_data_dict trace await] in *.
  destruct (s !! effective_user_id update) as [sess|] eqn:Es;
    [ change (toggle_service name (selected_services sess) = Ok l') in Ht
    | change (toggle_service name (selected_services new_session) = Ok l') in Ht ];
    cbv beta iota; rewrite Ht; cbv beta iota.
  all: repeat
    match goal with
    | |- context [match ?x with _ => _ end] =>
        lazymatch x with
        | context [match _ with _ => _ end] => fail
        | _ => destruct x eqn:?
        end; cbv beta iota
    end.
  all: cbn [snd user_data_dict]; by rewrite ?lookup_insert_eq.
Qed.

End SelectServices.

(** C9, as the code has it: on a selection without repetition, the press
    of a service button removes the service when it is selected and appends
    it otherwise, and the selection stays without repetition.  Two presses
    in a row give back the same set of services: the same list when the
    service was not selected, and otherwise the list with the service moved
    to the end. *)
Theorem select_services_toggles {D : Type} `{!Config} `{!Database D}
    `{!Services D} bot now update (w : World D) (name : string) :
  query_data update = CALLBACK_SERVICES_PREFIX +:+ name →
  NoDup (selected_services (session_of w (effective_user_id update))) →
  let selection w := selected_services (session_of w (effective_user_id update)) in
  let w1 := (select_services bot now update w).2 in
  let w2 := (select_services bot now update w1).2 in
  (name ∈ selection w →
     selection w1 = filter (fun y => y ≠ name) (selection w)
     ∧ (name ∉ selection w1))
  ∧ (name ∉ selection w →
     selection w1 = selection w ++ [name] ∧ selection w2 = selection w)
  ∧ NoDup (selection w1) ∧ NoDup (selection w2)
  ∧ selection w2 ≡ₚ selection w.
Proof.
  intros Hq Hnd selection w1 w2.
  destruct (toggle_service_twice name (selection w) Hnd)
    as (l1 & l2 & E1 & E2 & Hnd2 & Hp & Hsame).
  destruct (toggle_service_once name (selection w) Hnd)
    as (l1' & E1' & Hnd1 & Hin & Hout).
  assert (l1' = l1) as -> by congruence.
  assert (selection w1 = l1) as H1.
  { by apply select_services_session with (name := name). }
  assert (selection w2 = l2) as H2.
  { apply select_services_session with (name := name); [done |].
    fold (selection w1). by rewrite H1. }
  rewrite H1, H2. split_and!; try done.
  - intros Hx. destruct (Hin Hx) as (? & ? & _). done.
  - intros Hx. split; [by apply Hout | by apply Hsame].
Qed.

Lemma select_services_toggles_witness :
  let w := Shop.world [] [(100, {| selected_services := ["Бритьё"];
                                   selected_date := None;
                                   selected_time := None |})] in
  let update := Shop.press 100 "service:Стрижка" in
  let selection w := selected_services (session_of w 100) in
  let w1 := (select_services Shop.reachable Shop.morning update w).2 in
  let w2 := (select_services Shop.reachable Shop.morning update w1).2 in
  ("Стрижка" ∈ selection w →
     selection w1 = filter (fun y => y ≠ "Стрижка") (selection w)
     ∧ ("Стрижка" ∉ selection w1))
  ∧ ("Стрижка" ∉ selection w →
     selection w1 = selection w ++ ["Стрижка"] ∧ selection w2 = selection w)
  ∧ NoDup (selection w1) ∧ NoDup (selection w2)
  ∧ selection w2 ≡ₚ selection w.
Proof.
  apply (select_services_toggles Shop.reachable Shop.morning
           (Shop.press 100 "service:Стрижка") _ "Стрижка").
  - reflexivity.
  - vm_compute. apply NoDup_cons. split; [apply not_elem_of_nil | apply NoDup_nil_2].
Defined.

(** C9, as the claim has it, fails on the order: a selected service that is
    pressed twice moves to the end of the list. *)
Lemma select_services_twice_reorders :
  let w := Shop.world [] [(100, {| selected_services := ["Стрижка"; "Бритьё"];
                                   selected_date := None;
                                   selected_time := None |})] in
  let update := Shop.press 100 "service:Стрижка" in
  let w1 := (select_services Shop.reachable Shop.morning update w).2 in
  let w2 := (select_services Shop.reachable Shop.morning update w1).2 in
  selected_services (session_of w 100) = ["Стрижка"; "Бритьё"]
  ∧ selected_services (session_of w1 100) = ["Бритьё"]
  ∧ selected_services (session_of w2 100) = ["Бритьё"; "Стрижка"]
  ∧ selected_services (session_of w2 100) ≠ selected_services (session_of w 100).
Proof.
  vm_compute. split_and!; try reflexivity. intros [=].
Qed.

(** ** The date keyboard ([get_date_keyboard]) *)

Lemma weekday_name_exists (d : date) :
  ∃ w, weekday_names !! Z.to_nat (weekday d) = Some w.
Proof.
  apply lookup_lt_is_Some_2. unfold weekday. simpl.
  pose proof (Z.mod_pos_bound (d + 6) 7). lia.
Qed.

(** Row [i] of the keyboard carries the day [today + i]. *)
Lemma date_row_day (today : date) (i : Z) :
  0 < today + i ≤ MAXORDINAL →
  ∃ label, date_row today i
           = Ok [ {| text := label;
                     callback_data :=
                       CALLBACK_DATE_PREFIX +:+ isoformat (today + i) |} ].
Proof.
  intros Hr. unfold date_row, date_add_days.
  assert ((0 <? today + i) && (today + i <=? MAXORDINAL) = true) as ->.
  { apply andb_true_intro. split; [apply Z.ltb_lt | apply Z.leb_le]; lia. }
  cbn [mbind result_bind].
  destruct (weekday_name_exists (today + i)) as [w ->].
  cbn [mbind result_bind]. eauto.
Qed.

(** C10: the date keyboard offers the seven days from today to today plus
    six, in this order, and nothing else but the cancel button; so no date
    later than six days ahead can be chosen from it.  (The bound on [today]
    keeps the seven days within the dates that [datetime] represents.) *)
Theorem get_date_keyboard_offers_week (today : date) :
  1 ≤ today ≤ MAXORDINAL - 6 →
  ∃ kb, get_date_keyboard today = Ok kb
        ∧ callback_data <$> buttons kb
          = ((fun i => CALLBACK_DATE_PREFIX +:+ isoformat (today + i))
             <$> [0; 1; 2; 3; 4; 5; 6])
            ++ ["cancel"].
Proof.
  intros Hr. unfold get_date_keyboard.
  change (Z.of_nat <$> seq 0 7) with [0; 1; 2; 3; 4; 5; 6].
  cbn [mapM mbind mret result_bind result_ret].
  destruct (date_row_day today 0) as [l0 ->]; [lia |].
  destruct (date_row_day today 1) as [l1 ->]; [lia |].
  destruct (date_row_day today 2) as [l2 ->]; [lia |].
  destruct (date_row_day today 3) as [l3 ->]; [lia |].
  destruct (date_row_day today 4) as [l4 ->]; [lia |].
  destruct (date_row_day today 5) as [l5 ->]; [lia |].
  destruct (date_row_day today 6) as [l6 ->]; [lia |].
  eexists. split; [reflexivity |]. reflexivity.
Qed.

Lemma get_date_keyboard_offers_week_witness :
  ∃ kb, get_date_keyboard Shop.today = Ok kb
        ∧ callback_data <$> buttons kb
          = ((fun i => CALLBACK_DATE_PREFIX +:+ isoformat (Shop.today + i))
             <$> [0; 1; 2; 3; 4; 5; 6])
            ++ ["cancel"].
Proof.
  apply (get_date_keyboard_offers_week Shop.today).
  unfold Shop.today, MAXORDINAL. lia.
Defined.

Example date_keyboard_of_a_friday :
  (fun kb => callback_data <$> buttons kb) <$> get_date_keyboard Shop.today
  = Ok ["date:2026-11-06"; "date:2026-11-07"; "date:2026-11-08";
        "date:2026-11-09"; "date:2026-11-10"; "date:2026-11-11";
        "date:2026-11-12"; "cancel"].
Proof. vm_compute. reflexivity. Qed.

(** ** What each handler writes to the database *)

Section DatabaseEffects.

Context {D : Type} `{!Config} `{!Database D} `{!Services D} `{!Runtime}.

Ltac effect :=
  cbv zeta; intros;
  match goal with w : World _ |- _ => destruct w as [? ? ?] end;
  unfold session_of; run_handler;
  try match goal with
      | |- context [?s !! ?k] => destruct (s !! k) eqn:?; cbn [from_option id]
      end;
  repeat branch; simplify_eq; try reflexivity; try congruence.

Lemma start_db bot update (w : World D) :
  db (start bot update w).2
  = add_user (db w) (str (effective_user_id update)) (full_name update).
Proof. effect. Qed.

Lemma main_menu_db bot update (w : World D) :
  db (main_menu bot update w).2 = db w.
Proof. effect. Qed.

Lemma select_services_db bot now update (w : World D) :
  db (select_services bot now update w).2 = db w.
Proof. effect. Qed.

Lemma select_date_db bot now update (w : World D) :
  db (select_date bot now update w).2 = db w.
Proof. effect. Qed.

Lemma select_time_db bot now update (w : World D) :
  db (select_time bot now update w).2 = db w.
Proof. effect. Qed.

Lemma admin_menu_db bot now update (w : World D) :
  db (admin_menu bot now update w).2 = db w.
Proof. effect. Qed.

Lemma admin_view_appointment_db bot update (w : World D) :
  db (admin_view_appointment bot update w).2 = db w.
Proof. effect. Qed.

Lemma cancel_db bot update (w : World D) :
  db (cancel bot update w).2 = db w.
Proof. effect. Qed.

(** [confirm_appointment] writes once, through [create_appointment], the
    start that the session holds and the end that it computes from it. *)
Lemma confirm_appointment_db bot now update (w : World D) :
  let session := session_of w (effective_user_id update) in
  db (confirm_appointment bot now update w).2
  = if String.eqb (query_data update) "confirm_appointment" then
      match calculate_total_duration (selected_services session) with
      | Ok duration =>
          match add_minutes (selected_time session) duration with
          | Ok end_time =>
              (create_appointment (db w) (str (effective_user_id update))
                 (selected_services session)
                 (default 0 (selected_time session)) end_time).1
          | Raise _ => db w
          end
      | Raise _ => db w
      end
    else db w.
Proof. effect. Qed.

Lemma view_appointments_db bot update (w : World D) :
  db (view_appointments bot update w).2
  = if startswith (query_data update) CALLBACK_APPOINTMENT_PREFIX then db w
    else if startswith (query_data update) CALLBACK_CANCEL_PREFIX then
      match int (slice_from (String.length CALLBACK_CANCEL_PREFIX)
                   (query_data update)) with
      | Ok appointment_id => (cancel_appointment (db w) appointment_id).1
      | Raise _ => db w
      end
    else db w.
Proof. effect. Qed.

Lemma admin_status_change_db bot update (w : World D) :
  db (admin_status_change bot update w).2
  = if negb (String.eqb (str (effective_user_id update)) MASTER_TELEGRAM_ID)
    then db w
    else if startswith (query_data update) CALLBACK_ADMIN_STATUS then
      match split ":" (slice_from (String.length CALLBACK_ADMIN_STATUS)
                         (query_data update)) with
      | [new_status; appointment_id] =>
          match int appointment_id with
          | Ok appointment_id =>
              (update_appointment_status (db w) appointment_id new_status).1
          | Raise _ => db w
          end
      | _ => db w
      end
    else db w.
Proof. effect. Qed.

Lemma admin_confirm_appointment_db bot update (w : World D) :
  db (admin_confirm_appointment bot update w).2
  = if negb (String.eqb (str (effective_user_id update)) MASTER_TELEGRAM_ID)
    then db w
    else if startswith (query_data update) CALLBACK_ADMIN_CONFIRM then
      match int (slice_from (String.length CALLBACK_ADMIN_CONFIRM)
                   (query_data update)) with
      | Ok appointment_id =>
          (update_appointment_status (db w) appointment_id "CONFIRMED").1
      | Raise _ => db w
      end
    else if startswith (query_data update) CALLBACK_ADMIN_CANCEL then
      match int (slice_from (String.length CALLBACK_ADMIN_CANCEL)
                   (query_data update)) with
      | Ok appointment_id => (cancel_appointment (db w) appointment_id).1
      | Raise _ => db w
      end
    else db w.
Proof. effect. Qed.

End DatabaseEffects.

(** ** Who may change an appointment *)

Section Authorization.

Context {D : Type} `{!Config} `{!Database D} `{!Services D}.

(** The handlers of the master turn every other user away before they
    touch the database. *)
Lemma admin_confirm_appointment_refuses bot update (w : World D) :
  str (effective_user_id update) ≠ MASTER_TELEGRAM_ID →
  admin_confirm_appointment bot update w
  = (await bot (answer "У вас нет прав на выполнение этого действия!");;
     mret (Some MAIN_MENU)) w.
Proof.
  intros Hne%String.eqb_neq. unfold admin_confirm_appointment.
  by rewrite Hne.
Qed.

Lemma admin_status_change_refuses bot update (w : World D) :
  str (effective_user_id update) ≠ MASTER_TELEGRAM_ID →
  admin_status_change bot update w
  = (await bot (answer "У вас нет прав на выполнение этого действия!");;
     mret (Some MAIN_MENU)) w.
Proof.
  intros Hne%String.eqb_neq. unfold admin_status_change.
  by rewrite Hne.
Qed.

Lemma refusal_changes_nothing bot (w : World D) :
  let w' := (await bot (answer "У вас нет прав на выполнение этого действия!");;
             mret (Some MAIN_MENU)) w in
  db w'.2 = db w ∧ user_data_dict w'.2 = user_data_dict w
  ∧ (w'.1 = Ok (Some MAIN_MENU) ∨ ∃ e, w'.1 = Raise e).
Proof.
  destruct w as [d s tr]. run_handler. branch; eauto.
Qed.

(** The cancellation by a client reads the appointment from the callback
    data and never looks at who pressed the button. *)
Lemma view_appointments_ignores_the_user bot update other (w : World D) :
  query_data other = query_data update →
  query_data update ≠ "back_to_appointments" →
  view_appointments bot other w = view_appointments bot update w.
Proof.
  intros Hq Hne%String.eqb_neq. unfold view_appointments.
  rewrite Hq, Hne. reflexivity.
Qed.

End Authorization.

(** C5, as the code has it: a handler of the master's panel turns away
    every user other than the one fixed master identity and changes neither
    the database nor a session; the master passes, for any appointment.
    The cancellation on the client's side makes no check of ownership: it
    cancels the appointment that the callback data names, and its outcome
    is the same for every user who sends these data. *)
Theorem authorization_is_the_master_gate {D : Type} `{!Config}
    `{!Database D} `{!Services D} bot update other (w : World D) (i : Z) :
  (str (effective_user_id update) ≠ MASTER_TELEGRAM_ID →
     db (admin_confirm_appointment bot update w).2 = db w
     ∧ db (admin_status_change bot update w).2 = db w)
  ∧ (str (effective_user_id update) = MASTER_TELEGRAM_ID →
     startswith (query_data update) CALLBACK_ADMIN_CONFIRM = true →
     int (slice_from (String.length CALLBACK_ADMIN_CONFIRM) (query_data update))
     = Ok i →
     db (admin_confirm_appointment bot update w).2
     = (update_appointment_status (db w) i "CONFIRMED").1)
  ∧ (startswith (query_data update) CALLBACK_CANCEL_PREFIX = true →
     query_data other = query_data update →
     view_appointments bot other w = view_appointments bot update w).
Proof.
  split_and!.
  - intros Hne.
    rewrite admin_confirm_appointment_refuses, admin_status_change_refuses by done.
    by destruct (refusal_changes_nothing bot w) as (-> & _).
  - intros Hm%String.eqb_eq Hp Hi. unfold admin_confirm_appointment.
    rewrite Hm, Hp. cbn [negb]. destruct w as [d s tr].
    run_handler. rewrite Hi. cbv beta iota.
    repeat branch; reflexivity.
  - intros Hp Hq. apply view_appointments_ignores_the_user; [done |].
    intros E. rewrite E in Hp. discriminate Hp.
Qed.

Lemma authorization_is_the_master_gate_witness :
  let w := Shop.world [Shop.booked "100" 10 0 30 Engine.PENDING] [] in
  let stranger := Shop.press 200 "admin_confirm:1" in
  let master := Shop.press 1 "admin_confirm:1" in
  let owner := Shop.press 100 "cancel:1" in
  let other := Shop.press 200 "cancel:1" in
  (db (admin_confirm_appointment Shop.reachable stranger w).2 = db w
   ∧ db (admin_status_change Shop.reachable stranger w).2 = db w)
  ∧ db (admin_confirm_appointment Shop.reachable master w).2
    = (update_appointment_status (db w) 1 "CONFIRMED").1
  ∧ view_appointments Shop.reachable other w
    = view_appointments Shop.reachable owner w.
Proof.
  intros w stranger master owner other.
  destruct (authorization_is_the_master_gate Shop.reachable stranger other w 1)
    as (Hrefused & _ & _).
  destruct (authorization_is_the_master_gate Shop.reachable master other w 1)
    as (_ & Hpassed & _).
  destruct (authorization_is_the_master_gate Shop.reachable owner other w 1)
    as (_ & _ & Hsame).
  split; [| split].
  - apply Hrefused. vm_compute. discriminate.
  - apply Hpassed; vm_compute; reflexivity.
  - apply Hsame; vm_compute; reflexivity.
Defined.

(** C5, as the claim has it, fails: a user who is neither the client of an
    appointment nor the master cancels it. *)
Lemma a_stranger_cancels_an_appointment :
  let w := Shop.world [Shop.booked "100" 10 0 30 Engine.PENDING] [] in
  let stranger := Shop.press 200 "cancel:1" in
  let w' := (view_appointments Shop.reachable stranger w).2 in
  Engine.client_id <$> Engine.find_appointment (db w) 1 = Some "100"
  ∧ str (effective_user_id stranger) = "200"
  ∧ MASTER_TELEGRAM_ID = "1"
  ∧ Engine.status <$> Engine.find_appointment (db w) 1 = Some Engine.PENDING
  ∧ Engine.status <$> Engine.find_appointment (db w') 1 = Some Engine.CANCELLED
  ∧ (view_appointments Shop.reachable stranger w).1 = Ok (Some MAIN_MENU).
Proof. vm_compute. split_and!; reflexivity. Qed.

(** ** Notifications that fail ([try] ... [except Exception]) *)

Section Notifications.

Context {D : Type} `{!Config} `{!Database D} `{!Services D} `{!Runtime}.

Lemma blur_snoc (tr1 tr2 : list event) (e1 e2 : event) :
  blur <$> tr1 = blur <$> tr2 → blur e1 = blur e2 →
  blur <$> (tr1 ++ [e1]) = blur <$> (tr2 ++ [e2]).
Proof. intros H1 H2. rewrite !fmap_app. simpl. by rewrite H1, H2. Qed.

Ltac compare_runs :=
  intros; destruct_world; run_handler; repeat branch;
  repeat split; try reflexivity; simplify_eq;
  repeat (apply blur_snoc; [| reflexivity]); reflexivity
with destruct_world :=
  match goal with w : World _ |- _ => destruct w as [? ? ?] end.

Lemma unaffected_start : unaffected Start.
Proof. unfold unaffected, same_but_notifications. compare_runs. Qed.

Lemma unaffected_main_menu : unaffected MainMenu.
Proof. unfold unaffected, same_but_notifications. compare_runs. Qed.

Lemma unaffected_select_services : unaffected SelectServices.
Proof. unfold unaffected, same_but_notifications. compare_runs. Qed.

Lemma unaffected_select_date : unaffected SelectDate.
Proof. unfold unaffected, same_but_notifications. compare_runs. Qed.

Lemma unaffected_select_time : unaffected SelectTime.
Proof. unfold unaffected, same_but_notifications. compare_runs. Qed.

Lemma unaffected_confirm_appointment : unaffected ConfirmAppointment.
Proof. unfold unaffected, same_but_notifications. compare_runs. Qed.

Lemma unaffected_view_appointments : unaffected ViewAppointments.
Proof. unfold unaffected, same_but_notifications. compare_runs. Qed.

Lemma unaffected_admin_menu : unaffected AdminMenu.
Proof. unfold unaffected, same_but_notifications. compare_runs. Qed.

Lemma unaffected_admin_status_change : unaffected AdminStatusChange.
Proof. unfold unaffected, same_but_notifications. compare_runs. Qed.

Lemma unaffected_admin_view_appointment : unaffected AdminViewAppointment.
Proof. unfold unaffected, same_but_notifications. compare_runs. Qed.

Lemma unaffected_admin_confirm_appointment : unaffected AdminConfirmAppointment.
Proof. unfold unaffected, same_but_notifications. compare_runs. Qed.

Lemma unaffected_cancel : unaffected Cancel.
Proof. unfold unaffected, same_but_notifications. compare_runs. Qed.

(** An exception in the body of such a [try] statement never leaves it: it
    ends in the log. *)
Lemma try_except_logs (body : M D unit) (msg : string) (w : World D) :
  (try_except body (logger_error msg) w).1 = Ok tt
  ∧ ∀ e w', body w = (Raise e, w') →
      (try_except body (logger_error msg) w).2
      = {| db := db w'; user_data_dict := user_data_dict w';
           trace := trace w' ++ [Logged msg e] |}.
Proof.
  unfold try_except, logger_error. destruct (body w) as [[[]|e] w'] eqn:E.
  - split; [done | intros ? ? [=]].
  - split; [done | by intros ? ? [= <- <-]].
Qed.

End Notifications.

(** C8: for every handler, and so for the creation, the confirmation, the
    cancellation and the restoration of an appointment, the run in which
    the Telegram servers refuse a notification ends like the run in which
    they deliver it: the handler returns the same value, the database and
    the sessions are the same, and the requests that went out are the same
    but for the notification, which is either sent or logged. *)
Theorem notification_failure_is_dropped {D : Type} `{!Config} `{!Database D}
    `{!Services D} `{!Runtime} bot now (h : Handler) update (w : World D) :
  let actual := run bot now h update w in
  let delivered := run (delivering bot) now h update w in
  actual.1 = delivered.1 ∧ same_but_notifications actual.2 delivered.2.
Proof.
  cbv zeta. revert bot now update w. fold (unaffected h).
  destruct h.
  - apply unaffected_start.
  - apply unaffected_main_menu.
  - apply unaffected_select_services.
  - apply unaffected_select_date.
  - apply unaffected_select_time.
  - apply unaffected_confirm_appointment.
  - apply unaffected_view_appointments.
  - apply unaffected_admin_menu.
  - apply unaffected_admin_status_change.
  - apply unaffected_admin_view_appointment.
  - apply unaffected_admin_confirm_appointment.
  - apply unaffected_cancel.
Qed.

(** The master cannot be reached: the appointment is created all the same,
    the client is told so, and the failure is logged. *)
Example an_unreachable_master :
  let session := {| selected_services := ["Стрижка"];
                    selected_date := Some Shop.today;
                    selected_time := Some (at_time Shop.today 14 0) |} in
  let w := Shop.world [] [(100, session)] in
  let r := confirm_appointment Shop.unreachable Shop.morning
             (Shop.press 100 "confirm_appointment") w in
  r.1 = Ok (Some MAIN_MENU)
  ∧ Engine.appointments (db r.2) = [Shop.booked "100" 14 0 30 Engine.PENDING]
  ∧ trace r.2
    = [ Called (edit_message_text
          ("Ваша запись создана и ожидает подтверждения мастера." +:+ nl
           +:+ "Вы получите уведомление, когда мастер подтвердит или отменит запись.")
          None);
        Logged "Ошибка при отправке уведомления мастеру: "
          (TelegramError "Timed out") ].
Proof. vm_compute. split_and!; reflexivity. Qed.

(** ** The engine: the timeline and its checks *)

Section EngineFacts.

Import Engine.
Context `{!Config} `{!Schedule}.

Lemma active_true (a : Appointment) : active a = true ↔ status a ≠ CANCELLED.
Proof.
  unfold active. rewrite negb_true_iff, bool_decide_eq_false. done.
Qed.

Lemma overlap_true (s1 e1 s2 e2 : datetime) :
  overlap s1 e1 s2 e2 = true ↔ s1 < e2 ∧ s2 < e1.
Proof. unfold overlap. rewrite andb_true_iff, !Z.ltb_lt. done. Qed.

(** [busy] finds exactly the non-cancelled appointments, other than the
    skipped one, whose slot overlaps the given one. *)
Lemma busy_true (apps : list Appointment) (skip : option nat) (s e : datetime) :
  busy apps skip s e = true
  ↔ ∃ j b, apps !! j = Some b ∧ skip ≠ Some j ∧ status b ≠ CANCELLED
           ∧ s < end_time b ∧ start_time b < e.
Proof.
  unfold busy. rewrite existsb_exists. split.
  - intros ([j b] & Hin & Hb).
    apply list_elem_of_In, elem_of_lookup_imap in Hin as (j' & b' & [= -> ->] & Hl).
    apply andb_true_iff in Hb as [Hb Ho]. apply andb_true_iff in Hb as [Hs Ha].
    apply negb_true_iff, bool_decide_eq_false in Hs.
    apply active_true in Ha. apply overlap_true in Ho.
    exists j', b'. tauto.
  - intros (j & b & Hl & Hs & Ha & Ho1 & Ho2).
    exists (j, b). split.
    + apply list_elem_of_In, elem_of_lookup_imap. eauto.
    + rewrite !andb_true_iff, negb_true_iff, bool_decide_eq_false.
      rewrite active_true, overlap_true. tauto.
Qed.

Lemma busy_false (apps : list Appointment) (skip : option nat) (s e : datetime) :
  busy apps skip s e = false
  ↔ ∀ j b, apps !! j = Some b → skip ≠ Some j → status b ≠ CANCELLED →
           ¬ (s < end_time b ∧ start_time b < e).
Proof.
  rewrite <- not_true_iff_false, busy_true. split.
  - intros Hn j b ? ? ? ?. apply Hn. exists j, b. tauto.
  - intros Hall (j & b & ? & ? & ? & ?). by apply (Hall j b).
Qed.

(** The catalog knows the duration of every service of a valid selection. *)
Lemma validate_services_total (selection : list string) :
  validate_services selection = true → ∃ total, total_duration selection = Ok total.
Proof.
  unfold validate_services, total_duration.
  intros [_ Hall]%andb_true_iff.
  enough (∃ ds, mapM (dict_getitem SERVICES) selection = Ok ds) as [ds ->]
    by (simpl; eauto).
  induction selection as [|x l IH]; [by exists [] |].
  simpl in Hall. apply andb_true_iff in Hall as [Hx Hl].
  apply bool_decide_eq_true in Hx as [v Hv].
  destruct (IH Hl) as [ds Hds].
  exists (v :: ds). cbn [mapM]. rewrite Hds.
  unfold dict_getitem. rewrite Hv. reflexivity.
Qed.

(** The three ways in which the booking guard answers. *)
Lemma createAppointment_invalid st client selection s e :
  validate_services selection = false →
  createAppointment st client selection s e = (st, Rejected InvalidServices).
Proof. intros Hv. unfold createAppointment. by rewrite Hv. Qed.

Lemma createAppointment_taken st client selection s e :
  validate_services selection = true →
  busy (appointments st) None s e = true →
  createAppointment st client selection s e = (st, Rejected SlotTaken).
Proof. intros H1 H2. unfold createAppointment. by rewrite H1, H2. Qed.

Lemma createAppointment_free st client selection s e :
  validate_services selection = true →
  busy (appointments st) None s e = false →
  createAppointment st client selection s e
  = ({| appointments :=
          appointments st
          ++ [{| client_id := client; services := selection; start_time := s;
                 end_time := e; status := PENDING |}];
        users := users st |},
     Accepted (Z.of_nat (length (appointments st)) + 1,
               {| client_id := client; services := selection; start_time := s;
                  end_time := e; status := PENDING |})).
Proof. intros H1 H2. unfold createAppointment. by rewrite H1, H2. Qed.

(** The identifier handed out is the one under which the appointment is
    found. *)
Lemma position_of_new (apps : list Appointment) :
  position (Z.of_nat (length apps) + 1) = Some (length apps).
Proof.
  unfold position. destruct (0 <? Z.of_nat (length apps) + 1) eqn:E.
  - f_equal. lia.
  - apply Z.ltb_ge in E. lia.
Qed.

(** What a write leaves of the rows. *)
Lemma createAppointment_rows st client selection s e :
  rows (createAppointment st client selection s e).1 = rows st
  ∨ rows (createAppointment st client selection s e).1
    = rows st ++ [(selection, s, e)].
Proof.
  unfold createAppointment.
  destruct (negb (validate_services selection)); [by left |].
  destruct (busy (appointments st) None s e); [by left |].
  right. unfold rows. simpl. by rewrite fmap_app.
Qed.

Lemma transition_rows st i to who : rows (transition st i to who).1 = rows st.
Proof.
  unfold transition.
  destruct (position i) as [k|]; [| done].
  destruct (appointments st !! k) as [a|] eqn:Ea; [| done].
  destruct (legal_event (status a) to who); [| done].
  destruct (bool_decide (status a = CANCELLED) && _); [done |].
  unfold rows. simpl. rewrite list_fmap_insert. simpl.
  apply list_insert_id. by rewrite list_lookup_fmap, Ea.
Qed.

Lemma updateStatus_rows st i new_status :
  rows (updateStatus st i new_status).1 = rows st.
Proof.
  unfold updateStatus. destruct (parse_status new_status).
  - apply transition_rows.
  - by destruct (find_appointment st i).
Qed.

Lemma addUser_rows st client name : rows (addUser st client name) = rows st.
Proof. unfold addUser. by destruct (dict_get (users st) client). Qed.

Lemma engine_create_rows (st : Store) client selection s e :
  rows (create_appointment st client selection s e).1 = rows st
  ∨ rows (create_appointment st client selection s e).1
    = rows st ++ [(selection, s, e)].
Proof.
  pose proof (createAppointment_rows st client selection s e) as Hr.
  cbn [create_appointment engine_database].
  by destruct (createAppointment st client selection s e).
Qed.

Lemma engine_update_rows (st : Store) i new_status :
  rows (update_appointment_status st i new_status).1 = rows st.
Proof.
  pose proof (updateStatus_rows st i new_status) as Hr.
  cbn [update_appointment_status engine_database].
  by destruct (updateStatus st i new_status).
Qed.

Lemma engine_cancel_rows (st : Store) i :
  rows (cancel_appointment st i).1 = rows st.
Proof.
  pose proof (transition_rows st i CANCELLED [Client; Provider]) as Hr.
  cbn [cancel_appointment engine_database]. unfold cancelAppointment.
  by destruct (transition st i CANCELLED [Client; Provider]).
Qed.

Lemma engine_duration_sum (selection : list string) (total : Z) :
  calculate_total_duration selection = Ok total →
  ∃ durations, mapM (dict_getitem SERVICES) selection = Ok durations
               ∧ total = foldr Z.add 0 durations.
Proof.
  cbn [calculate_total_duration engine_services]. unfold total_duration.
  destruct (mapM (dict_getitem SERVICES) selection) as [ds|]; [| done].
  intros [= <-]. eauto.
Qed.

End EngineFacts.
(** ** What every run keeps of the database *)

Section Invariants.

Context {D : Type} `{!Config} `{!Database D} `{!Services D} `{!Runtime}.

(** A property of the database that the four writers of [database.py] keep
    is kept by every handler of [main.py], whatever the update. *)
Variable keeps : D → Prop.
Hypothesis add_user_keeps : ∀ d client name,
  keeps d → keeps (add_user d client name).
Hypothesis update_keeps : ∀ d i new_status,
  keeps d → keeps (update_appointment_status d i new_status).1.
Hypothesis cancel_keeps : ∀ d i, keeps d → keeps (cancel_appointment d i).1.
Hypothesis create_keeps : ∀ d client selection s e,
  keeps d → keeps (create_appointment d client selection s e).1.

Lemma run_keeps bot now h update (w : World D) :
  keeps (db w) → keeps (db (run bot now h update w).2).
Proof.
  intros Hw. destruct h; unfold run.
  - rewrite start_db. by apply add_user_keeps.
  - by rewrite main_menu_db.
  - by rewrite select_services_db.
  - by rewrite select_date_db.
  - by rewrite select_time_db.
  - rewrite confirm_appointment_db. cbv zeta.
    repeat case_match; try done; by apply create_keeps.
  - rewrite view_appointments_db.
    repeat case_match; try done; by apply cancel_keeps.
  - by rewrite admin_menu_db.
  - rewrite admin_status_change_db.
    repeat case_match; try done; by apply update_keeps.
  - by rewrite admin_view_appointment_db.
  - rewrite admin_confirm_appointment_db.
    repeat case_match; try done;
      first [by apply update_keeps | by apply cancel_keeps].
  - by rewrite cancel_db.
Qed.

Lemma run_all_keeps bot steps (w : World D) :
  keeps (db w) → keeps (db (run_all bot steps w)).
Proof.
  revert w. induction steps as [|[[now h] update] steps IH]; intros w Hw.
  - done.
  - simpl. apply IH. by apply run_keeps.
Qed.

End Invariants.

Section NoDoubleBooking.

Import Engine.
Context `{!Config} `{!Schedule} `{!Runtime}.

Lemma createAppointment_no_double_booking st client selection s e :
  no_double_booking st →
  no_double_booking (createAppointment st client selection s e).1.
Proof.
  intros Hst. unfold createAppointment.
  destruct (negb (validate_services selection)); [done |].
  destruct (busy (appointments st) None s e) eqn:Eb; [done |].
  rewrite busy_false in Eb.
  intros j k a b Hjk Ha Hb Hsa Hsb. cbn [appointments fst] in Ha, Hb.
  apply lookup_app_Some in Ha as [Ha | [Hj Ha]];
    apply lookup_app_Some in Hb as [Hb | [Hk Hb]].
  - by apply (Hst j k a b).
  - apply list_lookup_singleton_Some in Hb as [_ <-]. cbn [start_time end_time].
    intros [? ?]. by apply (Eb j a).
  - apply list_lookup_singleton_Some in Ha as [_ <-]. cbn [start_time end_time].
    intros [? ?]. by apply (Eb k b).
  - apply list_lookup_singleton_Some in Ha as [Hj' _].
    apply list_lookup_singleton_Some in Hb as [Hk' _]. lia.
Qed.

Lemma transition_no_double_booking st i to who :
  no_double_booking st → no_double_booking (transition st i to who).1.
Proof.
  intros Hst. unfold transition.
  destruct (position i) as [n|]; [| done].
  destruct (appointments st !! n) as [c|] eqn:Ec; [| done].
  destruct (legal_event (status c) to who); [| done].
  destruct (bool_decide (status c = CANCELLED)) eqn:Es; cbn [andb].
  - destruct (busy _ _ _ _) eqn:Eb; [done |]. rewrite busy_false in Eb.
    intros j k a b Hjk Ha Hb Hsa Hsb. cbn [appointments fst] in Ha, Hb.
    apply list_lookup_insert_Some in Ha as [(<- & <- & _) | [Hj Ha]];
      apply list_lookup_insert_Some in Hb as [(Hk & <- & _) | [Hk Hb]];
      cbn [set_status start_time end_time] in *.
    + done.
    + intros [? ?]. apply (Eb k b); [done | congruence | done | done].
    + intros [? ?]. subst k. apply (Eb j a); [done | congruence | done | done].
    + by apply (Hst j k a b).
  - apply bool_decide_eq_false in Es.
    intros j k a b Hjk Ha Hb Hsa Hsb. cbn [appointments fst] in Ha, Hb.
    apply list_lookup_insert_Some in Ha as [(<- & <- & _) | [Hj Ha]];
      apply list_lookup_insert_Some in Hb as [(Hk & <- & _) | [Hk Hb]];
      cbn [set_status start_time end_time] in *.
    + done.
    + by apply (Hst n k c b).
    + subst k. by apply (Hst j n a c).
    + by apply (Hst j k a b).
Qed.

(** Invariant I1 on the modelled engine: from a timeline without a double
    booking, no sequence of updates to the handlers of [main.py] reaches
    one with two overlapping appointments that are not cancelled. *)
Lemma no_double_booking_is_kept bot steps (w : World Store) :
  no_double_booking (db w) → no_double_booking (db (run_all bot steps w)).
Proof.
  apply (run_all_keeps no_double_booking).
  - intros d client name Hd. cbn [add_user engine_database]. unfold addUser.
    by destruct (dict_get (users d) client).
  - intros d i new_status Hd.
    cbn [update_appointment_status engine_database]. unfold updateStatus.
    pose proof (transition_no_double_booking d i) as Ht.
    destruct (parse_status new_status) as [to|].
    + specialize (Ht to [Provider] Hd). by destruct (transition d i to [Provider]).
    + by destruct (find_appointment d i).
  - intros d i Hd. cbn [cancel_appointment engine_database].
    unfold cancelAppointment.
    pose proof (transition_no_double_booking d i CANCELLED [Client; Provider] Hd).
    by destruct (transition d i CANCELLED [Client; Provider]).
  - intros d client selection s e Hd. cbn [create_appointment engine_database].
    pose proof (createAppointment_no_double_booking d client selection s e Hd).
    by destruct (createAppointment d client selection s e).
Qed.

End NoDoubleBooking.

(** ** The rows of the appointments (services, start, end) *)

Lemma add_minutes_ok (t : option datetime) (m : Z) (e : datetime) :
  add_minutes t m = Ok e → ∃ t', t = Some t' ∧ e = t' + m * US_PER_MINUTE.
Proof.
  unfold add_minutes, timedelta_minutes, datetime_add.
  destruct (_ || _); [done |]. cbn [mbind result_bind].
  destruct t as [t'|]; [| done].
  destruct (_ && _); [| done]. intros [= <-]. eauto.
Qed.

Section DurationConsistency.

Context {D : Type} `{!Config} `{!Database D} `{!Services D} `{!Runtime}.

(** [database.py] as far as the rows go: [stored d] lists the row of every
    appointment in the order of creation; [create_appointment] adds the row
    it is given or nothing, and the other writers change no row.
    [services.py]: the total duration is the sum over the catalog. *)
Variable stored : D → list Row.
Hypothesis add_user_rows : ∀ d client name,
  stored (add_user d client name) = stored d.
Hypothesis update_rows : ∀ d i new_status,
  stored (update_appointment_status d i new_status).1 = stored d.
Hypothesis cancel_rows : ∀ d i,
  stored (cancel_appointment d i).1 = stored d.
Hypothesis create_rows : ∀ d client selection s e,
  stored (create_appointment d client selection s e).1 = stored d
  ∨ stored (create_appointment d client selection s e).1
    = stored d ++ [(selection, s, e)].
Hypothesis duration_sum : ∀ selection total,
  calculate_total_duration selection = Ok total →
  ∃ durations, mapM (dict_getitem SERVICES) selection = Ok durations
               ∧ total = foldr Z.add 0 durations.

(** One update: the rows stay, or one consistent row is added. *)
Lemma run_rows bot now h update (w : World D) :
  stored (db (run bot now h update w).2) = stored (db w)
  ∨ ∃ row, stored (db (run bot now h update w).2) = stored (db w) ++ [row]
           ∧ duration_consistent row.
Proof.
  destruct h; unfold run.
  - rewrite start_db, add_user_rows. by left.
  - rewrite main_menu_db. by left.
  - rewrite select_services_db. by left.
  - rewrite select_date_db. by left.
  - rewrite select_time_db. by left.
  - rewrite confirm_appointment_db. cbv zeta.
    destruct (String.eqb _ _); [| by left].
    destruct (calculate_total_duration _) as [total|] eqn:Et; [| by left].
    destruct (add_minutes _ _) as [e|] eqn:Ee; [| by left].
    apply add_minutes_ok in Ee as (t & Est & ->). rewrite Est. cbn [default from_option id].
    destruct (create_rows (db w) (str (effective_user_id update))
                (selected_services (session_of w (effective_user_id update)))
                t (t + total * US_PER_MINUTE)) as [-> | ->]; [by left |].
    right. eexists. split; [reflexivity |].
    destruct (duration_sum _ _ Et) as (ds & Hds & ->).
    exists ds. split; [exact Hds |]. cbn [fst snd]. lia.
  - rewrite view_appointments_db.
    repeat case_match; rewrite ?cancel_rows; by left.
  - rewrite admin_menu_db. by left.
  - rewrite admin_status_change_db.
    repeat case_match; rewrite ?update_rows; by left.
  - rewrite admin_view_appointment_db. by left.
  - rewrite admin_confirm_appointment_db.
    repeat case_match; rewrite ?update_rows, ?cancel_rows; by left.
  - rewrite cancel_db. by left.
Qed.

(** C6: over any sequence of updates, the rows that were there stay as
    they were, services, start and end, and every row that was added is
    consistent: the end minus the start is the sum of the durations of its
    services in the catalog.  The handlers are the ones of [main.py]; what
    is assumed of [database.py] is that only [create_appointment] adds a
    row, the one it is given. *)
Theorem rows_are_consistent_and_never_edited bot steps (w : World D) :
  let w' := run_all bot steps w in
  stored (db w) `prefix_of` stored (db w')
  ∧ Forall duration_consistent (drop (length (stored (db w))) (stored (db w'))).
Proof.
  cbv zeta. revert w.
  induction steps as [|[[now h] update] steps IH]; intros w.
  - simpl. split; [done |]. rewrite drop_all. constructor.
  - simpl. destruct (IH (run bot now h update w).2) as [Hp Hc].
    destruct (run_rows bot now h update w) as [E | (row & E & Hrow)];
      rewrite E in Hp, Hc.
    + done.
    + split.
      * etrans; [| exact Hp]. by apply prefix_app_r.
      * destruct Hp as [rest Hrest]. rewrite Hrest in Hc |- *.
        rewrite drop_app_length in Hc.
        rewrite <- (assoc_L (++)), drop_app_length.
        simpl. by constructor.
Qed.

End DurationConsistency.

(** A client books a haircut and a shave at 14:00, the master confirms and
    then cancels. *)
Lemma rows_are_consistent_and_never_edited_witness :
  let session := {| selected_services := ["Стрижка"; "Бритьё"];
                    selected_date := Some Shop.today;
                    selected_time := Some (at_time Shop.today 14 0) |} in
  let w := Shop.world [Shop.booked "200" 10 0 30 Engine.CONFIRMED]
             [(100, session)] in
  let steps := [ (Shop.morning, ConfirmAppointment,
                  Shop.press 100 "confirm_appointment");
                 (Shop.morning, AdminConfirmAppointment,
                  Shop.press 1 "admin_confirm:2");
                 (Shop.morning, AdminConfirmAppointment,
                  Shop.press 1 "admin_cancel:2") ] in
  let w' := run_all Shop.reachable steps w in
  Engine.rows (db w) `prefix_of` Engine.rows (db w')
  ∧ Forall duration_consistent
      (drop (length (Engine.rows (db w))) (Engine.rows (db w'))).
Proof.
  apply (rows_are_consistent_and_never_edited Engine.rows).
  - apply addUser_rows.
  - apply engine_update_rows.
  - apply engine_cancel_rows.
  - apply engine_create_rows.
  - apply engine_duration_sum.
Defined.

Example a_booking_flow :
  let session := {| selected_services := ["Стрижка"; "Бритьё"];
                    selected_date := Some Shop.today;
                    selected_time := Some (at_time Shop.today 14 0) |} in
  let w := Shop.world [Shop.booked "200" 10 0 30 Engine.CONFIRMED]
             [(100, session)] in
  let steps := [ (Shop.morning, ConfirmAppointment,
                  Shop.press 100 "confirm_appointment");
                 (Shop.morning, AdminConfirmAppointment,
                  Shop.press 1 "admin_confirm:2") ] in
  Engine.appointments (db (run_all Shop.reachable steps w))
  = [ Shop.booked "200" 10 0 30 Engine.CONFIRMED;
      {| Engine.client_id := "100"; Engine.services := ["Стрижка"; "Бритьё"];
         Engine.start_time := at_time Shop.today 14 0;
         Engine.end_time := at_time Shop.today 15 15;
         Engine.status := Engine.CONFIRMED |} ].
Proof. vm_compute. reflexivity. Qed.

(** ** The booking guard behind [confirm_appointment] *)

Section BookingGuard.

Import Engine.
Context `{!Config} `{!Schedule}.

Lemma create_appointment_taken (st : Store) client selection s e :
  validate_services selection = true →
  busy (appointments st) None s e = true →
  create_appointment st client selection s e = (st, None).
Proof.
  intros Hv Hb. cbn [create_appointment engine_database].
  by rewrite createAppointment_taken.
Qed.

Lemma create_appointment_free (st : Store) client selection s e :
  validate_services selection = true →
  busy (appointments st) None s e = false →
  create_appointment st client selection s e
  = ({| appointments :=
          appointments st
          ++ [{| client_id := client; services := selection; start_time := s;
                 end_time := e; status := PENDING |}];
        users := users st |},
     Some (Z.of_nat (length (appointments st)) + 1)).
Proof.
  intros Hv Hb. cbn [create_appointment engine_database].
  by rewrite createAppointment_free.
Qed.

Lemma truthy_new (apps : list Appointment) :
  truthy (Some (Z.of_nat (length apps) + 1)) = Some (Z.of_nat (length apps) + 1).
Proof.
  unfold truthy. destruct (_ =? 0) eqn:E; [| done].
  apply Z.eqb_eq in E. lia.
Qed.

Lemma find_new_appointment (apps : list Appointment) (us : list (string * string))
    (a : Appointment) :
  find_appointment {| appointments := apps ++ [a]; users := us |}
    (Z.of_nat (length apps) + 1) = Some a.
Proof.
  unfold find_appointment. rewrite position_of_new. simpl.
  by rewrite lookup_app_r, Nat.sub_diag.
Qed.

Lemma added_app (tr new : list event) : added tr (tr ++ new) = new.
Proof. unfold added. apply drop_app_length. Qed.

Lemma added_nil (tr : list event) : added tr tr = [].
Proof. unfold added. apply drop_all. Qed.

(** C1, as the code has it: a request with a valid selection, a start time
    and an end within the calendar is rejected with SlotTaken when its slot
    overlaps an appointment that is not cancelled, and then
    [confirm_appointment] writes nothing and attempts no notification; when
    the slot overlaps no such appointment, the new appointment is stored as
    PENDING under the identifier returned.  The notification of the master
    comes after the reply to the client, which is awaited outside the
    [try]: when the reply goes out the notification is attempted (and it is
    delivered when the servers accept it and the client is known); when
    Telegram refuses the reply the handler raises with the appointment
    stored, and no notification is attempted. *)
Theorem booking_guard_decides_on_overlap bot now update (w : World Store)
    (t e : datetime) (total : Z) :
  let user_id := effective_user_id update in
  let session := session_of w user_id in
  let selection := selected_services session in
  let taken :=
    ∃ j b, appointments (db w) !! j = Some b ∧ status b ≠ CANCELLED
           ∧ t < end_time b ∧ start_time b < e in
  let new :=
    {| client_id := str user_id; services := selection; start_time := t;
       end_time := e; status := PENDING |} in
  let i := Z.of_nat (length (appointments (db w))) + 1 in
  let after := (confirm_appointment bot now update w).2 in
  query_data update = "confirm_appointment" →
  selected_time session = Some t →
  validate_services selection = true →
  total_duration selection = Ok total →
  add_minutes (Some t) total = Ok e →
  (taken →
     (createAppointment (db w) (str user_id) selection t e).2 = Rejected SlotTaken
     ∧ db after = db w
     ∧ Forall (fun ev => blur ev ≠ Notification) (added (trace w) (trace after)))
  ∧ (¬ taken →
     (createAppointment (db w) (str user_id) selection t e).2 = Accepted (i, new)
     ∧ appointments (db after) = appointments (db w) ++ [new]
     ∧ find_appointment (db after) i = Some new
     ∧ match
         bot (trace w)
           (edit_message_text
              ("Ваша запись создана и ожидает подтверждения мастера." +:+ nl
               +:+ "Вы получите уведомление, когда мастер подтвердит или отменит запись.")
              None)
       with
       | None => ∃ ev, ev ∈ added (trace w) (trace after) ∧ blur ev = Notification
       | Some refusal =>
           (confirm_appointment bot now update w).1 = Raise refusal
           ∧ added (trace w) (trace after) = []
       end
     ∧ ((∀ tr c, bot tr c = None) → is_Some (user_of (db w) (str user_id)) →
        ∃ text,
          Called (send_message MASTER_TELEGRAM_ID text
                    (Some (get_admin_confirmation_keyboard i)))
          ∈ added (trace w) (trace after))).
Proof.
  cbv zeta. intros Hq Ht Hv Htotal He.
  destruct w as [d s tr]. unfold session_of in *. cbn [db user_data_dict trace] in *.
  destruct (s !! effective_user_id update) as [session|] eqn:Es;
    [| discriminate Ht].
  cbn [from_option id] in *.
  assert (calculate_total_duration (selected_services session) = Ok total)
    as Hcalc by exact Htotal.
  split.
  - intros Htaken.
    assert (busy (appointments d) None t e = true) as Hb.
    { apply busy_true. destruct Htaken as (j & b & ? & ? & ? & ?).
      exists j, b. split_and!; done. }
    rewrite createAppointment_taken by done.
    run_handler. rewrite Es, Hq. cbn [String.eqb Ascii.eqb Bool.eqb].
    rewrite Hcalc, Ht, He. cbn [from_option id].
    rewrite create_appointment_taken by done. cbn [truthy].
    repeat branch; cbn [db trace]; rewrite ?added_app, ?added_nil;
      split_and!; try done; repeat constructor; done.
  - intros Hfree.
    assert (busy (appointments d) None t e = false) as Hb.
    { apply busy_false. intros j b ? _ ? ?. apply Hfree. exists j, b. tauto. }
    rewrite createAppointment_free by done.
    run_handler. rewrite Es, Hq. cbn [String.eqb Ascii.eqb Bool.eqb].
    rewrite Hcalc, Ht, He. cbn [from_option id].
    rewrite create_appointment_free by done. rewrite truthy_new.
    cbn [get_appointment_with_user engine_database]. unfold getAppointment.
    split_and!.
    + done.
    + repeat branch; reflexivity.
    + repeat branch; cbn [db]; apply find_new_appointment.
    + destruct (bot tr _) as [refusal|] eqn:Ereply.
      * cbn [fst snd trace]. by rewrite added_nil.
      * rewrite find_new_appointment. cbn [fmap option_fmap option_map].
        unfold user_field.
        repeat branch; cbn [trace]; rewrite <- ?(assoc_L (++)), added_app;
          eexists; (split; [apply elem_of_cons; right; apply list_elem_of_here
                           | reflexivity ]).
    + intros Hbot [u Hu]. rewrite !Hbot. rewrite find_new_appointment.
      cbn [fmap option_fmap option_map]. unfold user_field.
      cbn [appointment_data ad_user]. unfold user_of in *.
      cbn [users client_id] in *.
      destruct (dict_get (users d) (str (effective_user_id update)));
        [| by inversion Hu].
      cbn [trace]. rewrite ?Hbot. cbn [trace].
      repeat branch;
        try match goal with
            | Hx : bot _ _ = Some _ |- _ => rewrite Hbot in Hx; discriminate Hx
            end;
        try discriminate;
        cbn [trace]; rewrite <- ?(assoc_L (++)), added_app;
        eexists; apply elem_of_cons; right; apply list_elem_of_here.
Qed.

End BookingGuard.

Lemma taken_iff_busy (apps : list Engine.Appointment) (s e : datetime) :
  (∃ j b, apps !! j = Some b ∧ Engine.status b ≠ Engine.CANCELLED
          ∧ s < Engine.end_time b ∧ Engine.start_time b < e)
  ↔ Engine.busy apps None s e = true.
Proof.
  rewrite busy_true. split.
  - intros (j & b & ? & ? & ? & ?). exists j, b. split_and!; done.
  - intros (j & b & ? & _ & ? & ? & ?). exists j, b. split_and!; done.
Qed.

(** A haircut at 14:00: on the first day 13:30 to 14:30 is confirmed for
    somebody else; on the second day that appointment is cancelled and the
    next one starts at 14:30, when the haircut ends. *)
Lemma booking_guard_decides_on_overlap_witness :
  let session := {| selected_services := ["Стрижка"];
                    selected_date := Some Shop.today;
                    selected_time := Some (at_time Shop.today 14 0) |} in
  let taken_day :=
    Shop.world [Shop.booked "200" 13 30 60 Engine.CONFIRMED] [(100, session)] in
  let free_day :=
    Shop.world [Shop.booked "200" 13 30 60 Engine.CANCELLED;
                Shop.booked "200" 14 30 30 Engine.PENDING] [(100, session)] in
  let update := Shop.press 100 "confirm_appointment" in
  db (confirm_appointment Shop.reachable Shop.morning update taken_day).2
  = db taken_day
  ∧ Engine.find_appointment
      (db (confirm_appointment Shop.reachable Shop.morning update free_day).2) 3
    = Some {| Engine.client_id := "100"; Engine.services := ["Стрижка"];
              Engine.start_time := at_time Shop.today 14 0;
              Engine.end_time := at_time Shop.today 14 30;
              Engine.status := Engine.PENDING |}.
Proof.
  intros session taken_day free_day update. split.
  - destruct (booking_guard_decides_on_overlap Shop.reachable Shop.morning
                update taken_day (at_time Shop.today 14 0)
                (at_time Shop.today 14 30) 30) as [Htaken _];
      [vm_compute; reflexivity ..|].
    apply Htaken. apply taken_iff_busy. vm_compute. reflexivity.
  - destruct (booking_guard_decides_on_overlap Shop.reachable Shop.morning
                update free_day (at_time Shop.today 14 0)
                (at_time Shop.today 14 30) 30) as [_ Hfree];
      [vm_compute; reflexivity ..|].
    apply Hfree. rewrite taken_iff_busy. vm_compute. discriminate.
Defined.

(** C1, as the claim has it, fails: a request whose slot overlaps no
    appointment is stored as PENDING, and yet no notification is triggered,
    when Telegram refuses the reply to the client: the reply is awaited
    before the [try] that sends the notification, so the handler raises
    with the appointment in the database and nothing sent. *)
Lemma a_stored_appointment_without_notification :
  let session := {| selected_services := ["Стрижка"];
                    selected_date := Some Shop.today;
                    selected_time := Some (at_time Shop.today 14 0) |} in
  let w := Shop.world [Shop.booked "200" 14 30 30 Engine.PENDING] [(100, session)] in
  let update := Shop.press 100 "confirm_appointment" in
  let new := {| Engine.client_id := "100"; Engine.services := ["Стрижка"];
                Engine.start_time := at_time Shop.today 14 0;
                Engine.end_time := at_time Shop.today 14 30;
                Engine.status := Engine.PENDING |} in
  let refusing : list event → call → option exn :=
    fun _ c =>
      match c with
      | edit_message_text _ _ => Some (TelegramError "Timed out")
      | _ => None
      end in
  let after := confirm_appointment refusing Shop.morning update w in
  Engine.busy (Engine.appointments (db w)) None (at_time Shop.today 14 0)
    (at_time Shop.today 14 30) = false
  ∧ (Engine.createAppointment (db w) "100" ["Стрижка"] (at_time Shop.today 14 0)
       (at_time Shop.today 14 30)).2 = Engine.Accepted (2, new)
  ∧ Engine.find_appointment (db after.2) 2 = Some new
  ∧ after.1 = Raise (TelegramError "Timed out")
  ∧ trace after.2 = []
  ∧ session_of after.2 100 = session.
Proof. vm_compute. split_and!; reflexivity. Qed.

(** ** The lifecycle manager behind the status handlers *)

Section Lifecycle.

Import Engine.
Context `{!Config} `{!Schedule}.

(** An event that [legal_event] finds is a row of the table. *)
Lemma legal_event_Some (from to : Status) (who : list Actor) (e : Event) :
  legal_event from to who = Some e →
  ∃ actor, (from, e, to, actor) ∈ transitions ∧ actor ∈ who.
Proof.
  unfold legal_event.
  destruct (List.find _ transitions) as [[[[f e'] t] a]|] eqn:E; [| done].
  intros [= ->]. apply find_some in E as [Hin Hb].
  apply andb_true_iff in Hb as [Hb Ha]. apply andb_true_iff in Hb as [Hf Ht].
  apply bool_decide_eq_true in Hf as ->. apply bool_decide_eq_true in Ht as ->.
  apply bool_decide_eq_true in Ha.
  exists a. split; [by apply list_elem_of_In | done].
Qed.

Lemma legal_event_None (from to : Status) (who : list Actor) :
  (∀ e actor, actor ∈ who → (from, e, to, actor) ∉ transitions) →
  legal_event from to who = None.
Proof.
  intros Hno. unfold legal_event.
  destruct (List.find _ transitions) as [[[[f e'] t] a]|] eqn:E; [| done].
  apply find_some in E as [Hin Hb].
  apply andb_true_iff in Hb as [Hb Ha]. apply andb_true_iff in Hb as [Hf Ht].
  apply bool_decide_eq_true in Hf as ->. apply bool_decide_eq_true in Ht as ->.
  apply bool_decide_eq_true in Ha.
  destruct (Hno e' a Ha). by apply list_elem_of_In.
Qed.

(** The outcomes of a transition. *)
Lemma transition_accepted st i to who st' e a' :
  transition st i to who = (st', Accepted (e, a')) →
  ∃ k a actor,
    position i = Some k ∧ appointments st !! k = Some a
    ∧ (status a, e, to, actor) ∈ transitions ∧ actor ∈ who
    ∧ a' = set_status a to
    ∧ st' = {| appointments := <[k := a']> (appointments st);
               users := users st |}.
Proof.
  unfold transition.
  destruct (position i) as [k|]; [| done].
  destruct (appointments st !! k) as [a|] eqn:Ea; [| done].
  destruct (legal_event (status a) to who) as [e0|] eqn:El; [| done].
  destruct (bool_decide (status a = CANCELLED) && _); [done |].
  intros [= <- <- <-].
  destruct (legal_event_Some _ _ _ _ El) as (actor & Hin & Hwho).
  exists k, a, actor. split_and!; done.
Qed.

Lemma transition_rejected st i to who st' r :
  transition st i to who = (st', Rejected r) → st' = st.
Proof.
  unfold transition.
  destruct (position i) as [k|]; [| by intros [= <-]].
  destruct (appointments st !! k) as [a|]; [| by intros [= <-]].
  destruct (legal_event (status a) to who); [| by intros [= <-]].
  destruct (bool_decide (status a = CANCELLED) && _); [by intros [= <-] | done].
Qed.

Lemma transition_illegal st i to who a :
  find_appointment st i = Some a →
  (∀ e actor, actor ∈ who → (status a, e, to, actor) ∉ transitions) →
  transition st i to who = (st, Rejected IllegalTransition).
Proof.
  unfold find_appointment, transition. intros Hf Hno.
  destruct (position i) as [k|]; [| done]. simpl in Hf. rewrite Hf.
  by rewrite legal_event_None.
Qed.

(** A transition out of CANCELLED, by the provider. *)
Lemma revival_legal (to : Status) :
  to = PENDING ∨ to = CONFIRMED → is_Some (legal_event CANCELLED to [Provider]).
Proof. intros [-> | ->]; vm_compute; eauto. Qed.

Lemma transition_revival_taken st i k a to :
  position i = Some k → appointments st !! k = Some a → status a = CANCELLED →
  to = PENDING ∨ to = CONFIRMED →
  busy (appointments st) (Some k) (start_time a) (end_time a) = true →
  transition st i to [Provider] = (st, Rejected SlotNoLongerAvailable).
Proof.
  intros Hp Ha Hs Hto Hb. unfold transition. rewrite Hp, Ha, Hs.
  destruct (revival_legal to Hto) as [e ->].
  rewrite bool_decide_eq_true_2 by done. by rewrite Hb.
Qed.

Lemma transition_revival_free st i k a to :
  position i = Some k → appointments st !! k = Some a → status a = CANCELLED →
  to = PENDING ∨ to = CONFIRMED →
  busy (appointments st) (Some k) (start_time a) (end_time a) = false →
  ∃ e, transition st i to [Provider]
       = ({| appointments := <[k := set_status a to]> (appointments st);
             users := users st |},
          Accepted (e, set_status a to)).
Proof.
  intros Hp Ha Hs Hto Hb. unfold transition. rewrite Hp, Ha, Hs.
  destruct (revival_legal to Hto) as [e ->].
  rewrite Hb, andb_false_r. eauto.
Qed.

Lemma others_iff_busy (apps : list Appointment) (k : nat) (s e : datetime) :
  (∃ j b, j ≠ k ∧ apps !! j = Some b ∧ status b ≠ CANCELLED
          ∧ s < end_time b ∧ start_time b < e)
  ↔ busy apps (Some k) s e = true.
Proof.
  rewrite busy_true. split.
  - intros (j & b & ? & ? & ? & ? & ?). exists j, b.
    split_and!; try done. congruence.
  - intros (j & b & ? & ? & ? & ? & ?). exists j, b.
    split_and!; try done. congruence.
Qed.

End Lifecycle.

Section LifecycleHandlers.

Import Engine.
Context `{!Config} `{!Schedule}.

Lemma update_appointment_status_rejected (st : Store) i new_status to r :
  parse_status new_status = Some to →
  transition st i to [Provider] = (st, Rejected r) →
  update_appointment_status st i new_status = (st, false).
Proof.
  intros Hp Ht. cbn [update_appointment_status engine_database].
  unfold updateStatus. by rewrite Hp, Ht.
Qed.

Lemma cancel_appointment_rejected (st : Store) i r :
  transition st i CANCELLED [Client; Provider] = (st, Rejected r) →
  cancel_appointment st i = (st, false).
Proof.
  intros Ht. cbn [cancel_appointment engine_database].
  unfold cancelAppointment. by rewrite Ht.
Qed.

Lemma cancel_is_not_appointment (data : string) :
  startswith (CALLBACK_CANCEL_PREFIX +:+ data) CALLBACK_APPOINTMENT_PREFIX = false.
Proof. reflexivity. Qed.

Ltac quiet_trace :=
  repeat branch; cbn [db trace]; rewrite ?added_app, ?added_nil;
  split_and?; try done; repeat constructor; done.

(** C3: for a cancelled appointment, a restoration to PENDING or to
    CONFIRMED depends on the overlap check against the other appointments
    of the current timeline: when the slot overlaps one that is not
    cancelled, the transition is rejected with SlotNoLongerAvailable, and
    the handlers behind the two buttons that the master's keyboard shows
    for a cancelled appointment ([admin_confirm_appointment] and
    [admin_status_change]) leave the database as it was, the status
    CANCELLED, and attempt no notification; when it overlaps none, the
    transition is made. *)
Theorem revival_runs_the_overlap_check bot update (w : World Store) (i : Z)
    (k : nat) (a : Appointment) :
  let taken :=
    ∃ j b, j ≠ k ∧ appointments (db w) !! j = Some b ∧ status b ≠ CANCELLED
           ∧ start_time a < end_time b ∧ start_time b < end_time a in
  let quiet after :=
    db after = db w ∧ status <$> find_appointment after.(db) i = Some CANCELLED
    ∧ Forall (fun ev => blur ev ≠ Notification) (added (trace w) (trace after)) in
  position i = Some k → appointments (db w) !! k = Some a →
  status a = CANCELLED →
  str (effective_user_id update) = MASTER_TELEGRAM_ID →
  (∀ to, to = PENDING ∨ to = CONFIRMED →
     (taken →
        transition (db w) i to [Provider] = (db w, Rejected SlotNoLongerAvailable))
     ∧ (¬ taken →
        ∃ e, transition (db w) i to [Provider]
             = ({| appointments := <[k := set_status a to]> (appointments (db w));
                   users := users (db w) |},
                Accepted (e, set_status a to))))
  ∧ take 2 (callback_data
            <$> buttons (get_admin_appointment_actions_keyboard i "CANCELLED"))
    = [CALLBACK_ADMIN_CONFIRM +:+ str i;
       CALLBACK_ADMIN_STATUS +:+ "PENDING:" +:+ str i]
  ∧ (taken → query_data update = CALLBACK_ADMIN_CONFIRM +:+ str i →
     quiet (admin_confirm_appointment bot update w).2)
  ∧ (taken →
     query_data update = CALLBACK_ADMIN_STATUS +:+ "PENDING:" +:+ str i →
     quiet (admin_status_change bot update w).2).
Proof.
  cbv zeta. intros Hp Ha Hs Hm%String.eqb_eq.
  assert (find_appointment (db w) i = Some a) as Hfind.
  { unfold find_appointment. by rewrite Hp. }
  assert (∀ to, to = PENDING ∨ to = CONFIRMED →
            (∃ j b, j ≠ k ∧ appointments (db w) !! j = Some b
                    ∧ status b ≠ CANCELLED
                    ∧ start_time a < end_time b ∧ start_time b < end_time a) →
            transition (db w) i to [Provider]
            = (db w, Rejected SlotNoLongerAvailable)) as Hrej.
  { intros to Hto Ht. apply (transition_revival_taken _ _ k a); try done.
    by apply others_iff_busy. }
  split_and!.
  - intros to Hto. split; [by apply Hrej |].
    intros Hfree. apply transition_revival_free; try done.
    apply not_true_iff_false. by rewrite <- others_iff_busy.
  - reflexivity.
  - intros Ht Hq. destruct w as [d s tr]. cbn [db trace] in *.
    run_handler. rewrite Hm, Hq, startswith_app, slice_from_app, int_str.
    cbn [negb].
    rewrite (update_appointment_status_rejected d i "CONFIRMED" CONFIRMED
               SlotNoLongerAvailable) by (try done; apply Hrej; auto).
    repeat branch; cbn [db trace]; rewrite ?added_app, ?added_nil, Hfind;
      cbn [fmap option_fmap option_map]; rewrite Hs;
      split_and!; try done; repeat constructor; done.
  - intros Ht Hq. destruct w as [d s tr]. cbn [db trace] in *.
    run_handler. rewrite Hm, Hq, startswith_app, slice_from_app.
    cbn [negb].
    change (split ":" ("PENDING:" +:+ str i)) with ("PENDING" :: split ":" (str i)).
    rewrite split_str, int_str. cbv beta iota.
    rewrite (update_appointment_status_rejected d i "PENDING" PENDING
               SlotNoLongerAvailable) by (try done; apply Hrej; auto).
    repeat branch; cbn [db trace]; rewrite ?added_app, ?added_nil, Hfind;
      cbn [fmap option_fmap option_map]; rewrite Hs;
      split_and!; try done; repeat constructor; done.
Qed.

(** C4: a transition is made only along a row of the table, for an actor
    that can be behind the call; a request that no row covers is rejected
    with IllegalTransition, as is a status that does not exist, and a
    rejection changes nothing.  In particular the cancellation of a
    cancelled appointment by a client is rejected with IllegalTransition:
    [view_appointments] leaves the database as it was, attempts no
    notification and reports the failure. *)
Theorem transitions_follow_the_table bot update (w : World Store) (i : Z)
    (to : Status) (who : list Actor) (a : Appointment) :
  find_appointment (db w) i = Some a →
  (∀ st' e a',
     transition (db w) i to who = (st', Accepted (e, a')) →
     ∃ actor, (status a, e, to, actor) ∈ transitions ∧ actor ∈ who
              ∧ status a' = to)
  ∧ (∀ st' r, transition (db w) i to who = (st', Rejected r) → st' = db w)
  ∧ ((∀ e actor, actor ∈ who → (status a, e, to, actor) ∉ transitions) →
     transition (db w) i to who = (db w, Rejected IllegalTransition))
  ∧ (∀ new_status, parse_status new_status = None →
     updateStatus (db w) i new_status = (db w, Rejected IllegalTransition))
  ∧ (status a = CANCELLED →
     cancelAppointment (db w) i = (db w, Rejected IllegalTransition)
     ∧ (query_data update = CALLBACK_CANCEL_PREFIX +:+ str i →
        let after := (view_appointments bot update w).2 in
        db after = db w
        ∧ Forall (fun ev => blur ev ≠ Notification) (added (trace w) (trace after))
        ∧ (bot (trace w)
             (edit_message_text
                "Произошла ошибка при отмене записи. Пожалуйста, попробуйте еще раз."
                None) = None →
           added (trace w) (trace after)
           = [Called (edit_message_text
                "Произошла ошибка при отмене записи. Пожалуйста, попробуйте еще раз."
                None)]))).
Proof.
  intros Hfind.
  assert (status a = CANCELLED →
          transition (db w) i CANCELLED [Client; Provider]
          = (db w, Rejected IllegalTransition)) as Hcancel.
  { intros Hs. apply (transition_illegal _ _ _ _ a Hfind).
    rewrite Hs. intros e actor _ Hin.
    unfold transitions in Hin.
    repeat (apply elem_of_cons in Hin as [[=] | Hin]).
    by apply elem_of_nil in Hin. }
  split_and!.
  - intros st' e a' Ht.
    destruct (transition_accepted _ _ _ _ _ _ _ Ht)
      as (k & a0 & actor & Hp & Ha & Hin & Hwho & -> & _).
    unfold find_appointment in Hfind. rewrite Hp in Hfind. simpl in Hfind.
    assert (a0 = a) as -> by congruence.
    exists actor. split_and!; done.
  - intros st' r Ht. by apply transition_rejected in Ht.
  - by apply transition_illegal.
  - intros new_status Hn. unfold updateStatus. by rewrite Hn, Hfind.
  - intros Hs. split; [by apply Hcancel |].
    intros Hq. destruct w as [d s tr]. cbn [db trace] in *.
    run_handler. rewrite Hq, cancel_is_not_appointment, startswith_app,
      slice_from_app, int_str. cbv beta iota.
    rewrite (cancel_appointment_rejected d i IllegalTransition) by auto.
    split_and!.
    + repeat branch; reflexivity.
    + quiet_trace.
    + intros ->. cbn [trace]. by rewrite added_app.
Qed.

(** The keyboards of [main.py] show, for a status, the buttons of the events
    that the table allows from it: the master's keyboard those of the
    provider, the client's keyboard those of the client. *)
Lemma keyboards_offer_the_table (i : Z) (s : Status) :
  callback_data <$> buttons (get_admin_appointment_actions_keyboard i (status_name s))
  = (request_of i <$> offered s Provider)
    ++ ["admin_message_client:" +:+ str i; "back_to_admin_list"]
  ∧ callback_data <$> buttons (get_appointment_actions_keyboard i (status_name s))
    = (request_of i <$> offered s Client) ++ ["back_to_appointments"].
Proof. destruct s; split; reflexivity. Qed.

End LifecycleHandlers.

(** The appointment of 10:00 to 11:00 was cancelled and 10:30 to 11:30 was
    booked since: the master cannot restore it.  Next to an appointment
    from 11:00 to 12:00 it can be restored. *)
Lemma revival_runs_the_overlap_check_witness :
  let cancelled := Shop.booked "200" 10 0 60 Engine.CANCELLED in
  let taken_day :=
    Shop.world [cancelled; Shop.booked "100" 10 30 60 Engine.PENDING] [] in
  let free_day :=
    Shop.world [cancelled; Shop.booked "100" 11 0 60 Engine.PENDING] [] in
  let confirm := Shop.press 1 "admin_confirm:1" in
  let restore := Shop.press 1 "admin_status:PENDING:1" in
  db (admin_confirm_appointment Shop.reachable confirm taken_day).2 = db taken_day
  ∧ db (admin_status_change Shop.reachable restore taken_day).2 = db taken_day
  ∧ ∃ e, Engine.transition (db free_day) 1 Engine.CONFIRMED [Engine.Provider]
         = ({| Engine.appointments :=
                 [Engine.set_status cancelled Engine.CONFIRMED;
                  Shop.booked "100" 11 0 60 Engine.PENDING];
               Engine.users := Engine.users (db free_day) |},
            Engine.Accepted (e, Engine.set_status cancelled Engine.CONFIRMED)).
Proof.
  intros cancelled taken_day free_day confirm restore.
  assert (∃ j b, j ≠ 0%nat ∧ Engine.appointments (db taken_day) !! j = Some b
                 ∧ Engine.status b ≠ Engine.CANCELLED
                 ∧ Engine.start_time cancelled < Engine.end_time b
                 ∧ Engine.start_time b < Engine.end_time cancelled) as Htaken.
  { apply others_iff_busy. vm_compute. reflexivity. }
  split; [| split].
  - destruct (revival_runs_the_overlap_check Shop.reachable confirm taken_day
                1 0%nat cancelled) as (_ & _ & Hconfirm & _);
      [vm_compute; reflexivity ..|].
    apply Hconfirm; [exact Htaken | reflexivity].
  - destruct (revival_runs_the_overlap_check Shop.reachable restore taken_day
                1 0%nat cancelled) as (_ & _ & _ & Hrestore);
      [vm_compute; reflexivity ..|].
    apply Hrestore; [exact Htaken | reflexivity].
  - destruct (revival_runs_the_overlap_check Shop.reachable confirm free_day
                1 0%nat cancelled) as (Htransition & _);
      [vm_compute; reflexivity ..|].
    apply Htransition; [by right |].
    rewrite others_iff_busy. vm_compute. discriminate.
Defined.

(** A client cancels twice. *)
Lemma transitions_follow_the_table_witness :
  let cancelled := Shop.booked "100" 10 0 30 Engine.CANCELLED in
  let w := Shop.world [cancelled] [] in
  let update := Shop.press 100 "cancel:1" in
  Engine.cancelAppointment (db w) 1 = (db w, Engine.Rejected Engine.IllegalTransition)
  ∧ db (view_appointments Shop.reachable update w).2 = db w
  ∧ Engine.updateStatus (db w) 1 "DONE"
    = (db w, Engine.Rejected Engine.IllegalTransition).
Proof.
  intros cancelled w update.
  destruct (transitions_follow_the_table Shop.reachable update w 1
              Engine.CANCELLED [Engine.Client; Engine.Provider] cancelled)
    as (_ & _ & _ & Hunknown & Htwice); [vm_compute; reflexivity |].
  destruct Htwice as [Hrejected Hhandler]; [reflexivity |].
  destruct Hhandler as (Hdb & _); [reflexivity |].
  split_and!; [exact Hrejected | exact Hdb | by apply Hunknown].
Defined.

Example the_master_restores_over_a_booking :
  let w := Shop.world [Shop.booked "200" 10 0 60 Engine.CANCELLED;
                       Shop.booked "100" 10 30 60 Engine.PENDING] [] in
  let r := admin_confirm_appointment Shop.reachable
             (Shop.press 1 "admin_confirm:1") w in
  r.1 = Ok None
  ∧ db r.2 = db w
  ∧ trace r.2 = [Called (answer "Произошла ошибка при подтверждении записи!")].
Proof. vm_compute. split_and!; reflexivity. Qed.

(** ** The availability filter behind [get_time_keyboard] *)

(** The rows of a keyboard hold the list they were cut from. *)
Lemma concat_chunks_go {A : Type} (fuel n : nat) (l : list A) :
  (0 < n)%nat → (length l ≤ fuel)%nat → concat (chunks_go fuel n l) = l.
Proof.
  intros Hn. revert l. induction fuel as [|fuel IH]; intros l Hl.
  - destruct l; [done | simpl in Hl; lia].
  - destruct l as [|x l]; [done |].
    change (chunks_go (S fuel) n (x :: l))
      with (take n (x :: l) :: chunks_go fuel n (drop n (x :: l))).
    rewrite concat_cons, IH.
    + apply take_drop.
    + rewrite length_drop. simpl in *. lia.
Qed.

Lemma concat_chunks {A : Type} (n : nat) (l : list A) :
  (0 < n)%nat → concat (chunks n l) = l.
Proof. intros Hn. by apply concat_chunks_go. Qed.

Lemma concat_fmap_rows {A B : Type} (f : A → B) (rows : list (list A)) :
  concat ((fun row : list A => f <$> row) <$> rows) = f <$> concat rows.
Proof.
  induction rows as [|r rows IH]; [done |].
  by rewrite fmap_cons, !concat_cons, IH, fmap_app.
Qed.

Section Availability.

Import Engine.
Context `{!Config} `{!Schedule}.

(** The keyboard shows the available slots, all of them and in their
    order, three to a row. *)
Lemma get_time_keyboard_buttons (st : Store) (now : datetime) (d : date)
    (total : Z) :
  buttons (get_time_keyboard st now d total)
  = match available st now d total with
    | [] => [ {| text := "Нет доступных слотов на эту дату";
                 callback_data := "no_slots" |} ]
    | slots => time_button <$> slots
    end
    ++ [ {| text := "Назад к выбору даты"; callback_data := "back_to_date" |};
         {| text := "Отмена"; callback_data := "cancel" |} ].
Proof.
  unfold get_time_keyboard, buttons.
  cbn [get_available_slots engine_services].
  destruct (available st now d total) as [|c slots] eqn:E; [done |].
  rewrite !concat_app, concat_fmap_rows, concat_chunks by lia.
  reflexivity.
Qed.

Lemma free_slot_true (st : Store) (now : datetime) (d : date) (total : Z)
    (c : datetime) :
  free_slot st now d total c = true
  ↔ ∃ close, closing_time d = Some close
             ∧ c + total * US_PER_MINUTE ≤ close ∧ now ≤ c
             ∧ busy (appointments st) None c (c + total * US_PER_MINUTE) = false.
Proof.
  unfold free_slot. destruct (closing_time d) as [close|].
  - rewrite !andb_true_iff, !negb_true_iff, Z.leb_le, Z.ltb_ge. split.
    + intros [[? ?] ?]. exists close. done.
    + intros (? & [= <-] & ? & ? & ?). done.
  - split; [done | by intros (? & ? & _)].
Qed.

Lemma available_elem_of (st : Store) (now : datetime) (d : date) (total : Z)
    (c : datetime) :
  c ∈ available st now d total
  ↔ c ∈ generate d ∧ free_slot st now d total c = true.
Proof. unfold available. rewrite list_elem_of_filter. tauto. Qed.

(** C7: a candidate slot that ends by closing time and is not in the past
    stays, and its button is on the keyboard, when every appointment that
    is not cancelled ends by its start or starts at its end or later: an
    appointment that starts exactly when the slot ends does not overlap
    it.  A candidate whose slot would end after closing time is dropped. *)
Theorem availability_keeps_touching_slots (st : Store) (now : datetime)
    (d : date) (total : Z) (c close : datetime) :
  let e := c + total * US_PER_MINUTE in
  closing_time d = Some close →
  c ∈ generate d →
  (∀ b, start_time b = e → overlap c e (start_time b) (end_time b) = false)
  ∧ (e ≤ close → now ≤ c →
     (∀ j b, appointments st !! j = Some b → status b ≠ CANCELLED →
             end_time b ≤ c ∨ e ≤ start_time b) →
     c ∈ available st now d total
     ∧ time_button c ∈ buttons (get_time_keyboard st now d total))
  ∧ (close < e → c ∉ available st now d total).
Proof.
  cbv zeta. intros Hclose Hgen. split_and!.
  - intros b Hb. apply not_true_iff_false. rewrite overlap_true. lia.
  - intros He Hnow Hdisjoint.
    assert (c ∈ available st now d total) as Hin.
    { apply available_elem_of. split; [done |].
      apply free_slot_true. exists close. split_and!; try done.
      apply busy_false. intros j b Hb _ Hs Ho.
      destruct (Hdisjoint j b Hb Hs); lia. }
    split; [done |].
    rewrite get_time_keyboard_buttons.
    destruct (available st now d total) as [|c' slots] eqn:E.
    + by apply elem_of_nil in Hin.
    + apply elem_of_app. left. by apply list_elem_of_fmap_2.
  - intros He [_ Hfree]%available_elem_of.
    apply free_slot_true in Hfree as (close' & Hc & ? & _).
    assert (close' = close) as -> by congruence. lia.
Qed.

End Availability.

(** Open from 09:00 to 18:00, a slot every 30 minutes, one confirmed
    appointment from 10:00 to 11:00, a service of 30 minutes: 09:30 is
    kept, 10:00 and 10:30 are dropped, 11:00 is kept; with a service of 60
    minutes 17:30 is dropped. *)
Lemma availability_keeps_touching_slots_witness :
  let st := db (Shop.world [Shop.booked "200" 10 0 60 Engine.CONFIRMED] []) in
  at_time Shop.today 9 30 ∈ Engine.available st Shop.morning Shop.today 30
  ∧ at_time Shop.today 17 30 ∉ Engine.available st Shop.morning Shop.today 60.
Proof.
  intros st. split.
  - destruct (availability_keeps_touching_slots st Shop.morning Shop.today 30
                (at_time Shop.today 9 30) (at_time Shop.today 18 0))
      as (_ & Hkept & _).
    + reflexivity.
    + vm_compute. apply list_elem_of_further, list_elem_of_here.
    + apply Hkept.
      * vm_compute. discriminate.
      * vm_compute. discriminate.
      * intros [|[|j]] b [= <-] _; right; vm_compute; discriminate.
  - destruct (availability_keeps_touching_slots st Shop.morning Shop.today 60
                (at_time Shop.today 17 30) (at_time Shop.today 18 0))
      as (_ & _ & Hdropped).
    + reflexivity.
    + vm_compute. do 17 apply list_elem_of_further. apply list_elem_of_here.
    + apply Hdropped. vm_compute. reflexivity.
Defined.

Example the_slots_of_a_day :
  let st := db (Shop.world [Shop.booked "200" 10 0 60 Engine.CONFIRMED] []) in
  strftime_HM <$> Engine.available st Shop.morning Shop.today 30
  = ["09:00"; "09:30"; "11:00"; "11:30"; "12:00"; "12:30"; "13:00"; "13:30";
     "14:00"; "14:30"; "15:00"; "15:30"; "16:00"; "16:30"; "17:00"; "17:30"].
Proof. vm_compute. reflexivity. Qed.
(** ** The keyboards of the booking flow and of the master's list *)

Lemma mapM_Ok {A B : Type} (f : A → result B) (g : A → B) (l : list A) :
  (∀ x, x ∈ l → f x = Ok (g x)) → mapM f l = Ok (g <$> l).
Proof.
  induction l as [|x l IH]; intros Hall; [done |].
  cbn [mapM]. rewrite (Hall x) by left. cbn [mbind result_bind].
  rewrite IH by (intros y Hy; apply Hall; by right). done.
Qed.

Lemma chunks_go_rows {A : Type} (fuel n : nat) (l : list A) :
  Forall (fun row => (length row ≤ n)%nat ∧ row ⊆ l) (chunks_go fuel n l).
Proof.
  revert l. induction fuel as [|fuel IH]; intros l.
  - destruct l; constructor.
  - destruct l as [|x l]; [constructor |].
    change (chunks_go (S fuel) n (x :: l))
      with (take n (x :: l) :: chunks_go fuel n (drop n (x :: l))).
    constructor.
    + split; [rewrite length_take; lia |].
      apply subseteq_take.
    + eapply Forall_impl; [apply IH |]. intros row [Hlen Hsub].
      split; [done |]. etrans; [exact Hsub | apply subseteq_drop].
Qed.

Lemma dict_getitem_key {V : Type} (d : list (string * V)) (k : string) :
  k ∈ d.*1 → ∃ v, dict_getitem d k = Ok v.
Proof.
  unfold dict_getitem. induction d as [|[k' v] d IH]; intros Hin.
  - by apply elem_of_nil in Hin.
  - cbn [dict_get]. destruct (String.eqb k' k) eqn:E; [eauto |].
    apply IH. cbn in Hin. apply elem_of_cons in Hin as [-> | Hin]; [| done].
    by rewrite String.eqb_refl in E.
Qed.

Section BookingKeyboards.

Context {D : Type} `{!Config} `{!Database D} `{!Services D}.

(** The rows of the services, whatever the selection: they are built
    without an error, hold at most two buttons each, and carry the names of
    the catalog in its order. *)
Lemma service_rows (selected : list string) :
  ∃ rows, mapM (mapM (service_button selected)) (chunks 2 SERVICES.*1) = Ok rows
          ∧ callback_data <$> concat rows
            = (fun name => CALLBACK_SERVICES_PREFIX +:+ name) <$> SERVICES.*1
          ∧ Forall (fun row => (length row ≤ 2)%nat) rows.
Proof.
  pose (label name :=
          (if contains name selected then "✅ " else EmptyString)
          +:+ name +:+ " ("
          +:+ str (default 0 (dict_get SERVICES name)) +:+ " мин)").
  pose (button name :=
          {| text := label name;
             callback_data := CALLBACK_SERVICES_PREFIX +:+ name |}).
  assert (∀ name, name ∈ SERVICES.*1 →
            service_button selected name = Ok (button name)) as Hb.
  { intros name Hin. unfold service_button, button, label, dict_getitem.
    destruct (dict_getitem_key SERVICES name Hin) as [v Hv].
    unfold dict_getitem in Hv. destruct (dict_get SERVICES name); [| done].
    reflexivity. }
  pose proof (chunks_go_rows (length SERVICES.*1) 2 SERVICES.*1) as Hrows.
  fold (chunks 2 SERVICES.*1) in Hrows.
  exists ((fun row : list string => button <$> row) <$> chunks 2 SERVICES.*1).
  split_and!.
  - apply mapM_Ok. intros row Hrow.
    apply mapM_Ok. intros name Hname. apply Hb.
    rewrite Forall_forall in Hrows. by apply (Hrows row Hrow).
  - rewrite concat_fmap_rows, concat_chunks by lia.
    rewrite <- list_fmap_compose. done.
  - apply Forall_fmap. eapply Forall_impl; [exact Hrows |].
    intros row [Hlen _]. cbn. by rewrite length_fmap.
Qed.

End BookingKeyboards.


(** ** The list of the master *)

Section AdminList.

Implicit Types l : list AppointmentData.

Lemma insert_by_start_perm x l : insert_by_start x l ≡ₚ x :: l.
Proof.
  induction l as [|y l IH]; [done |].
  cbn [insert_by_start]. destruct (ad_start_time x <? ad_start_time y); [done |].
  rewrite IH. apply Permutation_swap.
Qed.

Lemma insert_by_start_sorted x l :
  StronglySorted (fun a b => ad_start_time a ≤ ad_start_time b) l →
  StronglySorted (fun a b => ad_start_time a ≤ ad_start_time b)
    (insert_by_start x l).
Proof.
  induction 1 as [|y l Hs IH Hall]; [repeat constructor |].
  cbn [insert_by_start].
  destruct (ad_start_time x <? ad_start_time y) eqn:E.
  - apply Z.ltb_lt in E. constructor; [by constructor |].
    constructor; [lia |].
    eapply Forall_impl; [exact Hall |]. cbn. intros z ?. lia.
  - apply Z.ltb_ge in E. constructor; [done |].
    rewrite insert_by_start_perm. by constructor.
Qed.

Lemma filter_start_none l (t : datetime) :
  Forall (fun a => ad_start_time a ≠ t) l →
  filter (fun a => ad_start_time a = t) l = [].
Proof.
  induction 1 as [|y l Hy _ IH]; [done |].
  by rewrite filter_cons_False.
Qed.

(** Appointments that start together keep the order they came in. *)
Lemma insert_by_start_stable x l (t : datetime) :
  StronglySorted (fun a b => ad_start_time a ≤ ad_start_time b) l →
  filter (fun a => ad_start_time a = t) (insert_by_start x l)
  = filter (fun a => ad_start_time a = t) (l ++ [x]).
Proof.
  induction 1 as [|y l Hs IH Hall]; [done |].
  cbn [insert_by_start].
  destruct (ad_start_time x <? ad_start_time y) eqn:E.
  - apply Z.ltb_lt in E. rewrite filter_app.
    destruct (decide (ad_start_time x = t)) as [Hx | Hx].
    + rewrite (filter_cons_True _ x) by done.
      assert (filter (fun a => ad_start_time a = t) (y :: l) = []) as ->.
      { apply filter_start_none. constructor; [lia |].
        eapply Forall_impl; [exact Hall |]. cbn. intros z ?. lia. }
      by rewrite filter_cons_True.
    + rewrite (filter_cons_False _ x) by done.
      rewrite (filter_cons_False _ x []) by done.
      by rewrite filter_nil, app_nil_r.
  - change ((y :: l) ++ [x]) with (y :: (l ++ [x])).
    rewrite !filter_cons. by rewrite IH.
Qed.

Lemma sorted_by_start_spec acc l :
  StronglySorted (fun a b => ad_start_time a ≤ ad_start_time b) acc →
  let shown := foldl (fun acc x => insert_by_start x acc) acc l in
  shown ≡ₚ acc ++ l
  ∧ StronglySorted (fun a b => ad_start_time a ≤ ad_start_time b) shown
  ∧ ∀ t, filter (fun a => ad_start_time a = t) shown
         = filter (fun a => ad_start_time a = t) (acc ++ l).
Proof.
  cbv zeta. revert acc. induction l as [|x l IH]; intros acc Hacc.
  - by rewrite app_nil_r.
  - cbn [foldl].
    destruct (IH (insert_by_start x acc)) as (Hp & Hs & Hst);
      [by apply insert_by_start_sorted |].
    split_and!; [| done |].
    + rewrite Hp, insert_by_start_perm. apply Permutation_middle.
    + intros t. rewrite Hst, !filter_app, insert_by_start_stable by done.
      rewrite filter_app, (filter_cons _ x l), (filter_cons _ x []), filter_nil.
      destruct (decide (ad_start_time x = t)); by rewrite <- ?(assoc_L (++)), ?app_nil_r.
Qed.

End AdminList.

(** ** The sessions *)

Section Sessions.

Context {D : Type} `{!Config} `{!Database D} `{!Services D} `{!Runtime}.

Ltac others_session :=
  intros;
  match goal with w : World _ |- _ => destruct w as [? ? ?] end;
  run_handler;
  repeat branch; cbn [snd user_data_dict];
  rewrite ?lookup_insert_ne by done; try reflexivity.

Lemma start_others bot update (w : World D) (other : Z) :
  other ≠ effective_user_id update →
  user_data_dict (start bot update w).2 !! other = user_data_dict w !! other.
Proof. others_session. Qed.

Lemma main_menu_others bot update (w : World D) (other : Z) :
  other ≠ effective_user_id update →
  user_data_dict (main_menu bot update w).2 !! other = user_data_dict w !! other.
Proof. others_session. Qed.

Lemma select_services_others bot now update (w : World D) (other : Z) :
  other ≠ effective_user_id update →
  user_data_dict (select_services bot now update w).2 !! other
  = user_data_dict w !! other.
Proof. others_session. Qed.

Lemma select_date_others bot now update (w : World D) (other : Z) :
  other ≠ effective_user_id update →
  user_data_dict (select_date bot now update w).2 !! other
  = user_data_dict w !! other.
Proof. others_session. Qed.

Lemma select_time_others bot now update (w : World D) (other : Z) :
  other ≠ effective_user_id update →
  user_data_dict (select_time bot now update w).2 !! other
  = user_data_dict w !! other.
Proof. others_session. Qed.

Lemma confirm_appointment_others bot now update (w : World D) (other : Z) :
  other ≠ effective_user_id update →
  user_data_dict (confirm_appointment bot now update w).2 !! other
  = user_data_dict w !! other.
Proof. others_session. Qed.

Lemma cancel_others bot update (w : World D) (other : Z) :
  other ≠ effective_user_id update →
  user_data_dict (cancel bot update w).2 !! other = user_data_dict w !! other.
Proof. others_session. Qed.

Ltac no_session :=
  intros;
  match goal with w : World _ |- _ => destruct w as [? ? ?] end;
  run_handler; repeat branch; reflexivity.

Lemma view_appointments_sessions bot update (w : World D) :
  user_data_dict (view_appointments bot update w).2 = user_data_dict w.
Proof. no_session. Qed.

Lemma admin_menu_sessions bot now update (w : World D) :
  user_data_dict (admin_menu bot now update w).2 = user_data_dict w.
Proof. no_session. Qed.

Lemma admin_status_change_sessions bot update (w : World D) :
  user_data_dict (admin_status_change bot update w).2 = user_data_dict w.
Proof. no_session. Qed.

Lemma admin_view_appointment_sessions bot update (w : World D) :
  user_data_dict (admin_view_appointment bot update w).2 = user_data_dict w.
Proof. no_session. Qed.

Lemma admin_confirm_appointment_sessions bot update (w : World D) :
  user_data_dict (admin_confirm_appointment bot update w).2 = user_data_dict w.
Proof. no_session. Qed.

End Sessions.

(** A handler changes no session but the one of the user of the update. *)
Lemma run_others_session {D : Type} `{!Config} `{!Database D} `{!Services D}
    `{!Runtime} bot now h update (w : World D) (other : Z) :
  other ≠ effective_user_id update →
  user_data_dict (run bot now h update w).2 !! other = user_data_dict w !! other.
Proof.
  intros Hne. destruct h; unfold run.
  - by apply start_others.
  - by apply main_menu_others.
  - by apply select_services_others.
  - by apply select_date_others.
  - by apply select_time_others.
  - by apply confirm_appointment_others.
  - by rewrite view_appointments_sessions.
  - by rewrite admin_menu_sessions.
  - by rewrite admin_status_change_sessions.
  - by rewrite admin_view_appointment_sessions.
  - by rewrite admin_confirm_appointment_sessions.
  - by apply cancel_others.
Qed.


(** ** The conversation *)

Section ConversationFacts.

Context {D : Type} `{!Config} `{!Database D} `{!Services D} `{!Runtime}.

(** The handler that takes an update is registered for the state of the
    conversation, or it is the entry point or the fallback, which listen to
    commands. *)
Lemma choose_cases (st : option ConvState) (a : Arrival) (h : Handler) :
  choose st a = Some h →
  match st with
  | None => h = Start ∧ kind (update a) = TextMessage
  | Some s => h ∈ (states s).*2 ∨ (h = Cancel ∧ kind (update a) = TextMessage)
  end.
Proof.
  assert (∀ name, listens (OnCommand name) a = true →
                  kind (update a) = TextMessage) as Hcommand.
  { intros name. unfold listens. by destruct (kind (update a)). }
  destruct st as [s|]; unfold choose, first_match.
  - destruct (List.find _ (states s)) as [[t h']|] eqn:E.
    + intros [= <-]. left. apply List.find_some in E as [Hin _].
      apply list_elem_of_In in Hin.
      apply list_elem_of_fmap. by exists (t, h').
    + cbn [fallbacks List.find fmap option_fmap option_map].
      destruct (listens (OnCommand "cancel") a) eqn:El; [| done].
      intros [= <-]. right. eauto.
  - cbn [entry_points List.find].
    destruct (listens (OnCommand "start") a) eqn:El; [| done].
    intros [= <-]. eauto.
Qed.

Ltac outcome :=
  match goal with w : World _ |- _ => destruct w as [? ? ?] end;
  run_handler; repeat branch; cbn [fst snd];
  try discriminate.

(** The state [ADMIN_MENU] is returned to the master only. *)
Lemma run_returns_the_panel bot now h update (w : World D) :
  (run bot now h update w).1 = Ok (Some ADMIN_MENU) →
  str (effective_user_id update) = MASTER_TELEGRAM_ID.
Proof.
  destruct h; outcome; intros _.
  all: match goal with
       | E : String.eqb _ MASTER_TELEGRAM_ID = true |- _ =>
           by apply String.eqb_eq in E
       | E : negb (String.eqb _ MASTER_TELEGRAM_ID) = false |- _ =>
           apply negb_false_iff in E; by apply String.eqb_eq in E
       | E : _ && String.eqb _ MASTER_TELEGRAM_ID = true |- _ =>
           apply andb_true_iff in E as [_ E]; by apply String.eqb_eq in E
       end.
Qed.

End ConversationFacts.

Section FlowFacts.

Context {D : Type} `{!Config} `{!Database D} `{!Services D} `{!Runtime}.

Ltac outcome :=
  match goal with w : World _ |- _ => destruct w as [? ? ?] end;
  run_handler; repeat branch; cbn [fst snd];
  try discriminate.

(** The handlers outside the booking flow return states that ask nothing
    of the session. *)
Lemma run_returns_a_menu bot now h update (w : World D) (s' : ConvState) :
  h ∈ [Start; MainMenu; ViewAppointments; AdminMenu; AdminStatusChange;
       AdminViewAppointment; AdminConfirmAppointment; Cancel] →
  (run bot now h update w).1 = Ok (Some s') →
  ∀ session, collected s' session.
Proof.
  intros Hin.
  repeat (apply elem_of_cons in Hin as [-> | Hin]);
    [.. | by apply elem_of_nil in Hin].
  all: outcome; intros [= <-] session; exact I.
Qed.

Ltac flow :=
  unfold session_of;
  match goal with w : World _ |- _ => destruct w as [? s ?] end;
  run_handler;
  match goal with
  | |- context [?s !! ?k] =>
      destruct (s !! k) as [?|] eqn:?; cbn [default from_option id]
  end;
  intros; repeat branch; cbn [fst snd user_data_dict];
  rewrite ?lookup_insert_eq;
  try match goal with E : _ !! _ = _ |- _ => rewrite ?E end;
  cbn [default from_option id];
  simplify_eq/=; eauto; try congruence;
  try (destruct_and?; split_and?; by eauto).

Lemma select_services_collected bot now update (w : World D) :
  match (select_services bot now update w).1 with
  | Ok (Some s') =>
      collected s'
        (session_of (select_services bot now update w).2 (effective_user_id update))
  | _ => True
  end.
Proof. flow. Qed.

Lemma select_date_collected bot now update (w : World D) :
  collected SELECTING_DATE (session_of w (effective_user_id update)) →
  match (select_date bot now update w).1 with
  | Ok (Some s') =>
      collected s'
        (session_of (select_date bot now update w).2 (effective_user_id update))
  | _ =>
      collected SELECTING_DATE
        (session_of (select_date bot now update w).2 (effective_user_id update))
  end.
Proof. flow. Qed.

Lemma select_time_collected bot now update (w : World D) :
  collected SELECTING_TIME (session_of w (effective_user_id update)) →
  match (select_time bot now update w).1 with
  | Ok (Some s') =>
      collected s'
        (session_of (select_time bot now update w).2 (effective_user_id update))
  | _ =>
      collected SELECTING_TIME
        (session_of (select_time bot now update w).2 (effective_user_id update))
  end.
Proof. flow. Qed.

Lemma confirm_appointment_collected bot now update (w : World D) :
  collected CONFIRMING_APPOINTMENT (session_of w (effective_user_id update)) →
  match (confirm_appointment bot now update w).1 with
  | Ok (Some s') =>
      collected s'
        (session_of (confirm_appointment bot now update w).2
           (effective_user_id update))
  | _ =>
      collected CONFIRMING_APPOINTMENT
        (session_of (confirm_appointment bot now update w).2
           (effective_user_id update))
  end.
Proof. flow. Qed.

End FlowFacts.

Section ConversationInvariants.

Context {D : Type} `{!Config} `{!Database D} `{!Services D} `{!Runtime}.

(** [/cancel] ends in the main menu when its reply goes through. *)
Lemma cancel_command bot update (w : World D) :
  kind update = TextMessage →
  (∀ tr msg markup, bot tr (reply_text msg markup) = None) →
  (cancel bot update w).1 = Ok (Some MAIN_MENU).
Proof.
  intros Hk Hr. destruct w as [d s tr]. run_handler. rewrite Hk.
  repeat branch; rewrite ?Hr in *; simplify_eq; reflexivity.
Qed.

Lemma run_collected bot now h update (w : World D) (s0 : ConvState) :
  (∀ tr msg markup, bot tr (reply_text msg markup) = None) →
  h ∈ (states s0).*2 ∨ (h = Cancel ∧ kind update = TextMessage) →
  collected s0 (session_of w (effective_user_id update)) →
  match (run bot now h update w).1 with
  | Ok (Some s') =>
      collected s' (session_of (run bot now h update w).2 (effective_user_id update))
  | _ =>
      collected s0 (session_of (run bot now h update w).2 (effective_user_id update))
  end.
Proof.
  intros Hr [Hin | [-> Hk]] Hc.
  - destruct s0; cbn in Hin;
      repeat (apply elem_of_cons in Hin as [-> | Hin]);
      try (by apply elem_of_nil in Hin).
    all: try (by apply select_services_collected).
    all: try (by apply select_date_collected).
    all: try (by apply select_time_collected).
    all: try (by apply confirm_appointment_collected).
    all: destruct (run _ _ _ _ _).1 as [[s'|]|] eqn:E; try exact I.
    all: eapply run_returns_a_menu; [| exact E]; repeat constructor.
  - unfold run. by rewrite cancel_command.
Qed.

Lemma process_collected bot now (a : Arrival) (b : Bot D) :
  (∀ tr msg markup, bot tr (reply_text msg markup) = None) →
  (∀ uid s, conversations b !! uid = Some s →
            collected s (session_of (world_of b) uid)) →
  ∀ uid s, conversations (process bot now a b) !! uid = Some s →
           collected s (session_of (world_of (process bot now a b)) uid).
Proof.
  intros Hr Hb uid s. unfold process.
  destruct (choose _ a) as [h|] eqn:Ec; [| apply Hb].
  apply choose_cases in Ec.
  destruct (run bot now h (update a) (world_of b)) as [r w'] eqn:Er.
  cbn [conversations world_of].
  destruct (decide (uid = effective_user_id (update a))) as [-> | Hne].
  - destruct (conversations b !! effective_user_id (update a)) as [s0|] eqn:Es.
    + pose proof (run_collected bot now h (update a) (world_of b) s0 Hr Ec
                    (Hb _ _ Es)) as Hrun.
      rewrite Er in Hrun. cbn [fst snd] in Hrun.
      destruct r as [[s'|]|e].
      * rewrite lookup_insert_eq. by intros [= <-].
      * rewrite Es. by intros [= <-].
      * rewrite Es. by intros [= <-].
    + destruct Ec as [-> _].
      destruct r as [[s'|]|e]; [| by rewrite Es | by rewrite Es].
      rewrite lookup_insert_eq. intros [= <-].
      apply (run_returns_a_menu bot now Start (update a) (world_of b));
        [repeat constructor | by rewrite Er].
  - assert (session_of w' uid = session_of (world_of b) uid) as ->.
    { unfold session_of.
      pose proof (run_others_session bot now h (update a) (world_of b) uid Hne)
        as Ho.
      rewrite Er in Ho. cbn [snd] in Ho. by rewrite Ho. }
    destruct r as [[s'|]|e]; rewrite ?lookup_insert_ne by done; apply Hb.
Qed.

Lemma process_the_panel bot now (a : Arrival) (b : Bot D) :
  (∀ uid, conversations b !! uid = Some ADMIN_MENU →
          str uid = MASTER_TELEGRAM_ID) →
  ∀ uid, conversations (process bot now a b) !! uid = Some ADMIN_MENU →
         str uid = MASTER_TELEGRAM_ID.
Proof.
  intros Hb uid. unfold process.
  destruct (choose _ a) as [h|] eqn:Ec; [| apply Hb].
  destruct (run bot now h (update a) (world_of b)) as [r w'] eqn:Er.
  cbn [conversations].
  destruct r as [[s'|]|e]; try apply Hb.
  destruct (decide (uid = effective_user_id (update a))) as [-> | Hne].
  - rewrite lookup_insert_eq. intros [= ->].
    apply (run_returns_the_panel bot now h (update a) (world_of b)).
    by rewrite Er.
  - rewrite lookup_insert_ne by done. apply Hb.
Qed.

End ConversationInvariants.




(** ** Which handler takes which button *)

Lemma str_chars (i : Z) :
  Forall (fun c => is_digit c ∨ c = "-"%char) (list_ascii_of_string (str i)).
Proof.
  assert (∀ p : positive,
            Forall (fun c => is_digit c ∨ c = "-"%char)
              (list_ascii_of_string (pretty p))) as Hp.
  { intros p. destruct (digits_pretty_positive p) as [Hd _].
    eapply Forall_impl; [exact Hd |]. by left. }
  unfold str. destruct i as [|p|p].
  - constructor; [left; by exists 0 | constructor].
  - apply Hp.
  - change (pretty (Z.neg p)) with ("-" +:+ pretty p).
    change (list_ascii_of_string ("-" +:+ pretty p))
      with ("-"%char :: list_ascii_of_string (pretty p)).
    constructor; [by right | apply Hp].
Qed.

Lemma rest_matches_one_line (s : string) :
  Forall (fun c => c ≠ ascii_of_nat 10) (list_ascii_of_string s) →
  rest_matches s = true.
Proof.
  induction s as [|c s IH]; [done |].
  cbn [list_ascii_of_string]. intros [Hc Hs]%Forall_cons.
  cbn [rest_matches]. apply Ascii.eqb_neq in Hc as ->. by apply IH.
Qed.

Lemma rest_matches_str (i : Z) : rest_matches (str i) = true.
Proof.
  apply rest_matches_one_line.
  eapply Forall_impl; [apply str_chars |].
  intros c [[d Hd] | ->] E; [| discriminate E]. rewrite E in Hd. discriminate Hd.
Qed.

Lemma admin_list_rows_data (l : list AppointmentData) (data : string) :
  data ∈ callback_data <$> concat (admin_list_row <$> l) →
  ∃ i, data = CALLBACK_ADMIN_LIST +:+ str i.
Proof.
  induction l as [|a l IH]; cbn [fmap list_fmap concat]; intros Hin.
  - by apply elem_of_nil in Hin.
  - cbn in Hin. apply elem_of_cons in Hin as [-> | Hin]; [eauto |].
    by apply IH.
Qed.

Section Routing.

Context {D : Type} `{!Config} `{!Database D} `{!Services D} `{!Runtime}.

(** In the panel, a press whose data are a registered prefix and an
    identifier goes to the handler of the prefix. *)
Lemma choose_in_the_panel (a : Arrival) (i : Z) :
  kind (update a) = CallbackQuery →
  (query_data (update a) = CALLBACK_ADMIN_LIST +:+ str i →
     choose (Some ADMIN_MENU) a = Some AdminViewAppointment)
  ∧ (query_data (update a) = CALLBACK_ADMIN_CONFIRM +:+ str i →
     choose (Some ADMIN_MENU) a = Some AdminConfirmAppointment)
  ∧ (query_data (update a) = CALLBACK_ADMIN_CANCEL +:+ str i →
     choose (Some ADMIN_MENU) a = Some AdminConfirmAppointment)
  ∧ (query_data (update a) = CALLBACK_ADMIN_STATUS +:+ "PENDING:" +:+ str i →
     choose (Some ADMIN_MENU) a = Some AdminStatusChange)
  ∧ (query_data (update a) = "admin_message_client:" +:+ str i →
     choose (Some ADMIN_MENU) a = None).
Proof.
  intros Hk. pose proof (rest_matches_str i) as Hi.
  unfold choose, first_match, states, fallbacks, listens, pattern_matches.
  rewrite Hk. cbv beta iota.
  split_and!; intros ->; cbn [List.find existsb].
  all: repeat match goal with
       | |- context [startswith (?p +:+ ?r) ?p] =>
           rewrite (startswith_app p r), (slice_from_app p r)
       | |- context [startswith ?s ?p] => change (startswith s p) with false
       end.
  all: try change (rest_matches ("PENDING:" +:+ str i)) with (rest_matches (str i)).
  all: rewrite ?Hi; reflexivity.
Qed.

End Routing.

Section Dispatch.

Context {D : Type} `{!Config} `{!Database D} `{!Services D} `{!Runtime}.

(** A text message is no press of a button, and a press no command. *)
Lemma choose_press_outside (a : Arrival) :
  kind (update a) = CallbackQuery →
  choose None a = None ∧ choose (Some MAIN_MENU) a = None.
Proof.
  intros Hk.
  unfold choose, first_match, states, entry_points, fallbacks, listens.
  rewrite Hk. done.
Qed.

Lemma choose_start_inside (a : Arrival) (s : ConvState) :
  kind (update a) = TextMessage → command a = Some "start" →
  choose (Some s) a = None.
Proof.
  intros Hk Hc.
  unfold choose, first_match, states, fallbacks, listens.
  destruct s; rewrite Hk, Hc; cbn; by rewrite ?andb_false_r.
Qed.

Lemma choose_cancel_inside (a : Arrival) (s : ConvState) :
  kind (update a) = TextMessage → command a = Some "cancel" →
  choose (Some s) a = Some Cancel.
Proof.
  intros Hk Hc.
  unfold choose, first_match, states, fallbacks, listens.
  destruct s; rewrite Hk, Hc; cbn; by rewrite ?andb_false_r.
Qed.

(** A conversation that has begun does not end: no handler returns
    [ConversationHandler.END]. *)
Lemma process_keeps_conversations bot now (a : Arrival) (b : Bot D) (uid : Z) :
  is_Some (conversations b !! uid) →
  is_Some (conversations (process bot now a b) !! uid).
Proof.
  intros Hb. unfold process.
  destruct (choose _ a) as [h|]; [| done].
  destruct (run bot now h (update a) (world_of b)) as [[[s'|]|e] w'];
    cbn [conversations]; try done.
  destruct (decide (uid = effective_user_id (update a))) as [-> | Hne].
  - rewrite lookup_insert_eq. eauto.
  - by rewrite lookup_insert_ne.
Qed.

Lemma process_all_keeps_conversations bot arrivals (b : Bot D) (uid : Z) :
  is_Some (conversations b !! uid) →
  is_Some (conversations (process_all bot arrivals b) !! uid).
Proof.
  revert b. induction arrivals as [|[now a] arrivals IH]; intros b Hb; [done |].
  cbn [process_all foldl]. apply IH. by apply process_keeps_conversations.
Qed.

End Dispatch.












(** ** The steps of the booking flow at their edges *)










(** ** The lists of appointments and their buttons *)



(** ** Callback data that the handlers cannot read *)





(** ** The panel and other users *)



(** ** Where the database is written *)






(** ** Dates in callback data

    The date keyboard writes a date with [isoformat] and [select_date]
    reads it with [fromisoformat]: what is read is what was written. *)

(** A check of the numbers below [n], by computation. *)
Lemma below_by_computation (p : N → bool) (n : N) :
  N.recursion true (fun k acc => acc && p k) n = true →
  ∀ k, (k < n)%N → p k = true.
Proof.
  induction n as [|n IH] using N.peano_ind; intros Hn k Hk; [lia |].
  rewrite N.recursion_succ in Hn; [| done | solve_proper].
  apply andb_true_iff in Hn as [Hn Hp].
  destruct (decide (k = n)) as [-> | Hne]; [done |].
  apply IH; [done | lia].
Qed.

(** The calendar repeats every 400 years, which are 146097 days. *)
Lemma is_leap_400 (y a : Z) : is_leap (y + 400 * a) = is_leap y.
Proof.
  unfold is_leap.
  replace ((y + 400 * a) mod 4) with (y mod 4)
    by (rewrite <- (Z.mod_add y (100 * a) 4) by lia; f_equal; lia).
  replace ((y + 400 * a) mod 100) with (y mod 100)
    by (rewrite <- (Z.mod_add y (4 * a) 100) by lia; f_equal; lia).
  replace ((y + 400 * a) mod 400) with (y mod 400)
    by (rewrite <- (Z.mod_add y a 400) by lia; f_equal; lia).
  done.
Qed.

Lemma days_in_month_400 (y a m : Z) :
  days_in_month (y + 400 * a) m = days_in_month y m.
Proof. unfold days_in_month. by rewrite is_leap_400. Qed.

Lemma days_before_month_400 (y a m : Z) :
  days_before_month (y + 400 * a) m = days_before_month y m.
Proof.
  unfold days_before_month. f_equal. apply list_fmap_ext.
  intros _ k _. apply days_in_month_400.
Qed.

Lemma days_before_year_400 (y a : Z) :
  days_before_year (y + 400 * a) = days_before_year y + 146097 * a.
Proof.
  unfold days_before_year. cbv zeta.
  replace ((y + 400 * a - 1) / 4) with ((y - 1) / 4 + 100 * a)
    by (rewrite <- (Z.div_add (y - 1) (100 * a) 4) by lia; f_equal; lia).
  replace ((y + 400 * a - 1) / 100) with ((y - 1) / 100 + 4 * a)
    by (rewrite <- (Z.div_add (y - 1) (4 * a) 100) by lia; f_equal; lia).
  replace ((y + 400 * a - 1) / 400) with ((y - 1) / 400 + a)
    by (rewrite <- (Z.div_add (y - 1) a 400) by lia; f_equal; lia).
  lia.
Qed.

Lemma ord2ymd_400 (r a : Z) :
  0 ≤ r < 146097 → 0 ≤ a →
  ord2ymd (146097 * a + r + 1)
  = let '(y, m, dd) := ord2ymd (r + 1) in (y + 400 * a, m, dd).
Proof.
  intros Hr Ha. unfold ord2ymd. cbv zeta.
  replace (146097 * a + r + 1 - 1) with (r + a * 146097) by lia.
  replace (r + 1 - 1) with r by lia.
  rewrite Z.div_add, Z.mod_add by lia.
  rewrite (Z.div_small r 146097), (Z.mod_small r 146097) by lia.
  repeat case_match; simplify_eq; f_equal; try f_equal; lia.
Qed.

Lemma ymd2ord_400 (y m dd a n : Z) :
  0 ≤ a → y + 400 * a ≤ 9999 →
  ymd2ord y m dd = Ok n →
  ymd2ord (y + 400 * a) m dd = Ok (146097 * a + n).
Proof.
  intros Ha Hy. unfold ymd2ord.
  rewrite days_in_month_400, days_before_month_400, days_before_year_400.
  destruct (_ && _) eqn:E; [| done]. intros [= <-].
  repeat (apply andb_true_iff in E as [E ?]).
  apply Z.leb_le in E.
  assert ((1 <=? y + 400 * a) = true) as -> by (apply Z.leb_le; lia).
  assert ((y + 400 * a <=? 9999) = true) as -> by (apply Z.leb_le; lia).
  cbn [andb].
  repeat match goal with H : _ = true |- _ => rewrite H; clear H end.
  cbn [andb]. f_equal. lia.
Qed.

(** One period of the calendar, day by day. *)
Lemma one_period (r : Z) :
  0 ≤ r < 146097 →
  let '(y, m, dd) := ord2ymd (r + 1) in
  ymd2ord y m dd = Ok (r + 1) ∧ 1 ≤ y ≤ 400 ∧ (r ≤ 145730 → y ≤ 399)
  ∧ 1 ≤ m ≤ 12 ∧ 1 ≤ dd ≤ 31.
Proof.
  intros Hr.
  pose (check := fun k : N =>
          let r := Z.of_N k in
          let '(y, m, dd) := ord2ymd (r + 1) in
          match ymd2ord y m dd with
          | Ok n => (n =? r + 1) && (1 <=? y) && (y <=? 400)
                    && ((145730 <? r) || (y <=? 399))
                    && (1 <=? m) && (m <=? 12) && (1 <=? dd) && (dd <=? 31)
          | Raise _ => false
          end).
  assert (check (Z.to_N r) = true) as Hc.
  { apply (below_by_computation check 146097); [| lia].
    vm_compute. reflexivity. }
  unfold check in Hc. cbv zeta in Hc. rewrite Z2N.id in Hc by lia.
  destruct (ord2ymd (r + 1)) as [[y m] dd].
  destruct (ymd2ord y m dd) as [n|]; [| done].
  repeat (apply andb_true_iff in Hc as [Hc ?]).
  apply Z.eqb_eq in Hc as ->.
  repeat match goal with
         | H : (_ <=? _) = true |- _ => apply Z.leb_le in H
         | H : _ || _ = true |- _ => apply orb_true_iff in H
         end.
  split_and!; try done; lia.
Qed.

(** The year, the month and the day of a date are read back as the date. *)
Lemma ymd2ord_ord2ymd (d : date) :
  1 ≤ d ≤ MAXORDINAL →
  let '(y, m, dd) := ord2ymd d in
  ymd2ord y m dd = Ok d ∧ 1 ≤ y ≤ 9999 ∧ 1 ≤ m ≤ 12 ∧ 1 ≤ dd ≤ 31.
Proof.
  unfold MAXORDINAL. intros Hd.
  pose (a := (d - 1) / 146097). pose (r := (d - 1) mod 146097).
  assert (d = 146097 * a + r + 1) as Hdar.
  { unfold a, r. pose proof (Z.div_mod (d - 1) 146097 ltac:(lia)). lia. }
  assert (0 ≤ r < 146097) as Hr by (apply Z.mod_pos_bound; lia).
  assert (0 ≤ a ≤ 24) as Ha.
  { unfold a. split; [apply Z.div_pos; lia |].
    enough ((d - 1) / 146097 < 25) by lia.
    apply Z.div_lt_upper_bound; lia. }
  rewrite Hdar, ord2ymd_400 by lia.
  pose proof (one_period r Hr) as Hone.
  destruct (ord2ymd (r + 1)) as [[y m] dd].
  destruct Hone as (Hord & Hy & Hlast & Hm & Hdd).
  assert (y + 400 * a ≤ 9999) as Hmax.
  { destruct (decide (a = 24)) as [-> | Hne]; [| lia].
    assert (r ≤ 145730) by lia. specialize (Hlast ltac:(done)). lia. }
  split_and!; try lia.
  rewrite (ymd2ord_400 y m dd a (r + 1)) by (done || lia).
  f_equal. lia.
Qed.

(** The digits that [isoformat] writes are read back as the numbers. *)
Lemma pad4_read (y : Z) :
  0 ≤ y ≤ 9999 →
  ∃ c1 c2 c3 c4,
    pad4 y = String c1 (String c2 (String c3 (String c4 EmptyString)))
    ∧ number [c1; c2; c3; c4] = Some y.
Proof.
  intros Hy.
  pose (check := fun k : N =>
          match pad4 (Z.of_N k) with
          | String c1 (String c2 (String c3 (String c4 EmptyString))) =>
              bool_decide (number [c1; c2; c3; c4] = Some (Z.of_N k))
          | _ => false
          end).
  assert (check (Z.to_N y) = true) as Hc.
  { apply (below_by_computation check 10000); [| lia].
    vm_compute. reflexivity. }
  unfold check in Hc. rewrite Z2N.id in Hc by lia.
  destruct (pad4 y) as [|c1 [|c2 [|c3 [|c4 [|? ?]]]]]; try done.
  apply bool_decide_eq_true in Hc. eauto 10.
Qed.

Lemma pad2_read (n : Z) :
  0 ≤ n ≤ 99 →
  ∃ c1 c2, pad2 n = String c1 (String c2 EmptyString)
           ∧ number [c1; c2] = Some n.
Proof.
  intros Hn.
  pose (check := fun k : N =>
          match pad2 (Z.of_N k) with
          | String c1 (String c2 EmptyString) =>
              bool_decide (number [c1; c2] = Some (Z.of_N k))
          | _ => false
          end).
  assert (check (Z.to_N n) = true) as Hc.
  { apply (below_by_computation check 100); [| lia].
    vm_compute. reflexivity. }
  unfold check in Hc. rewrite Z2N.id in Hc by lia.
  destruct (pad2 n) as [|c1 [|c2 [|? ?]]]; try done.
  apply bool_decide_eq_true in Hc. eauto.
Qed.

Lemma isoformat_chars (d : date) :
  1 ≤ d ≤ MAXORDINAL →
  ∃ l, list_ascii_of_string (isoformat d) = l ∧ length l = 10%nat
       ∧ parse_date l = Ok d.
Proof.
  intros Hd. pose proof (ymd2ord_ord2ymd d Hd) as Hymd.
  unfold isoformat.
  destruct (ord2ymd d) as [[y m] dd].
  destruct Hymd as (Hord & Hy & Hm & Hdd).
  destruct (pad4_read y) as (y1 & y2 & y3 & y4 & -> & Hny); [lia |].
  destruct (pad2_read m) as (m1 & m2 & -> & Hnm); [lia |].
  destruct (pad2_read dd) as (d1 & d2 & -> & Hnd); [lia |].
  exists [y1; y2; y3; y4; "-"%char; m1; m2; "-"%char; d1; d2].
  split_and!; [reflexivity | reflexivity |].
  unfold parse_date. change (Ascii.eqb "-" "-") with true. cbn [andb].
  by rewrite Hny, Hnm, Hnd.
Qed.

(** [date.fromisoformat(d.isoformat())] is [d]. *)
Lemma date_fromisoformat_isoformat (d : date) :
  1 ≤ d ≤ MAXORDINAL → strict_date_fromisoformat (isoformat d) = Ok d.
Proof.
  intros Hd. unfold strict_date_fromisoformat.
  by destruct (isoformat_chars d Hd) as (l & -> & _ & ->).
Qed.

(** The decimal digits of [str]: they are read back as the number, and a
    number below [10 ^ k] has at most [k] of them. *)
Lemma number_pretty_N_go (x : N) (s : string) :
  (0 < x)%N →
  foldl (fun acc c => n ← acc; d ← digit_of c; Some (10 * n + d)) (Some 0)
    (list_ascii_of_string (pretty_N_go x s))
  = foldl (fun acc c => n ← acc; d ← digit_of c; Some (10 * n + d))
      (Some (Z.of_N x)) (list_ascii_of_string s).
Proof.
  revert s. induction (N.lt_wf_0 x) as [x _ IH]; intros s Hx.
  rewrite pretty_N_go_step by done.
  assert (x `mod` 10 < 10)%N as Hm by (apply N.mod_lt; lia).
  pose proof (N.div_mod x 10 ltac:(lia)) as Hdm.
  destruct (decide (x `div` 10 = 0)%N) as [E | E].
  - rewrite E, pretty_N_go_0. cbn [list_ascii_of_string foldl].
    cbn [mbind option_bind]. rewrite pretty_N_char_digit by done.
    cbn [mbind option_bind]. do 2 f_equal. rewrite E in Hdm. lia.
  - rewrite IH; [| apply N.div_lt; lia | lia].
    cbn [list_ascii_of_string foldl].
    cbn [mbind option_bind]. rewrite pretty_N_char_digit by done.
    cbn [mbind option_bind]. do 2 f_equal. lia.
Qed.

Lemma length_pretty_N_go (k : nat) (x : N) (s : string) :
  (10 ^ N.of_nat k ≤ x < 10 ^ N.of_nat (S k))%N →
  String.length (pretty_N_go x s) = (S k + String.length s)%nat.
Proof.
  revert x s. induction k as [|k IH]; intros x s Hx.
  - change (10 ^ N.of_nat 0)%N with 1%N in Hx.
    change (10 ^ N.of_nat 1)%N with 10%N in Hx.
    rewrite pretty_N_go_step by lia.
    rewrite (N.div_small x 10) by lia. by rewrite pretty_N_go_0.
  - rewrite pretty_N_go_step.
    + rewrite IH; [cbn [String.length]; lia |].
      rewrite !Nat2N.inj_succ, !N.pow_succ_r' in *.
      pose proof (N.div_mod x 10 ltac:(lia)).
      assert (x `mod` 10 < 10)%N by (apply N.mod_lt; lia).
      split; [apply N.div_le_lower_bound; lia |].
      apply N.Div0.div_lt_upper_bound; lia.
    + assert (0 < 10 ^ N.of_nat (S k))%N; [| lia].
      apply N.neq_0_lt_0, N.pow_nonzero. lia.
Qed.

Lemma str_read (k : nat) (n : Z) :
  10 ^ Z.of_nat k ≤ n < 10 ^ Z.of_nat (S k) →
  String.length (str n) = S k
  ∧ foldl (fun acc c => n ← acc; d ← digit_of c; Some (10 * n + d)) (Some 0)
      (list_ascii_of_string (str n))
    = Some n.
Proof.
  intros Hn.
  assert (0 < n) as Hpos.
  { pose proof (Z.pow_pos_nonneg 10 (Z.of_nat k)). lia. }
  destruct n as [|p|p]; try lia.
  unfold str. change (pretty (Z.pos p)) with (pretty p).
  unfold pretty, pretty_positive, pretty, pretty_N.
  destruct (decide (N.pos p = 0%N)); [done |]. split.
  - rewrite (length_pretty_N_go k); [cbn; lia |].
    rewrite <- (N2Z.id (10 ^ N.of_nat k)), <- (N2Z.id (10 ^ N.of_nat (S k))).
    rewrite !N2Z.inj_pow, !nat_N_Z. cbn [Z.of_N]. lia.
  - by rewrite number_pretty_N_go.
Qed.

Ltac read_digits k n :=
  let Hlen := fresh "Hlen" in
  let Hnum := fresh "Hnum" in
  destruct (str_read k n) as [Hlen Hnum];
  [ cbn; lia
  | destruct (str n) as [|? [|? [|? [|? [|? [|? [|? ?]]]]]]];
    try discriminate Hlen;
    do 6 eexists; split; [reflexivity |];
    unfold number; cbn [list_ascii_of_string] in Hnum;
    cbn [foldl]; exact Hnum ].

Lemma pad6_read (n : Z) :
  0 ≤ n ≤ 999999 →
  ∃ c1 c2 c3 c4 c5 c6,
    pad6 n = String c1 (String c2 (String c3 (String c4 (String c5
               (String c6 EmptyString)))))
    ∧ number [c1; c2; c3; c4; c5; c6] = Some n.
Proof.
  intros Hn. destruct (decide (n = 0)) as [-> | Hne].
  { by exists "0"%char, "0"%char, "0"%char, "0"%char, "0"%char, "0"%char. }
  unfold pad6. repeat case_match;
    repeat match goal with
           | H : (_ <? _) = true |- _ => apply Z.ltb_lt in H
           | H : (_ <? _) = false |- _ => apply Z.ltb_ge in H
           end.
  - read_digits 0%nat n.
  - read_digits 1%nat n.
  - read_digits 2%nat n.
  - read_digits 3%nat n.
  - read_digits 4%nat n.
  - read_digits 5%nat n.
Qed.

Lemma list_ascii_of_string_app (s1 s2 : string) :
  list_ascii_of_string (s1 +:+ s2)
  = list_ascii_of_string s1 ++ list_ascii_of_string s2.
Proof.
  induction s1 as [|c s1 IH]; [done |].
  change (c :: list_ascii_of_string (s1 +:+ s2)
          = c :: (list_ascii_of_string s1 ++ list_ascii_of_string s2)).
  by rewrite IH.
Qed.

(** [datetime.fromisoformat(t.isoformat())] is [t]. *)
Lemma datetime_fromisoformat_isoformat (t : datetime) :
  0 ≤ t ≤ MAXDATETIME →
  strict_datetime_fromisoformat (datetime_isoformat t) = Ok t.
Proof.
  unfold MAXDATETIME, MAXORDINAL, US_PER_DAY. intros Ht.
  unfold strict_datetime_fromisoformat, datetime_isoformat, date_of, US_PER_DAY.
  cbv zeta.
  assert (0 ≤ t mod 86400000000 < 86400000000) as Hus
    by (apply Z.mod_pos_bound; lia).
  pose proof (Z.div_mod t 86400000000 ltac:(lia)) as Hday.
  assert (0 ≤ t / 86400000000 < 3652059) as Hd.
  { split; [apply Z.div_pos; lia | apply Z.div_lt_upper_bound; lia]. }
  set (us := t mod 86400000000) in *.
  set (secs := us / 1000000). set (frac := us mod 1000000).
  assert (0 ≤ frac < 1000000) as Hfrac by (apply Z.mod_pos_bound; lia).
  pose proof (Z.div_mod us 1000000 ltac:(lia)) as Hsecs.
  fold secs frac in Hsecs.
  assert (0 ≤ secs < 86400) as Hs.
  { unfold secs. split; [apply Z.div_pos; lia | apply Z.div_lt_upper_bound; lia]. }
  set (h := secs / 3600). set (mi := (secs / 60) mod 60). set (c := secs mod 60).
  assert (0 ≤ h < 24 ∧ 0 ≤ mi < 60 ∧ 0 ≤ c < 60 ∧ secs = (h * 60 + mi) * 60 + c)
    as (Hh & Hmi & Hc & Hhms).
  { unfold h, mi, c.
    pose proof (Z.div_mod secs 60 ltac:(lia)).
    pose proof (Z.div_mod (secs / 60) 60 ltac:(lia)).
    pose proof (Z.mod_pos_bound secs 60 ltac:(lia)).
    pose proof (Z.mod_pos_bound (secs / 60) 60 ltac:(lia)).
    assert (secs / 3600 = secs / 60 / 60) as ->
      by (rewrite Z.div_div by lia; done).
    assert (0 ≤ secs / 60 < 1440)
      by (split; [apply Z.div_pos; lia | apply Z.div_lt_upper_bound; lia]).
    assert (0 ≤ secs / 60 / 60 < 24)
      by (split; [apply Z.div_pos; lia | apply Z.div_lt_upper_bound; lia]).
    lia. }
  destruct (isoformat_chars (t / 86400000000 + 1)) as (l & Hl & Hlen & Hparse);
    [unfold MAXORDINAL; lia |].
  destruct (pad2_read h) as (h1 & h2 & -> & Hnh); [lia |].
  destruct (pad2_read mi) as (m1 & m2 & -> & Hnm); [lia |].
  destruct (pad2_read c) as (c1 & c2 & -> & Hnc); [lia |].
  rewrite list_ascii_of_string_app, Hl.
  rewrite take_app_length' by done. rewrite Hparse. cbn [mbind result_bind].
  rewrite drop_app_length' by done.
  assert ((h <? 24) && (mi <? 60) && (c <? 60) = true) as Hrange.
  { rewrite !andb_true_iff, !Z.ltb_lt. lia. }
  destruct (frac =? 0) eqn:Ef.
  - apply Z.eqb_eq in Ef.
    rewrite !list_ascii_of_string_app. cbn [list_ascii_of_string app].
    change (Ascii.eqb "T" "T") with true. cbv iota.
    unfold parse_time. change (Ascii.eqb ":" ":") with true. cbn [andb].
    rewrite Hnh, Hnm, Hnc, Hrange. cbn [mbind result_bind]. f_equal. lia.
  - apply Z.eqb_neq in Ef.
    destruct (pad6_read frac) as (f1 & f2 & f3 & f4 & f5 & f6 & -> & Hnf);
      [lia |].
    rewrite !list_ascii_of_string_app. cbn [list_ascii_of_string app].
    change (Ascii.eqb "T" "T") with true. cbv iota.
    unfold parse_time. change (Ascii.eqb ":" ":") with true. cbn [andb].
    rewrite Hnh, Hnm, Hnc, Hrange, Hnf.
    change (Ascii.eqb "." ".") with true. cbn [mbind result_bind]. f_equal. lia.
Qed.

Section ReadBack.

Context {D : Type} `{!Config} `{!Database D} `{!Services D}.

Lemma get_date_keyboard_data (today : date) (kb : InlineKeyboardMarkup) :
  1 ≤ today ≤ MAXORDINAL - 6 →
  get_date_keyboard today = Ok kb →
  callback_data <$> buttons kb
  = ((fun i => CALLBACK_DATE_PREFIX +:+ isoformat (today + i))
     <$> [0; 1; 2; 3; 4; 5; 6])
    ++ ["cancel"].
Proof.
  intros Hr. unfold get_date_keyboard.
  change (Z.of_nat <$> seq 0 7) with [0; 1; 2; 3; 4; 5; 6].
  cbn [mapM mbind mret result_bind result_ret].
  destruct (date_row_day today 0) as [l0 ->]; [lia |].
  destruct (date_row_day today 1) as [l1 ->]; [lia |].
  destruct (date_row_day today 2) as [l2 ->]; [lia |].
  destruct (date_row_day today 3) as [l3 ->]; [lia |].
  destruct (date_row_day today 4) as [l4 ->]; [lia |].
  destruct (date_row_day today 5) as [l5 ->]; [lia |].
  destruct (date_row_day today 6) as [l6 ->]; [lia |].
  by intros [= <-].
Qed.

Lemma get_time_keyboard_data (d : D) (now : datetime) (date : date)
    (duration_minutes : Z) :
  callback_data <$> buttons (get_time_keyboard d now date duration_minutes)
  = match get_available_slots d now date duration_minutes with
    | [] => ["no_slots"]
    | slots =>
        (fun slot => CALLBACK_TIME_PREFIX +:+ datetime_isoformat slot) <$> slots
    end
    ++ ["back_to_date"; "cancel"].
Proof.
  unfold get_time_keyboard, buttons.
  destruct (get_available_slots d now date duration_minutes) as [|x l] eqn:E;
    [done |].
  rewrite !concat_app, !fmap_app, concat_fmap_rows, concat_chunks by lia.
  rewrite <- list_fmap_compose. done.
Qed.

End ReadBack.




